(** * NPG-Lite firmware flasher: a shallow embedding of the flashing session,
      the firmware cache and the release fetcher

    The component [ESP32Flasher] and the IndexedDB helper functions above it
    are embedded as programs of a small resumption monad: an [async] function
    is a tree whose nodes are the calls it makes to the platform (Web Serial,
    esptool-js, IndexedDB, fetch, the clock, the confirm dialog) and whose
    edges are the replies.  React state and refs are one record, [Session],
    threaded through the tree; a continuation receives the session as it is
    when the call settles, so the state seen after an [await] is the live
    one, while a state variable read from the closure keeps the value of the
    render in which the function was created.  [run] interprets a program
    against a handler for the platform and records the calls made, in
    order.

    Statements about the device session and about the selection hold for
    every handler.  Statements about what the cache holds and about the
    winner of the fallback chain need to know what the platform answers:
    they are made on a reference platform, [platform], in which IndexedDB is
    a map of object stores with faults that can be injected, the network is
    a function of the URL, and the device follows a script.

    Numbers: the progress formula is computed with exact rationals where
    JavaScript uses binary64; division by zero yields [NaN] or [Infinity] as
    in JavaScript, and [parseInt] rounds to binary64 as JavaScript does.
    Strings are sequences of bytes (UTF-8 for text).  [console] output is
    not modelled. *)

From stdpp Require Import gmap strings list pretty.
From Stdlib Require Import Ascii QArith Qround.

Open Scope string_scope.
Open Scope list_scope.

(** ** JavaScript values *)

(** A thrown value: an [Error] (or [DOMException]) with its message, or
    anything else.  [error instanceof Error ? error.message : 'Unknown error']
    is [errorMessage]. *)
Inductive JsThrown : Type :=
| JsError (message : string)
| JsNonError.

Definition errorMessage (error : JsThrown) : string :=
  match error with
  | JsError message => message
  | JsNonError => "Unknown error"
  end.

(** How a promise settles, or how a call that may throw returns. *)
Inductive Result (A : Type) : Type :=
| Ok (a : A)
| Thrown (e : JsThrown).
Arguments Ok {A} a.
Arguments Thrown {A} e.

(** The integral JavaScript numbers this code produces: the result of
    [Math.round] and of [parseInt]. *)
Inductive JsNumber : Type :=
| Num (z : Z)
| Infinity
| NegInfinity
| NaN.

(** [a <= b] on numbers; every comparison with [NaN] is false. *)
Definition js_le (a b : JsNumber) : bool :=
  match a, b with
  | Num x, Num y => (x <=? y)%Z
  | Num _, Infinity => true
  | Infinity, Infinity => true
  | NegInfinity, Num _ => true
  | NegInfinity, Infinity => true
  | NegInfinity, NegInfinity => true
  | _, _ => false
  end.

(** The binary64 number nearest to a natural number: a number of at most
    53 binary digits is itself; a longer one keeps its 53 leading digits,
    rounded to the nearest, to the even one of two, and is [Infinity] when
    that rounding reaches 2^1024. *)
Definition toBinary64 (n : N) : JsNumber :=
  let digits := N.size n in
  if (digits <=? 53)%N then Num (Z.of_N n)
  else
    let e := (digits - 53)%N in
    let q := N.shiftr n e in
    let r := N.land n (N.ones e) in
    let half := N.shiftl 1 (e - 1) in
    let q' := if (half <? r)%N || ((r =? half)%N && N.odd q) then (q + 1)%N else q in
    let rounded := N.shiftl q' e in
    if (1024 <? N.size rounded)%N then Infinity else Num (Z.of_N rounded).

(** [Math.round]: the nearest integer, ties towards +Infinity. *)
Definition Math_round (q : Q) : Z := Qfloor (q + (1 # 2)).

(** ** Strings *)

Definition codes (s : string) : list N := map Ascii.N_of_ascii (String.list_ascii_of_string s).
Definition ofCodes (l : list N) : string := String.string_of_list_ascii (map Ascii.ascii_of_N l).

(** White space and line terminators of ECMAScript, in UTF-8: one, two and
    three byte encodings. *)
Definition ws1 (a : N) : bool := (((9 <=? a) && (a <=? 13)) || (a =? 32))%N.
Definition ws2 (a b : N) : bool := ((a =? 194) && (b =? 160))%N.
Definition ws3 (a b c : N) : bool :=
  (((a =? 225) && (b =? 154) && (c =? 128))
   || ((a =? 226) && (b =? 128) &&
       (((128 <=? c) && (c <=? 138)) || (c =? 168) || (c =? 169) || (c =? 175)))
   || ((a =? 226) && (b =? 129) && (c =? 159))
   || ((a =? 227) && (b =? 128) && (c =? 128))
   || ((a =? 239) && (b =? 187) && (c =? 191)))%N.

(** Drops leading white space; with [backwards] the list is a reversed
    string, so multi-byte characters are met last byte first. *)
Fixpoint skipWhiteSpace (backwards : bool) (l : list N) : list N :=
  match l with
  | [] => []
  | a :: l1 =>
      if ws1 a then skipWhiteSpace backwards l1
      else match l1 with
           | [] => l
           | b :: l2 =>
               if (if backwards then ws2 b a else ws2 a b)
               then skipWhiteSpace backwards l2
               else match l2 with
                    | [] => l
                    | c :: l3 =>
                        if (if backwards then ws3 c b a else ws3 a b c)
                        then skipWhiteSpace backwards l3
                        else l
                    end
           end
  end.

(** [String.prototype.trim] *)
Definition trim (s : string) : string :=
  ofCodes (rev (skipWhiteSpace true (rev (skipWhiteSpace false (codes s))))).

(** [[0-9a-fA-F]] *)
Definition isHexDigit (c : ascii) : bool :=
  let n := Ascii.N_of_ascii c in
  (((48 <=? n) && (n <=? 57)) || ((97 <=? n) && (n <=? 102)) || ((65 <=? n) && (n <=? 70)))%N.

(** [/^0x[0-9a-fA-F]+$/.test(s)]: without the [m] flag the anchors are the
    two ends of the string. *)
Definition isValidAddr (s : string) : bool :=
  match s with
  | String "0"%char (String "x"%char (String d rest)) =>
      isHexDigit d && forallb isHexDigit (String.list_ascii_of_string rest)
  | _ => false
  end.

Definition hexValue (n : N) : option N :=
  (if (48 <=? n) && (n <=? 57) then Some (n - 48)
   else if (97 <=? n) && (n <=? 102) then Some (n - 87)
   else if (65 <=? n) && (n <=? 70) then Some (n - 55)
   else None)%N.

(** The value of the longest prefix of hexadecimal digits; [acc] is [None]
    until a digit has been read. *)
Fixpoint hexPrefix (l : list N) (acc : option N) : option N :=
  match l with
  | [] => acc
  | c :: rest =>
      match hexValue c with
      | Some d => hexPrefix rest (Some (16 * default 0 acc + d))%N
      | None => acc
      end
  end.

(** [parseInt(s, 16)]: leading white space, a sign, an optional [0x] or
    [0X], then the longest run of digits; [NaN] without a digit.  The
    digits are read as an integer, and the result is the binary64 number
    nearest to it. *)
Definition parseInt16 (s : string) : JsNumber :=
  let l := skipWhiteSpace false (codes s) in
  let '(negative, l) :=
    match l with
    | 45%N :: r => (true, r)
    | 43%N :: r => (false, r)
    | _ => (false, l)
    end in
  let l :=
    match l with
    | 48%N :: 120%N :: r => r
    | 48%N :: 88%N :: r => r
    | _ => l
    end in
  match hexPrefix l None with
  | Some n =>
      match toBinary64 n with
      | Num z => Num (if negative : bool then - z else z)
      | Infinity => if negative : bool then NegInfinity else Infinity
      | other => other
      end
  | None => NaN
  end.

(** [s.endsWith(suffix)] *)
Definition endsWith (s suffix : string) : bool :=
  String.prefix (String.rev suffix) (String.rev s).

Definition hexUpper (n : N) : ascii :=
  Ascii.ascii_of_N (if (n <? 10)%N then 48 + n else 55 + n)%N.

(** Characters [encodeURIComponent] leaves alone: letters, digits and
    the marks minus, underscore, dot, exclamation mark, tilde, star,
    apostrophe and the two parentheses. *)
Definition uriUnreserved (n : N) : bool :=
  (((48 <=? n) && (n <=? 57)) || ((65 <=? n) && (n <=? 90)) || ((97 <=? n) && (n <=? 122))
   || (n =? 45) || (n =? 95) || (n =? 46) || (n =? 33) || (n =? 126) || (n =? 42)
   || (n =? 39) || (n =? 40) || (n =? 41))%N.

(** [encodeURIComponent]: every other byte of the UTF-8 text becomes [%XX]. *)
Fixpoint encodeURIComponent (s : string) : string :=
  match s with
  | EmptyString => EmptyString
  | String c rest =>
      let n := Ascii.N_of_ascii c in
      if uriUnreserved n then String c (encodeURIComponent rest)
      else String "%"%char (String (hexUpper (n / 16)) (String (hexUpper (n mod 16))
             (encodeURIComponent rest)))
  end.

(** The double quote character, as a string. *)
Definition dquote : string := String (Ascii.ascii_of_N 34) EmptyString.

(** ** Data model *)

Definition ArrayBuffer : Type := list Byte.byte.

(** A [File]: its name and what [arrayBuffer()] reads when the platform can
    read it; [size] is the length. *)
Record File : Type := mkFile {
  file_name : string;
  file_bytes : ArrayBuffer
}.

(** The object stored under the key path [name]. *)
Record FirmwareRecord : Type := mkFirmwareRecord {
  fw_name : string;
  fw_data : ArrayBuffer;
  fw_timestamp : N;
  fw_size : nat
}.

Record FirmwareInfo : Type := mkFirmwareInfo {
  info_name : string;
  info_size : nat;
  info_timestamp : N
}.

(** A JSON value, as [response.json()] gives it: the body of a release is
    declared a [GithubRelease], but it is whatever the server sent. *)
#[local] Unset Elimination Schemes.
Inductive Json : Type :=
| JsonNull
| JsonBool (b : bool)
| JsonNumber (x : Q)
| JsonString (s : string)
| JsonArray (items : list Json)
| JsonObject (members : list (string * Json)).
#[local] Set Elimination Schemes.

(** A number of the text is read as the binary64 number nearest to it,
    which is zero when its magnitude is at most [2^-1075], half the least
    positive binary64 number. *)
Definition readsAsZero (x : Q) : bool :=
  Qle_bool (Qopp (1 # 2 ^ 1075)) x && Qle_bool x (1 # 2 ^ 1075).

(** The value as a condition: [null], [false], zero and the empty string
    are falsy. *)
Definition truthy (v : Json) : bool :=
  match v with
  | JsonNull => false
  | JsonBool b => b
  | JsonNumber x => negb (readsAsZero x)
  | JsonString s => negb (String.eqb s "")
  | JsonArray _ => true
  | JsonObject _ => true
  end.

(** The member of an object under a key: the last one when the text had
    the key more than once, as [JSON.parse] keeps it. *)
Definition memberOf (key : string) (members : list (string * Json)) : option Json :=
  fold_left (fun found member => if String.eqb member.1 key then Some member.2 else found)
    members None.

(** [v.key] for a value that is not [null] and for one of the keys the
    component reads, [assets], [name] and [browser_download_url]: the
    member of an object, and [undefined], here [None], on an array, a
    string, a number or a boolean, which have no property of these
    names. *)
Definition property (key : string) (v : Json) : option Json :=
  match v with
  | JsonObject members => memberOf key members
  | _ => None
  end.

(** An entry of [githubFirmwares]: [name] is a string, since it has passed
    [endsWith], and [url] is whatever the asset had under
    [browser_download_url], [None] for [undefined]. *)
Record GithubFirmware : Type := mkGithubFirmware {
  gf_name : string;
  gf_url : option Json
}.

(** A [Response]: only [ok] is read before the body. *)
Record Response : Type := mkResponse {
  resp_ok : bool;
  resp_status : N;
  resp_url : string
}.

(** Device objects.  A [SerialPort] is known by an identity the platform
    chooses; [Transport] and [ESPLoader] are built over it by the
    component. *)
Definition SerialPort : Type := N.

Record Transport : Type := mkTransport {
  transport_device : SerialPort;
  transport_tracing : bool
}.

Record ESPLoader : Type := mkESPLoader {
  loader_transport : Transport;
  loader_baudrate : N;
  loader_romBaudrate : N
}.

Record FlashFile : Type := mkFlashFile {
  ff_data : string;
  ff_address : JsNumber
}.

Record FlashOptions : Type := mkFlashOptions {
  fileArray : list FlashFile;
  flashSize : string;
  eraseAll : bool;
  compress : bool;
  flashMode : string;
  flashFreq : string
}.

(** What the loader does to the callbacks it was given while a call is
    pending: a line for the terminal, or [reportProgress(fileIndex, written,
    total)]. *)
Inductive LoaderEvent : Type :=
| TerminalLine (data : string)
| ReportProgress (fileIndex written total : N).

(** An open connection to a database, known by the database's name. *)
Definition IDBDatabase : Type := string.

(** How [indexedDB.open] answers: [onerror], [onupgradeneeded] (to be
    followed by [onsuccess] or [onerror] once the handler has run), or
    [onsuccess] at once. *)
Inductive OpenReply : Type :=
| OpenError (e : JsThrown)
| OpenUpgradeNeeded (db : IDBDatabase) (oldVersion : N)
| OpenSuccess (db : IDBDatabase).

(** How [indexedDB.deleteDatabase] answers. *)
Inductive DeleteReply : Type :=
| DeleteSuccess
| DeleteError (e : JsThrown)
| DeleteBlocked.

(** ** Calls to the platform *)

Inductive ExtCall : Type :=
(* Web Serial and esptool-js *)
| SerialRequestPortAvailable
| SerialRequestPort
| LoaderMain (esploader : ESPLoader)
| LoaderHasReadMac (esploader : ESPLoader)
| LoaderReadMac (esploader : ESPLoader)
| LoaderWriteFlash (esploader : ESPLoader) (options : FlashOptions)
| PortHasSetSignals (port : SerialPort)
| PortSetSignals (port : SerialPort) (dataTerminalReady requestToSend : bool)
| PortReadable (port : SerialPort)
| PortClose (port : SerialPort)
| TransportDisconnect (transport : Transport)
| FileArrayBuffer (file : File)
| SetTimeout (ms : N)
(* IndexedDB *)
| IdbOpen (name : string) (version : N)
| IdbContains (db : IDBDatabase) (store : string)
| IdbDeleteObjectStore (db : IDBDatabase) (store : string)
| IdbCreateObjectStore (db : IDBDatabase) (store keyPath : string)
| IdbCreateIndex (db : IDBDatabase) (store index keyPath : string) (unique : bool)
| IdbUpgradeDone (db : IDBDatabase)
| IdbPut (db : IDBDatabase) (store : string) (value : FirmwareRecord)
| IdbGet (db : IDBDatabase) (store : string) (key : string)
| IdbGetAll (db : IDBDatabase) (store : string)
| IdbDelete (db : IDBDatabase) (store : string) (key : string)
| IdbDeleteDatabase (name : string)
| DateNow
(* network and dialogs *)
| Fetch (url accept : string) (timeoutMs : N)
| ResponseJson (response : Response)
| Confirm (message : string).

(** What each call gives back.  A call that can throw or reject gives a
    [Result]; the loader's two long calls also give what they sent to the
    callbacks before settling.  One IndexedDB request stands for
    [db.transaction(...).objectStore(...)], the request and its completion
    event: in the source all of these end in the same [reject]. *)
Definition reply (c : ExtCall) : Type :=
  match c with
  | SerialRequestPortAvailable => bool
  | SerialRequestPort => Result SerialPort
  | LoaderMain _ => (list string * Result string)%type
  | LoaderHasReadMac _ => bool
  | LoaderReadMac _ => Result string
  | LoaderWriteFlash _ _ => (list LoaderEvent * Result unit)%type
  | PortHasSetSignals _ => bool
  | PortSetSignals _ _ _ => Result unit
  | PortReadable _ => bool
  | PortClose _ => Result unit
  | TransportDisconnect _ => Result unit
  | FileArrayBuffer _ => Result ArrayBuffer
  | SetTimeout _ => unit
  | IdbOpen _ _ => OpenReply
  | IdbContains _ _ => bool
  | IdbDeleteObjectStore _ _ => unit
  | IdbCreateObjectStore _ _ _ => unit
  | IdbCreateIndex _ _ _ _ _ => unit
  | IdbUpgradeDone _ => Result IDBDatabase
  | IdbPut _ _ _ => Result unit
  | IdbGet _ _ _ => Result (option FirmwareRecord)
  | IdbGetAll _ _ => Result (list FirmwareRecord)
  | IdbDelete _ _ _ => Result unit
  | IdbDeleteDatabase _ => DeleteReply
  | DateNow => N
  | Fetch _ _ _ => Result Response
  | ResponseJson _ => Result Json
  | Confirm _ => bool
  end.

(** ** Component state *)

(** The [useState] values and [useRef] cells that the functions below read
    or write.  [progressHistory] is a ghost: every value given to
    [setProgress], oldest first. *)
Record Session : Type := mkSession {
  isConnected : bool;
  isFlashing : bool;
  progress : JsNumber;
  logs : list string;
  firmwareFile : option File;
  chipInfo : string;
  flashAddress : string;
  showGithubDialog : bool;
  githubFirmwares : list GithubFirmware;
  isFetchingGithub : bool;
  localFirmwares : list FirmwareInfo;
  transportRef : option Transport;
  espLoaderRef : option ESPLoader;
  serialPortRef : option SerialPort;
  progressHistory : list JsNumber
}.

Definition initialSession : Session :=
  mkSession false false (Num 0) [] None "" "0x10000" false [] false [] None None None [].

Definition with_isConnected (v : bool) (s : Session) : Session :=
  mkSession v (isFlashing s) (progress s) (logs s) (firmwareFile s) (chipInfo s)
    (flashAddress s) (showGithubDialog s) (githubFirmwares s) (isFetchingGithub s)
    (localFirmwares s) (transportRef s) (espLoaderRef s) (serialPortRef s) (progressHistory s).

Definition with_isFlashing (v : bool) (s : Session) : Session :=
  mkSession (isConnected s) v (progress s) (logs s) (firmwareFile s) (chipInfo s)
    (flashAddress s) (showGithubDialog s) (githubFirmwares s) (isFetchingGithub s)
    (localFirmwares s) (transportRef s) (espLoaderRef s) (serialPortRef s) (progressHistory s).

Definition with_progress (v : JsNumber) (s : Session) : Session :=
  mkSession (isConnected s) (isFlashing s) v (logs s) (firmwareFile s) (chipInfo s)
    (flashAddress s) (showGithubDialog s) (githubFirmwares s) (isFetchingGithub s)
    (localFirmwares s) (transportRef s) (espLoaderRef s) (serialPortRef s)
    (progressHistory s ++ [v]).

Definition with_logs (v : list string) (s : Session) : Session :=
  mkSession (isConnected s) (isFlashing s) (progress s) v (firmwareFile s) (chipInfo s)
    (flashAddress s) (showGithubDialog s) (githubFirmwares s) (isFetchingGithub s)
    (localFirmwares s) (transportRef s) (espLoaderRef s) (serialPortRef s) (progressHistory s).

Definition with_firmwareFile (v : option File) (s : Session) : Session :=
  mkSession (isConnected s) (isFlashing s) (progress s) (logs s) v (chipInfo s)
    (flashAddress s) (showGithubDialog s) (githubFirmwares s) (isFetchingGithub s)
    (localFirmwares s) (transportRef s) (espLoaderRef s) (serialPortRef s) (progressHistory s).

Definition with_chipInfo (v : string) (s : Session) : Session :=
  mkSession (isConnected s) (isFlashing s) (progress s) (logs s) (firmwareFile s) v
    (flashAddress s) (showGithubDialog s) (githubFirmwares s) (isFetchingGithub s)
    (localFirmwares s) (transportRef s) (espLoaderRef s) (serialPortRef s) (progressHistory s).

Definition with_flashAddress (v : string) (s : Session) : Session :=
  mkSession (isConnected s) (isFlashing s) (progress s) (logs s) (firmwareFile s) (chipInfo s)
    v (showGithubDialog s) (githubFirmwares s) (isFetchingGithub s)
    (localFirmwares s) (transportRef s) (espLoaderRef s) (serialPortRef s) (progressHistory s).

Definition with_showGithubDialog (v : bool) (s : Session) : Session :=
  mkSession (isConnected s) (isFlashing s) (progress s) (logs s) (firmwareFile s) (chipInfo s)
    (flashAddress s) v (githubFirmwares s) (isFetchingGithub s)
    (localFirmwares s) (transportRef s) (espLoaderRef s) (serialPortRef s) (progressHistory s).

Definition with_githubFirmwares (v : list GithubFirmware) (s : Session) : Session :=
  mkSession (isConnected s) (isFlashing s) (progress s) (logs s) (firmwareFile s) (chipInfo s)
    (flashAddress s) (showGithubDialog s) v (isFetchingGithub s)
    (localFirmwares s) (transportRef s) (espLoaderRef s) (serialPortRef s) (progressHistory s).

Definition with_isFetchingGithub (v : bool) (s : Session) : Session :=
  mkSession (isConnected s) (isFlashing s) (progress s) (logs s) (firmwareFile s) (chipInfo s)
    (flashAddress s) (showGithubDialog s) (githubFirmwares s) v
    (localFirmwares s) (transportRef s) (espLoaderRef s) (serialPortRef s) (progressHistory s).

Definition with_localFirmwares (v : list FirmwareInfo) (s : Session) : Session :=
  mkSession (isConnected s) (isFlashing s) (progress s) (logs s) (firmwareFile s) (chipInfo s)
    (flashAddress s) (showGithubDialog s) (githubFirmwares s) (isFetchingGithub s)
    v (transportRef s) (espLoaderRef s) (serialPortRef s) (progressHistory s).

Definition with_transportRef (v : option Transport) (s : Session) : Session :=
  mkSession (isConnected s) (isFlashing s) (progress s) (logs s) (firmwareFile s) (chipInfo s)
    (flashAddress s) (showGithubDialog s) (githubFirmwares s) (isFetchingGithub s)
    (localFirmwares s) v (espLoaderRef s) (serialPortRef s) (progressHistory s).

Definition with_espLoaderRef (v : option ESPLoader) (s : Session) : Session :=
  mkSession (isConnected s) (isFlashing s) (progress s) (logs s) (firmwareFile s) (chipInfo s)
    (flashAddress s) (showGithubDialog s) (githubFirmwares s) (isFetchingGithub s)
    (localFirmwares s) (transportRef s) v (serialPortRef s) (progressHistory s).

Definition with_serialPortRef (v : option SerialPort) (s : Session) : Session :=
  mkSession (isConnected s) (isFlashing s) (progress s) (logs s) (firmwareFile s) (chipInfo s)
    (flashAddress s) (showGithubDialog s) (githubFirmwares s) (isFetchingGithub s)
    (localFirmwares s) (transportRef s) (espLoaderRef s) v (progressHistory s).

(** ** Asynchronous programs *)

(** A program that has run as far as it can: settled, or waiting for the
    platform to answer [c].  The continuation takes the answer and the
    session as it is by then. *)
Inductive Step (A : Type) : Type :=
| Settled (s : Session) (r : Result A)
| Await (s : Session) (c : ExtCall) (k : reply c -> Session -> Step A).
Arguments Settled {A} s r.
Arguments Await {A} s c k.

Definition Async (A : Type) : Type := Session -> Step A.

Definition ret {A} (a : A) : Async A := fun s => Settled s (Ok a).
Definition throw {A} (e : JsThrown) : Async A := fun s => Settled s (Thrown e).
Definition settle {A} (r : Result A) : Async A := fun s => Settled s r.

Fixpoint bindStep {A B} (st : Step A) (f : A -> Async B) : Step B :=
  match st with
  | Settled s (Ok a) => f a s
  | Settled s (Thrown e) => Settled s (Thrown e)
  | Await s c k => Await s c (fun x s' => bindStep (k x s') f)
  end.

Definition bind {A B} (m : Async A) (f : A -> Async B) : Async B :=
  fun s => bindStep (m s) f.

(** [try { m } catch (error) { handler error }] *)
Fixpoint catchStep {A} (st : Step A) (handler : JsThrown -> Async A) : Step A :=
  match st with
  | Settled s (Ok a) => Settled s (Ok a)
  | Settled s (Thrown e) => handler e s
  | Await s c k => Await s c (fun x s' => catchStep (k x s') handler)
  end.

Definition try_catch {A} (m : Async A) (handler : JsThrown -> Async A) : Async A :=
  fun s => catchStep (m s) handler.

(** [try { m } finally { final }]: [final] runs however [m] ends, and the
    outcome of [m] stands unless [final] throws. *)
Fixpoint finallyStep {A} (st : Step A) (final : Async unit) : Step A :=
  match st with
  | Settled s r => bindStep (final s) (fun _ s' => Settled s' r)
  | Await s c k => Await s c (fun x s' => finallyStep (k x s') final)
  end.

Definition try_finally {A} (m : Async A) (final : Async unit) : Async A :=
  fun s => finallyStep (m s) final.

(** A call to the platform; the program resumes with the reply. *)
Definition call (c : ExtCall) : Async (reply c) :=
  fun s => Await s c (fun x s' => Settled s' (Ok x)).

(** A synchronous update of state or of a ref. *)
Definition update (f : Session -> Session) : Async unit :=
  fun s => Settled (f s) (Ok tt).

(** Reading a ref: the value at the time of reading. *)
Definition current {A} (ref : Session -> A) : Async A :=
  fun s => Settled s (Ok (ref s)).

(** A function of the component closes over the state of the render in
    which it was created: state variables keep, for the whole call, the
    value they had when the call began. *)
Definition withRender {A} (body : Session -> Async A) : Async A :=
  fun s => body s s.

Declare Scope async_scope.
Delimit Scope async_scope with async.
Bind Scope async_scope with Async.

Notation "x <- m ;; k" := (bind m (fun x => k))
  (at level 100, m at next level, right associativity) : async_scope.
Notation "m ;; k" := (bind m (fun _ => k))
  (at level 100, k at level 200, right associativity) : async_scope.
Notation "'await' c" := (bind (call c) settle) (at level 10, c at level 9) : async_scope.

Open Scope async_scope.

Definition when (b : bool) (m : Async unit) : Async unit :=
  if b then m else ret tt.

(** ** Running a program against the platform *)

(** The platform: some state of its own and an answer to every call. *)
Definition Handler (W : Type) : Type := forall c : ExtCall, W -> reply c * W.

(** The calls are answered one after the other until the program settles;
    the result carries the calls made, in order. *)
Fixpoint run {W A} (h : Handler W) (st : Step A) (w : W)
  : Result A * Session * W * list ExtCall :=
  match st with
  | Settled s r => (r, s, w, [])
  | Await s c k =>
      let '(x, w1) := h c w in
      let '(r, s', w', calls) := run h (k x s) w1 in
      (r, s', w', c :: calls)
  end.

Definition outcome {W A} (o : Result A * Session * W * list ExtCall) : Result A :=
  o.1.1.1.
Definition session {W A} (o : Result A * Session * W * list ExtCall) : Session :=
  o.1.1.2.
Definition world {W A} (o : Result A * Session * W * list ExtCall) : W :=
  o.1.2.
Definition calls {W A} (o : Result A * Session * W * list ExtCall) : list ExtCall :=
  o.2.

(** ** IndexedDB utility functions *)

Definition DB_NAME : string := "ESP32FlasherDB".
Definition DB_VERSION : N := 2.
Definition STORE_NAME : string := "firmwares".

(** [openDB].  When the platform asks for an upgrade, the handler drops the
    object store of a version below 2 and creates the store with its two
    indexes if it is not there; the request then succeeds or fails. *)
Definition openDB : Async IDBDatabase :=
  request <- call (IdbOpen DB_NAME DB_VERSION) ;;
  match request with
  | OpenError e => throw e
  | OpenSuccess db => ret db
  | OpenUpgradeNeeded db oldVersion =>
      (if (oldVersion <? 2)%N
       then (present <- call (IdbContains db STORE_NAME) ;;
             when present (call (IdbDeleteObjectStore db STORE_NAME)))
       else ret tt) ;;
      present <- call (IdbContains db STORE_NAME) ;;
      when (negb present)
        (call (IdbCreateObjectStore db STORE_NAME "name") ;;
         call (IdbCreateIndex db STORE_NAME "timestamp" "timestamp" false) ;;
         call (IdbCreateIndex db STORE_NAME "size" "size" false)) ;;
      await (IdbUpgradeDone db)
  end.

(** The promise built around [store.put(firmware)]: it settles with the
    request or, for the first of the two in [saveFirmwareToDB], with the
    transaction's error, which is the request's error bubbling up. *)
Definition putFirmware (db : IDBDatabase) (name : string) (data : ArrayBuffer) : Async unit :=
  timestamp <- call DateNow ;;
  let firmware := mkFirmwareRecord name data timestamp (length data) in
  await (IdbPut db STORE_NAME firmware).

(** [resetDatabase]: a blocked deletion resolves like a finished one. *)
Definition resetDatabase : Async unit :=
  request <- call (IdbDeleteDatabase DB_NAME) ;;
  match request with
  | DeleteSuccess => ret tt
  | DeleteError e => throw e
  | DeleteBlocked => ret tt
  end.

Definition storageGuidance : string :=
  "Failed to save firmware to storage. Please clear your browser cache and try again.".

(** [saveFirmwareToDB].  Each [try] block ends in [return new Promise(...)]
    without [await]: the block is left with the promise as its value, and
    the function's own promise takes up that promise only afterwards.  So
    the [try] blocks yield a program still to be run, [returned], and what
    the [catch] clauses see is [openDB] and [resetDatabase] alone. *)
Definition saveFirmwareToDB (name : string) (data : ArrayBuffer) : Async unit :=
  returned <-
    try_catch
      (db <- openDB ;;
       ret (putFirmware db name data))
      (fun error =>
         try_catch
           (resetDatabase ;;
            db <- openDB ;;
            ret (putFirmware db name data))
           (fun retryError => throw (JsError storageGuidance))) ;;
  returned.

(** [getFirmwareFromDB]: the stored bytes, or [null]. *)
Definition getFirmwareFromDB (name : string) : Async (option ArrayBuffer) :=
  db <- openDB ;;
  result <- await (IdbGet db STORE_NAME name) ;;
  match result with
  | Some record => ret (Some (fw_data record))
  | None => ret None
  end.

Definition getAllFirmwaresFromDB : Async (list FirmwareInfo) :=
  db <- openDB ;;
  result <- await (IdbGetAll db STORE_NAME) ;;
  ret (map (fun item => mkFirmwareInfo (fw_name item) (fw_size item) (fw_timestamp item)) result).

Definition deleteFirmwareFromDB (name : string) : Async unit :=
  db <- openDB ;;
  await (IdbDelete db STORE_NAME name).

(** ** The component *)

Definition setIsConnected (v : bool) : Async unit := update (with_isConnected v).
Definition setIsFlashing (v : bool) : Async unit := update (with_isFlashing v).
Definition setProgress (v : JsNumber) : Async unit := update (with_progress v).
Definition setFirmwareFile (v : option File) : Async unit := update (with_firmwareFile v).
Definition setChipInfo (v : string) : Async unit := update (with_chipInfo v).
Definition setShowGithubDialog (v : bool) : Async unit := update (with_showGithubDialog v).
Definition setGithubFirmwares (v : list GithubFirmware) : Async unit :=
  update (with_githubFirmwares v).
Definition setIsFetchingGithub (v : bool) : Async unit := update (with_isFetchingGithub v).
Definition setLocalFirmwares (v : list FirmwareInfo) : Async unit :=
  update (with_localFirmwares v).

(** [addLog]: the line goes to the end of the log (the time of day that
    the source puts in front of it is left out). *)
Definition addLog (message : string) : Async unit :=
  update (fun s => with_logs (logs s ++ [message]) s).

Fixpoint forEach {A} (l : list A) (f : A -> Async unit) : Async unit :=
  match l with
  | [] => ret tt
  | x :: rest => f x ;; forEach rest f
  end.

Definition githubRepo : string := "upsidedownlabs/npg-lite-firmware".

Definition loadLocalFirmwares : Async unit :=
  try_catch
    (firmwares <- getAllFirmwaresFromDB ;;
     setLocalFirmwares firmwares)
    (fun error => ret tt).

(** The functions of the component resolve to [undefined] on every path;
    here each one yields the path it took. *)
Inductive ConnectExit : Type :=
| ConnectUnsupported
| ConnectDone
| ConnectFailed.

Definition connectToDevice : Async ConnectExit :=
  try_catch
    (available <- call SerialRequestPortAvailable ;;
     if negb available
     then addLog "❌ Web Serial API not supported. Use Chrome/Edge 89+ over HTTPS." ;;
          ret ConnectUnsupported
     else
       addLog "Requesting serial port access..." ;;
       port <- await SerialRequestPort ;;
       addLog "Connecting to ESP32..." ;;
       update (with_serialPortRef (Some port)) ;;
       let transport := mkTransport port true in
       update (with_transportRef (Some transport)) ;;
       let esploader := mkESPLoader transport 921600 115200 in
       update (with_espLoaderRef (Some esploader)) ;;
       main <- call (LoaderMain esploader) ;;
       forEach main.1 addLog ;;
       chip <- settle main.2 ;;
       addLog ("Connected to " +:+ chip) ;;
       setChipInfo chip ;;
       setIsConnected true ;;
       try_catch
         (hasReadMac <- call (LoaderHasReadMac esploader) ;;
          if hasReadMac
          then macAddr <- await (LoaderReadMac esploader) ;;
               addLog ("MAC Address: " +:+ macAddr)
          else ret tt)
         (fun e => ret tt) ;;
       ret ConnectDone)
    (fun error =>
       addLog ("Error: " +:+ errorMessage error) ;;
       update (with_transportRef None) ;;
       update (with_espLoaderRef None) ;;
       update (with_serialPortRef None) ;;
       ret ConnectFailed).

Definition disconnectDevice : Async unit :=
  try_finally
    (try_catch
       (transport <- current transportRef ;;
        match transport with
        | Some t => await (TransportDisconnect t)
        | None => ret tt
        end ;;
        port <- current serialPortRef ;;
        match port with
        | Some p =>
            readable <- call (PortReadable p) ;;
            if readable then await (PortClose p) else ret tt
        | None => ret tt
        end ;;
        addLog "Disconnected from device")
       (fun error => addLog ("Disconnect warning: " +:+ errorMessage error)))
    (update (with_serialPortRef None) ;;
     update (with_transportRef None) ;;
     update (with_espLoaderRef None) ;;
     setIsConnected false ;;
     setChipInfo "").

Inductive FlashExit : Type :=
| FlashNotReady
| FlashInvalidAddress
| FlashCompleted
| FlashFailed.

(** The value the [reportProgress] callback computes:
    [Math.round(10 + (written / total) * 100 * 0.9)]. *)
Definition totalProgress (written total : N) : JsNumber :=
  if (total =? 0)%N
  then (if (written =? 0)%N then NaN else Infinity)
  else
    let fileProgress := (inject_Z (Z.of_N written) / inject_Z (Z.of_N total) * 100)%Q in
    Num (Math_round (10 + fileProgress * (9 # 10))%Q).

(** The [reportProgress] callback given to [writeFlash]. *)
Definition reportProgress (fileIndex written total : N) : Async unit :=
  setProgress (totalProgress written total).

(** What the loader sends while a call is pending goes to the callbacks
    the component gave it: the terminal writes to the log, and
    [reportProgress] publishes. *)
Definition deliver (event : LoaderEvent) : Async unit :=
  match event with
  | TerminalLine data => addLog data
  | ReportProgress fileIndex written total => reportProgress fileIndex written total
  end.

(** [Array.from(new Uint8Array(arrayBuffer)).map(b => String.fromCharCode(b)).join('')] *)
Definition binaryString (arrayBuffer : ArrayBuffer) : string :=
  String.string_of_list_byte arrayBuffer.

Definition typeErrorNull : JsThrown :=
  JsError "Cannot read properties of null".

(** The reset pulse, closing the transport and closing the port after a
    successful write. *)
Definition finalizeFlash : Async unit :=
  try_catch
    (port <- current serialPortRef ;;
     match port with
     | Some p =>
         hasSetSignals <- call (PortHasSetSignals p) ;;
         when hasSetSignals
           (try_catch
              (addLog "Sending reset signals..." ;;
               await (PortSetSignals p false true) ;;
               call (SetTimeout 50) ;;
               await (PortSetSignals p true false) ;;
               call (SetTimeout 50))
              (fun signalError => ret tt))
     | None => ret tt
     end ;;
     transport <- current transportRef ;;
     match transport with
     | Some t =>
         addLog "Closing transport..." ;;
         await (TransportDisconnect t) ;;
         call (SetTimeout 100)
     | None => ret tt
     end ;;
     port <- current serialPortRef ;;
     match port with
     | Some p =>
         addLog "Closing serial port..." ;;
         readable <- call (PortReadable p) ;;
         if readable then await (PortClose p) else ret tt
     | None => ret tt
     end)
    (fun cleanupError => addLog "Cleanup completed with warnings").

(** The cleanup in the [catch] clause of [flashFirmware]. *)
Definition abandonFlash : Async unit :=
  try_catch
    (transport <- current transportRef ;;
     match transport with
     | Some t => await (TransportDisconnect t)
     | None => ret tt
     end ;;
     port <- current serialPortRef ;;
     match port with
     | Some p =>
         readable <- call (PortReadable p) ;;
         if readable then await (PortClose p) else ret tt
     | None => ret tt
     end)
    (fun cleanupError => ret tt).

Definition releaseSession : Async unit :=
  update (with_transportRef None) ;;
  update (with_espLoaderRef None) ;;
  update (with_serialPortRef None) ;;
  setIsConnected false ;;
  setChipInfo "".

Definition flashFirmware : Async FlashExit :=
  withRender (fun render =>
    loader <- current espLoaderRef ;;
    match loader, firmwareFile render with
    | Some _, Some file =>
        let addrStr := trim (flashAddress render) in
        let isValid := isValidAddr addrStr in
        if negb isValid
        then addLog "❌ Invalid flash address. Use hex like 0x10000" ;;
             ret FlashInvalidAddress
        else
          let address := parseInt16 addrStr in
          try_finally
            (try_catch
               (setIsFlashing true ;;
                setProgress (Num 0) ;;
                addLog "Starting flash process..." ;;
                esploader <- current espLoaderRef ;;
                arrayBuffer <- await (FileArrayBuffer file) ;;
                addLog ("File size: " +:+ pretty (length arrayBuffer) +:+ " bytes") ;;
                let files := [mkFlashFile (binaryString arrayBuffer) address] in
                addLog ("Writing firmware to address " +:+ flashAddress render +:+ "...") ;;
                setProgress (Num 10) ;;
                match esploader with
                | Some l =>
                    written <- call (LoaderWriteFlash l
                                 (mkFlashOptions files "keep" false true "dio" "40m")) ;;
                    forEach written.1 deliver ;;
                    settle written.2
                | None => throw typeErrorNull
                end ;;
                setProgress (Num 100) ;;
                addLog "✅ Flash completed successfully!" ;;
                addLog "🔄 Finalizing flash process..." ;;
                finalizeFlash ;;
                releaseSession ;;
                addLog "" ;;
                addLog "🎊 FIRMWARE FLASH COMPLETE!" ;;
                addLog "📋 If device is not responding then follow these Steps:" ;;
                addLog "   1. ➡️  Press the RESET button on your ESP32-C6" ;;
                addLog "   2. ⏳  Wait 2-3 seconds" ;;
                addLog "   3. 🔵  Device will start with new firmware" ;;
                addLog "" ;;
                addLog "💡 Troubleshooting:" ;;
                addLog "   • If device doesn't respond: Power cycle USB" ;;
                addLog ("   • To flash again: Click " +:+ dquote +:+ "Connect Device" +:+ dquote) ;;
                addLog "   • Check device in Bluetooth settings" ;;
                ret FlashCompleted)
               (fun error =>
                  addLog ("❌ Flash error: " +:+ errorMessage error) ;;
                  abandonFlash ;;
                  releaseSession ;;
                  ret FlashFailed))
            (setIsFlashing false)
    | _, _ =>
        addLog "No device connected or no firmware file selected" ;;
        ret FlashNotReady
    end).

(** The flash button: [onClick={flashFirmware}] with
    [disabled={!isConnected || isFlashing || !firmwareFile}].  A click on a
    disabled button calls nothing. *)
Definition flashButtonDisabled (s : Session) : bool :=
  negb (isConnected s) || isFlashing s || negb (bool_decide (is_Some (firmwareFile s))).

Definition clickFlashButton : Async (option FlashExit) :=
  fun s =>
    if flashButtonDisabled s then Settled s (Ok None)
    else (exit <- flashFirmware ;; ret (Some exit)) s.

Inductive FetchExit : Type :=
| FetchPublished
| FetchEmpty
| FetchFailed.

Record Proxy : Type := mkProxy {
  proxy_name : string;
  proxy_url : string
}.

Definition apiUrl : string :=
  "https://api.github.com/repos/" +:+ githubRepo +:+ "/releases/latest".

Definition corsProxies : list Proxy :=
  [ mkProxy "allOrigins" ("https://api.allorigins.win/raw?url=" +:+ encodeURIComponent apiUrl);
    mkProxy "corsProxy" ("https://corsproxy.io/?" +:+ encodeURIComponent apiUrl) ].

Definition acceptGithub : string := "application/vnd.github.v3+json".

Definition fetchFailure : string :=
  "Failed to fetch releases. Please check your internet connection or try again later.".

(** The direct call: what the variable [releasesData] holds after it,
    the parsed body if the status is a success and the body parses, and
    [null], its initial value, otherwise. *)
Definition fetchDirect : Async Json :=
  try_catch
    (addLog "Trying GitHub API..." ;;
     response <- await (Fetch apiUrl acceptGithub 10000) ;;
     if resp_ok response
     then releasesData <- await (ResponseJson response) ;;
          addLog "✓ Successfully fetched from GitHub API" ;;
          ret releasesData
     else ret JsonNull)
    (fun error => ret JsonNull).

(** [for (const proxy of corsProxies)], with what [releasesData] holds
    before the loop: the loop is left, by [break], at the first proxy whose
    status is a success and whose body parses, with that body in the
    variable, whatever it is; when no proxy does, the variable is as it
    was. *)
Fixpoint fetchViaProxies (proxies : list Proxy) (releasesData : Json) : Async Json :=
  match proxies with
  | [] => ret releasesData
  | proxy :: rest =>
      attempt <-
        try_catch
          (addLog ("Trying " +:+ proxy_name proxy +:+ "...") ;;
           response <- await (Fetch (proxy_url proxy) acceptGithub 10000) ;;
           if resp_ok response
           then assigned <- await (ResponseJson response) ;;
                addLog ("✓ Successfully fetched via " +:+ proxy_name proxy) ;;
                ret (Some assigned)
           else ret None)
          (fun error => ret None) ;;
      match attempt with
      | Some assigned => ret assigned
      | None => fetchViaProxies rest releasesData
      end
  end.

(** The [TypeError]s of a body that is not shaped as a release (the
    wording of the messages is that of V8; nothing below depends on it). *)
Definition notAFunction (what : string) : JsThrown :=
  JsError (what +:+ " is not a function").
Definition cannotRead (value key : string) : JsThrown :=
  JsError ("Cannot read properties of " +:+ value +:+ " (reading '" +:+ key +:+ "')").

(** [asset.name.endsWith('.bin')], the test of the filter: reading [name]
    throws on [null], and [endsWith] is there to be called on a string
    only. *)
Definition namedBin (asset : Json) : Result bool :=
  match asset with
  | JsonNull => Thrown (cannotRead "null" "name")
  | _ =>
      match property "name" asset with
      | Some (JsonString name) => Ok (endsWith name ".bin")
      | Some JsonNull => Thrown (cannotRead "null" "endsWith")
      | None => Thrown (cannotRead "undefined" "endsWith")
      | Some _ => Thrown (notAFunction "asset.name.endsWith")
      end
  end.

(** [assets.filter(asset => asset.name.endsWith('.bin'))]: the entries
    are tested in their order and the first test that throws ends the
    filter. *)
Fixpoint filterBin (assets : list Json) : Result (list Json) :=
  match assets with
  | [] => Ok []
  | asset :: rest =>
      match namedBin asset with
      | Thrown e => Thrown e
      | Ok keep =>
          match filterBin rest with
          | Thrown e => Thrown e
          | Ok kept => Ok (if keep then asset :: kept else kept)
          end
      end
  end.

(** The name of an asset that has passed the filter. *)
Definition nameOf (asset : Json) : string :=
  match property "name" asset with
  | Some (JsonString name) => name
  | _ => ""
  end.

(** The candidates of a body that is truthy: [releasesData.assets || []],
    filtered to the assets whose name ends in [.bin] and mapped to their
    name and URL.  A truthy [assets] that is no array has no [filter]. *)
Definition candidates (releasesData : Json) : Result (list GithubFirmware) :=
  let assets :=
    match property "assets" releasesData with
    | Some v => if truthy v then v else JsonArray []
    | None => JsonArray []
    end in
  match assets with
  | JsonArray items =>
      match filterBin items with
      | Ok kept =>
          Ok (map (fun asset =>
                     mkGithubFirmware (nameOf asset) (property "browser_download_url" asset))
                kept)
      | Thrown e => Thrown e
      end
  | _ => Thrown (notAFunction "assets.filter")
  end.

Definition newline : string := String (Ascii.ascii_of_N 10) EmptyString.

Definition fetchGithubReleases : Async FetchExit :=
  setIsFetchingGithub true ;;
  try_finally
    (try_catch
       (addLog ("Fetching firmwares from GitHub: " +:+ githubRepo +:+ "...") ;;
        direct <- fetchDirect ;;
        releasesData <-
          (if negb (truthy direct)
           then fetchViaProxies corsProxies direct
           else ret direct) ;;
        if negb (truthy releasesData)
        then throw (JsError fetchFailure)
        else
          firmwares <- settle (candidates releasesData) ;;
          if (length firmwares =? 0)%nat
          then addLog "⚠ No .bin files found in the latest release" ;;
               ret FetchEmpty
          else
            setGithubFirmwares firmwares ;;
            setShowGithubDialog true ;;
            addLog ("✓ Found " +:+ pretty (length firmwares) +:+ " firmware(s) in latest release") ;;
            ret FetchPublished)
       (fun error =>
          addLog ("❌ Error: " +:+ errorMessage error) ;;
          addLog (newline +:+ "💡 You can still flash firmware by:") ;;
          addLog "1. Downloading .bin files manually from GitHub" ;;
          addLog ("2. Visit: https://github.com/" +:+ githubRepo +:+ "/releases") ;;
          addLog ("3. Use " +:+ dquote +:+ "Add Firmware" +:+ dquote +:+ " button to upload them") ;;
          ret FetchFailed))
    (setIsFetchingGithub false).

Inductive DeleteExit : Type :=
| DeleteDone
| DeleteFailed.

Definition deleteFirmwareFromStorage (name : string) : Async DeleteExit :=
  withRender (fun render =>
    try_catch
      (deleteFirmwareFromDB name ;;
       loadLocalFirmwares ;;
       addLog ("Deleted " +:+ name +:+ " from storage") ;;
       match firmwareFile render with
       | Some file => when (String.eqb (file_name file) name) (setFirmwareFile None)
       | None => ret tt
       end ;;
       ret DeleteDone)
      (fun error =>
         addLog ("Error deleting firmware: " +:+ errorMessage error) ;;
         ret DeleteFailed)).

Inductive ClearExit : Type :=
| ClearDone
| ClearDeclined
| ClearFailed.

Definition clearAllFirmwares : Async ClearExit :=
  try_catch
    (confirmed <- call (Confirm
       "Are you sure you want to delete all stored firmwares? This cannot be undone.") ;;
     if confirmed
     then addLog "Clearing all stored firmwares..." ;;
          resetDatabase ;;
          loadLocalFirmwares ;;
          setFirmwareFile None ;;
          addLog "✓ All firmwares cleared from storage" ;;
          ret ClearDone
     else ret ClearDeclined)
    (fun error =>
       addLog ("Error clearing storage: " +:+ errorMessage error) ;;
       ret ClearFailed).

(** [x.toFixed(fractionDigits)] for [0 <= x < 10^21]: the integer nearest
    to [x * 10^fractionDigits], the larger one of two, written in decimal
    with at least one digit before the point. *)
Definition toFixed (x : Q) (fractionDigits : nat) : string :=
  let n := Z.to_N (Math_round (x * inject_Z (10 ^ Z.of_nat fractionDigits))) in
  let digits := pretty n in
  let m := String.string_of_list_ascii
             (repeat "0"%char (S fractionDigits - String.length digits)) +:+ digits in
  let k := String.length m in
  if (fractionDigits =? 0)%nat then m
  else String.substring 0 (k - fractionDigits) m +:+ "." +:+
       String.substring (k - fractionDigits) fractionDigits m.

(** [(byteLength / 1024).toFixed(2)]; the division is exact in binary64
    for every length below 2^53. *)
Definition kilobytes (byteLength : nat) : string :=
  toFixed (inject_Z (Z.of_nat byteLength) / 1024) 2.

Inductive LoadExit : Type :=
| LoadDone
| LoadMissing
| LoadFailed.

(** [loadFirmwareFromStorage].  The [File] built from the stored bytes
    bears the name asked for; its MIME type, which the component never
    reads, is not kept. *)
Definition loadFirmwareFromStorage (name : string) : Async LoadExit :=
  try_catch
    (addLog ("Loading " +:+ name +:+ " from storage...") ;;
     arrayBuffer <- getFirmwareFromDB name ;;
     match arrayBuffer with
     | Some bytes =>
         let file := mkFile name bytes in
         setFirmwareFile (Some file) ;;
         addLog ("✓ Loaded " +:+ name +:+ " (" +:+ kilobytes (length bytes) +:+ " KB)") ;;
         ret LoadDone
     | None =>
         addLog ("❌ Firmware " +:+ name +:+ " not found in storage") ;;
         ret LoadMissing
     end)
    (fun error =>
       addLog ("Error loading firmware: " +:+ errorMessage error) ;;
       ret LoadFailed).

(** ** A reference platform *)

(** The browser and the device as the examples and the statements about
    the cache and the network need them: IndexedDB as a map from database
    names to databases, a list of faults to inject, a clock, a serial port
    that is open or closed, a device with scripted answers, and a network
    that answers by URL. *)

(** A database: its version and its object stores, each a map from the
    key (the firmware name) to the record.  The medium serves every request
    at once and keeps no account of the connections that are open: a
    deletion of the database is reported blocked only where a fault says
    so, and an [open] after it does not wait. *)
Record Database : Type := mkDatabase {
  db_version : N;
  db_stores : gmap string (gmap string FirmwareRecord)
}.

(** What the medium does to a request: nothing special, fail it, or (for a
    deletion) report it blocked. *)
Inductive Fault : Type :=
| NoFault
| FaultError (e : JsThrown)
| FaultBlocked.

(** The device side: fixed answers of the port and of the loader. *)
Record Device : Type := mkDevice {
  requestPortAvailable : bool;
  requestPort : Result SerialPort;
  mainReply : list string * Result string;
  hasReadMac : bool;
  readMacReply : Result string;
  fileReadable : bool;
  writeFlashReply : list LoaderEvent * Result unit;
  hasSetSignals : bool;
  setSignalsReply : Result unit;
  disconnectReply : Result unit;
  closeReply : Result unit
}.

(** The network: for every URL what [fetch] gives and what the body of the
    response parses to. *)
Record Network : Type := mkNetwork {
  fetchReply : string -> Result Response;
  jsonReply : string -> Result Json
}.

(** [faults] is consumed one entry per IndexedDB request ([open], the end
    of an upgrade, [put], [get], [getAll], [delete], [deleteDatabase]); when
    it is used up the medium is sound.  [portOpened] tells whether the serial
    port is open: [main] opens it, and a successful [disconnect] or [close]
    closes it. *)
Record World : Type := mkWorld {
  databases : gmap string Database;
  faults : list Fault;
  clock : N;
  portOpened : bool;
  device : Device;
  network : Network;
  confirmAnswer : bool
}.

Definition with_databases (v : gmap string Database) (w : World) : World :=
  mkWorld v (faults w) (clock w) (portOpened w) (device w) (network w) (confirmAnswer w).
Definition with_faults (v : list Fault) (w : World) : World :=
  mkWorld (databases w) v (clock w) (portOpened w) (device w) (network w) (confirmAnswer w).
Definition with_clock (v : N) (w : World) : World :=
  mkWorld (databases w) (faults w) v (portOpened w) (device w) (network w) (confirmAnswer w).
Definition with_portOpened (v : bool) (w : World) : World :=
  mkWorld (databases w) (faults w) (clock w) v (device w) (network w) (confirmAnswer w).

Definition nextFault (w : World) : Fault * World :=
  match faults w with
  | [] => (NoFault, w)
  | f :: rest => (f, with_faults rest w)
  end.

Definition storeOf (w : World) (db store : string) : option (gmap string FirmwareRecord) :=
  match databases w !! db with
  | Some d => db_stores d !! store
  | None => None
  end.

Definition setStores (db : string) (f : gmap string (gmap string FirmwareRecord) ->
                                        gmap string (gmap string FirmwareRecord))
  (w : World) : World :=
  match databases w !! db with
  | Some d => with_databases (<[db := mkDatabase (db_version d) (f (db_stores d))]> (databases w)) w
  | None => w
  end.

Definition notFoundError : JsThrown := JsError "NotFoundError".
Definition versionError : JsThrown := JsError "VersionError".

(** A request on an object store: fails when the medium says so or when
    the store is not there, and otherwise reads or writes the store. *)
Definition onStore {A} (w : World) (db store : string)
  (f : gmap string FirmwareRecord -> A * gmap string FirmwareRecord) : Result A * World :=
  let '(fault, w1) := nextFault w in
  match fault with
  | FaultError e => (Thrown e, w1)
  | _ =>
      match storeOf w1 db store with
      | None => (Thrown notFoundError, w1)
      | Some records =>
          let '(a, records') := f records in
          (Ok a, setStores db (insert store records') w1)
      end
  end.

(** IndexedDB keeps the records of a store in the order of their keys,
    and orders strings by their UTF-16 code units.  On UTF-8 text that is
    the order of the bytes, but for one thing: a character beyond U+FFFF,
    which UTF-16 writes with two surrogates (D800 to DFFF) and UTF-8 with a
    first byte from F0 to F4, comes before the characters from U+E000 to
    U+FFFF, whose first byte is EE or EF. *)
Definition unitRank (n : N) : N :=
  if ((238 <=? n) && (n <=? 239))%N then (n + 16)%N else n.

Fixpoint unitsLe (a b : list N) : bool :=
  match a, b with
  | [], _ => true
  | _ :: _, [] => false
  | x :: a', y :: b' =>
      if (unitRank x <? unitRank y)%N then true
      else if (unitRank x =? unitRank y)%N then unitsLe a' b'
      else false
  end.

Definition keyLe (a b : string) : bool := unitsLe (codes a) (codes b).

Fixpoint insertByKey (entry : string * FirmwareRecord)
  (sorted : list (string * FirmwareRecord)) : list (string * FirmwareRecord) :=
  match sorted with
  | [] => [entry]
  | first :: rest =>
      if keyLe entry.1 first.1 then entry :: sorted
      else first :: insertByKey entry rest
  end.

(** The records of a store as [getAll] lists them. *)
Definition inKeyOrder (records : gmap string FirmwareRecord) : list FirmwareRecord :=
  (foldr insertByKey [] (map_to_list records)).*2.

Definition settles (r : Result unit) : bool :=
  match r with
  | Ok _ => true
  | Thrown _ => false
  end.

Definition platform : Handler World :=
  fun c =>
    match c as c' return World -> reply c' * World with
    | SerialRequestPortAvailable => fun w => (requestPortAvailable (device w), w)
    | SerialRequestPort => fun w => (requestPort (device w), w)
    | LoaderMain _ => fun w => (mainReply (device w), with_portOpened true w)
    | LoaderHasReadMac _ => fun w => (hasReadMac (device w), w)
    | LoaderReadMac _ => fun w => (readMacReply (device w), w)
    | LoaderWriteFlash _ _ => fun w => (writeFlashReply (device w), w)
    | PortHasSetSignals _ => fun w => (hasSetSignals (device w), w)
    | PortSetSignals _ _ _ => fun w => (setSignalsReply (device w), w)
    | PortReadable _ => fun w => (portOpened w, w)
    | PortClose _ => fun w =>
        (closeReply (device w),
         if settles (closeReply (device w)) then with_portOpened false w else w)
    | TransportDisconnect _ => fun w =>
        (disconnectReply (device w),
         if settles (disconnectReply (device w)) then with_portOpened false w else w)
    | FileArrayBuffer file => fun w =>
        (if fileReadable (device w) then Ok (file_bytes file)
         else Thrown (JsError "NotReadableError"), w)
    | SetTimeout _ => fun w => (tt, w)
    | IdbOpen name version => fun w =>
        let '(fault, w1) := nextFault w in
        match fault with
        | FaultError e => (OpenError e, w1)
        | _ =>
            match databases w1 !! name with
            | None =>
                (OpenUpgradeNeeded name 0,
                 with_databases (<[name := mkDatabase version ∅]> (databases w1)) w1)
            | Some d =>
                if (db_version d <? version)%N
                then (OpenUpgradeNeeded name (db_version d),
                      with_databases
                        (<[name := mkDatabase version (db_stores d)]> (databases w1)) w1)
                else if (db_version d =? version)%N then (OpenSuccess name, w1)
                else (OpenError versionError, w1)
            end
        end
    | IdbContains db store => fun w =>
        (bool_decide (is_Some (storeOf w db store)), w)
    | IdbDeleteObjectStore db store => fun w => (tt, setStores db (delete store) w)
    | IdbCreateObjectStore db store _ => fun w => (tt, setStores db (insert store ∅) w)
    | IdbCreateIndex _ _ _ _ _ => fun w => (tt, w)
    | IdbUpgradeDone db => fun w =>
        let '(fault, w1) := nextFault w in
        match fault with
        | FaultError e => (Thrown e, w1)
        | _ => (Ok db, w1)
        end
    | IdbPut db store value => fun w =>
        onStore w db store (fun records => (tt, <[fw_name value := value]> records))
    | IdbGet db store key => fun w =>
        onStore w db store (fun records => (records !! key, records))
    | IdbGetAll db store => fun w =>
        onStore w db store (fun records => (inKeyOrder records, records))
    | IdbDelete db store key => fun w =>
        onStore w db store (fun records => (tt, delete key records))
    | IdbDeleteDatabase name => fun w =>
        let '(fault, w1) := nextFault w in
        match fault with
        | FaultError e => (DeleteError e, w1)
        | FaultBlocked => (DeleteBlocked, w1)
        | NoFault => (DeleteSuccess, with_databases (delete name (databases w1)) w1)
        end
    | DateNow => fun w => (clock w, with_clock (clock w + 1)%N w)
    | Fetch url _ _ => fun w => (fetchReply (network w) url, w)
    | ResponseJson response => fun w => (jsonReply (network w) (resp_url response), w)
    | Confirm _ => fun w => (confirmAnswer w, w)
    end.

(** A device that answers every call well. *)
Definition goodDevice : Device :=
  mkDevice true (Ok 1%N) (["Detecting chip type... ESP32-C6"], Ok "ESP32-C6")
    true (Ok "aa:bb:cc:dd:ee:ff") true
    ([ReportProgress 0 256 512; ReportProgress 0 512 512], Ok tt)
    true (Ok tt) (Ok tt) (Ok tt).

Definition noNetwork : Network :=
  mkNetwork (fun _ => Thrown (JsError "Failed to fetch")) (fun _ => Thrown JsNonError).

(** A fresh browser profile: no database, a sound medium, a good device. *)
Definition freshWorld : World :=
  mkWorld ∅ [] 1700000000000 false goodDevice noNetwork true.

Definition with_device (v : Device) (w : World) : World :=
  mkWorld (databases w) (faults w) (clock w) (portOpened w) v (network w) (confirmAnswer w).
Definition with_network (v : Network) (w : World) : World :=
  mkWorld (databases w) (faults w) (clock w) (portOpened w) (device w) v (confirmAnswer w).

(** ** Taking a program one call at a time *)

(** The session a program has reached, and the call it waits for. *)
Definition stateOf {A} (st : Step A) : Session :=
  match st with
  | Settled s _ => s
  | Await s _ _ => s
  end.

Definition pending {A} (st : Step A) : option ExtCall :=
  match st with
  | Settled _ _ => None
  | Await _ c _ => Some c
  end.

(** The pending call is answered and the program goes on to its next
    call, from the session [now] (which other programs may have changed
    while this one waited). *)
Definition resume {W A} (h : Handler W) (st : Step A) (now : Session) (w : W) : Step A * W :=
  match st with
  | Settled _ _ => (st, w)
  | Await _ c k => let '(x, w1) := h c w in (k x now, w1)
  end.

(** The waits of a program in the course of a run: for each call, the
    session the program has reached when it makes it, the call, and the
    world the call is made in.  These are the moments at which the page
    takes a click. *)
Fixpoint waitingPoints {W A} (h : Handler W) (st : Step A) (w : W)
  : list (Session * ExtCall * W) :=
  match st with
  | Settled _ _ => []
  | Await s c k => (s, c, w) :: let '(x, w1) := h c w in waitingPoints h (k x s) w1
  end.

(** ** Notions used in the statements *)

(** No device handle is bound: the three refs are empty, the connected
    flag is down and no chip is named. *)
Definition released (s : Session) : Prop :=
  transportRef s = None /\ espLoaderRef s = None /\ serialPortRef s = None
  /\ isConnected s = false /\ chipInfo s = "".

(** A call of [flashFirmware] that got past its guards ends as a completed
    or as a failed flash. *)
Definition terminal (r : Result FlashExit) : Prop :=
  r = Ok FlashCompleted \/ r = Ok FlashFailed.

Fixpoint nonDecreasing (l : list JsNumber) : bool :=
  match l with
  | a :: rest =>
      match rest with
      | b :: _ => js_le a b && nonDecreasing rest
      | [] => true
      end
  | [] => true
  end.

(** What one call published: the values added to the history. *)
Definition published (before after : Session) : list JsNumber :=
  drop (length (progressHistory before)) (progressHistory after).

(** The [(written, total)] pairs among the events of a write. *)
Definition progressCalls (events : list LoaderEvent) : list (N * N) :=
  flat_map (fun event =>
              match event with
              | ReportProgress _ written total => [(written, total)]
              | TerminalLine _ => []
              end) events.

(** [written] never goes down, and [written <= total] in every callback. *)
Fixpoint writtenNonDecreasing (l : list (N * N)) : bool :=
  match l with
  | p :: rest =>
      match rest with
      | q :: _ => (p.1 <=? q.1)%N && writtenNonDecreasing rest
      | [] => true
      end
  | [] => true
  end.

Definition writtenWithinTotal (l : list (N * N)) : bool :=
  forallb (fun p => (p.1 <=? p.2)%N) l.

(** Every total is positive, [written <= total], and the fraction
    [written / total] never goes down from one callback to the next. *)
Fixpoint steady (l : list (N * N)) : bool :=
  match l with
  | p :: rest =>
      (0 <? p.2)%N && (p.1 <=? p.2)%N &&
      match rest with
      | q :: _ => (p.1 * q.2 <=? q.1 * p.2)%N && steady rest
      | [] => true
      end
  | [] => true
  end.

(** With a positive total the callback publishes the rounding of
    [10 + 90 * written / total]. *)
Definition scaled (written : N) (total : positive) : Q :=
  10 + (Z.of_N written # total) * 100 * (9 # 10) + (1 # 2).

(** The session once [deliver] has run on every event, as a function. *)
Definition deliverTo (s : Session) (event : LoaderEvent) : Session :=
  match event with
  | TerminalLine data => with_logs (logs s ++ [data]) s
  | ReportProgress _ written total => with_progress (totalProgress written total) s
  end.

Definition delivered (events : list LoaderEvent) (s : Session) : Session :=
  fold_left deliverTo events s.

Definition logged (lines : list string) (s : Session) : Session :=
  fold_left (fun s line => with_logs (logs s ++ [line]) s) lines s.

Definition notReadyLine : string := "No device connected or no firmware file selected".
Definition invalidAddressLine : string := "❌ Invalid flash address. Use hex like 0x10000".

Definition isWriteFlashAt (address : JsNumber) (c : ExtCall) : bool :=
  match c with
  | LoaderWriteFlash _ options =>
      match fileArray options with
      | [file] =>
          match ff_address file, address with
          | Num a, Num b => (a =? b)%Z
          | _, _ => false
          end
      | _ => false
      end
  | _ => false
  end.

(** A call that closes the device: [transport.disconnect()] or
    [port.close()]. *)
Definition closesDevice (c : ExtCall) : bool :=
  match c with
  | TransportDisconnect _ => true
  | PortClose _ => true
  | _ => false
  end.

Definition isDeleteDatabase (c : ExtCall) : bool :=
  match c with
  | IdbDeleteDatabase _ => true
  | _ => false
  end.

Definition isPut (c : ExtCall) : bool :=
  match c with
  | IdbPut _ _ _ => true
  | _ => false
  end.

(** The URLs of the [fetch] calls among the calls made. *)
Definition fetchedUrls (cs : list ExtCall) : list string :=
  flat_map (fun c =>
              match c with
              | Fetch url _ _ => [url]
              | _ => []
              end) cs.

(** The fallback chain: the direct call, then the proxies in their order.
    An attempt gives a body when its status is a success and its body
    parses; [firstBody] is the first attempt of a list that gives one, with
    its position. *)
Definition chain : list string := apiUrl :: map proxy_url corsProxies.

Definition attemptOf (net : Network) (url : string) : option Json :=
  match fetchReply net url with
  | Ok response =>
      if resp_ok response
      then match jsonReply net (resp_url response) with
           | Ok body => Some body
           | Thrown _ => None
           end
      else None
  | Thrown _ => None
  end.

Fixpoint firstBody (net : Network) (urls : list string) : option (nat * Json) :=
  match urls with
  | [] => None
  | url :: rest =>
      match attemptOf net url with
      | Some body => Some (0%nat, body)
      | None =>
          match firstBody net rest with
          | Some (i, body) => Some (S i, body)
          | None => None
          end
      end
  end.

(** Where the chain stops and with what body: at the direct call when it
    gives a truthy body, and otherwise at the first proxy that gives a
    body, truthy or not.  The position is counted in [chain]. *)
Definition stopOf (net : Network) : option (nat * Json) :=
  match attemptOf net apiUrl with
  | Some body =>
      if truthy body then Some (0%nat, body)
      else match firstBody net (map proxy_url corsProxies) with
           | Some (i, later) => Some (S i, later)
           | None => None
           end
  | None =>
      match firstBody net (map proxy_url corsProxies) with
      | Some (i, later) => Some (S i, later)
      | None => None
      end
  end.

(** [s'] is [s] but for the log. *)
Definition onlyLogged (s s' : Session) : Prop := s' = with_logs (logs s') s.

(** The medium is sound and holds, under [name], [record] (or nothing). *)
Definition cachedAs (w : World) (name : string) (record : option FirmwareRecord) : Prop :=
  faults w = []
  /\ exists d records,
       databases w !! DB_NAME = Some d /\ db_version d = DB_VERSION
       /\ db_stores d !! STORE_NAME = Some records /\ records !! name = record.

(** The calls [cs] were made before those of [o]. *)
Definition prepend {W A} (cs : list ExtCall) (o : Result A * Session * W * list ExtCall)
  : Result A * Session * W * list ExtCall :=
  (outcome o, session o, world o, cs ++ calls o).

(** A context that lets a pending call through, as [bindStep], [catchStep]
    and [finallyStep] do. *)
Definition transparent {A B} (E : Step A -> Step B) : Prop :=
  forall s c k, E (Await s c k) = Await s c (fun x s' => E (k x s')).

Definition isWriteFlash (c : ExtCall) : bool :=
  match c with
  | LoaderWriteFlash _ _ => true
  | _ => false
  end.

Definition isFileRead (c : ExtCall) : bool :=
  match c with
  | FileArrayBuffer _ => true
  | _ => false
  end.

(** Calls among which there is neither a write to the flash nor a read of
    the file. *)
Definition cleanupOnly (cs : list ExtCall) : Prop :=
  Forall (fun c => isWriteFlash c = false /\ isFileRead c = false) cs.

(** The options [flashFirmware] gives to [writeFlash]: one file, the bytes
    as a binary string, at [address]. *)
Definition writeOptions (bytes : ArrayBuffer) (address : JsNumber) : FlashOptions :=
  mkFlashOptions [mkFlashFile (binaryString bytes) address] "keep" false true "dio" "40m".

(** A call of [flashFirmware] goes on to the write phase: it ends as a
    completed or as a failed flash; it reads the selected file first; when
    the file is read it calls [writeFlash] next, with the bytes read and the
    address parsed from the trimmed input; when the file cannot be read it
    fails without a write; every other call is part of the cleanup. *)
Definition entersWritePhase {W} (h : Handler W) (s : Session) (w : W)
    (loader : ESPLoader) (file : File) : Prop :=
  let o := run h (flashFirmware s) w in
  terminal (outcome o)
  /\ exists cleanup,
       cleanupOnly cleanup
       /\ match (h (FileArrayBuffer file) w).1 with
          | Ok bytes =>
              calls o
              = FileArrayBuffer file
                  :: LoaderWriteFlash loader
                       (writeOptions bytes (parseInt16 (trim (flashAddress s))))
                  :: cleanup
          | Thrown e =>
              calls o = FileArrayBuffer file :: cleanup /\ outcome o = Ok FlashFailed
          end.

(** Every total is positive and [written <= total]. *)
Definition withinTotal (l : list (N * N)) : bool :=
  forallb (fun p => (0 <? p.2)%N && (p.1 <=? p.2)%N) l.

(** A number fit for the width of the progress bar. *)
Definition percentage (v : JsNumber) : Prop :=
  exists z, v = Num z /\ (0 <= z <= 100)%Z.

(** The version of a database of the medium; a database that does not
    exist has version 0. *)
Definition versionOf (w : World) (db : string) : N :=
  default 0%N (db_version <$> databases w !! db).

(** The medium is sound, the database is of the current version and its
    object store holds exactly [records]. *)
Definition storeHolds (w : World) (records : gmap string FirmwareRecord) : Prop :=
  faults w = []
  /\ versionOf w DB_NAME = DB_VERSION
  /\ storeOf w DB_NAME STORE_NAME = Some records.

(** Every record is stored under its own name, as the key path [name]
    has it. *)
Definition keyedByName (records : gmap string FirmwareRecord) : Prop :=
  map_Forall (fun key record => fw_name record = key) records.

(** The entry of the listing made from a record. *)
Definition infoOf (item : FirmwareRecord) : FirmwareInfo :=
  mkFirmwareInfo (fw_name item) (fw_size item) (fw_timestamp item).

Definition confirmClear : string :=
  "Are you sure you want to delete all stored firmwares? This cannot be undone.".

(** ** Sessions and worlds for the examples *)

Definition appBin : File := mkFile "app.bin" (repeat Byte.x00 512).

(** After [connectToDevice] on a fresh profile, with [app.bin] selected. *)
Definition connectedWorld : World :=
  world (run platform (connectToDevice initialSession) freshWorld).

Definition readySession : Session :=
  with_firmwareFile (Some appBin)
    (session (run platform (connectToDevice initialSession) freshWorld)).

(** [app.bin] selected, a device connected, and the address typed with a
    space in front. *)
Definition paddedSession : Session := with_flashAddress " 0x10000" readySession.

(** The same, with an address that is not hexadecimal to its end. *)
Definition malformedSession : Session := with_flashAddress "0x1g" readySession.

(** A first flash request, taken up to its pending [writeFlash]. *)
Definition firstRequest : Step FlashExit * World :=
  let st := flashFirmware readySession in
  resume platform st (stateOf st) connectedWorld.

(** The session while the first request waits for the write to settle. *)
Definition inFlight : Session := stateOf firstRequest.1.

(** What a call of [flashFirmware] made meanwhile would come to, taken as
    far; the page has no such call, its one caller being the button. *)
Definition secondRequest : Step FlashExit * World :=
  let st := flashFirmware inFlight in
  resume platform st (stateOf st) firstRequest.2.

Definition awaitsWriteAt (address : JsNumber) {A} (st : Step A) : bool :=
  match pending st with
  | Some c => isWriteFlashAt address c
  | None => false
  end.

(** The platform with the device fixed once and for all. *)
Definition deviceHandler (d : Device) : Handler World :=
  fun c w => platform c (with_device d w).

(** A write whose second callback names another total. *)
Definition shiftingTotals : list LoaderEvent :=
  [ReportProgress 0 5 10; ReportProgress 0 6 100].

Definition shiftingDevice : Device :=
  mkDevice true (Ok 1%N) ([], Ok "ESP32-C6") true (Ok "aa:bb:cc:dd:ee:ff") true
    (shiftingTotals, Ok tt) true (Ok tt) (Ok tt) (Ok tt).

(** A device whose handshake fails. *)
Definition deafDevice : Device :=
  mkDevice true (Ok 1%N) ([], Thrown (JsError "Failed to connect with the device"))
    true (Ok "aa:bb:cc:dd:ee:ff") true ([], Ok tt) true (Ok tt) (Ok tt) (Ok tt).

(** A fresh profile with a device whose handshake fails. *)
Definition deafWorld : World := with_device deafDevice freshWorld.

(** A device whose write fails. *)
Definition timeoutDevice : Device :=
  mkDevice true (Ok 1%N) ([], Ok "ESP32-C6") true (Ok "aa:bb:cc:dd:ee:ff") true
    ([], Thrown (JsError "Timeout")) true (Ok tt) (Ok tt) (Ok tt).

(** A device whose [disconnect] and [close] throw. *)
Definition stuckDevice : Device :=
  mkDevice true (Ok 1%N) ([], Ok "ESP32-C6") true (Ok "aa:bb:cc:dd:ee:ff") true
    ([], Ok tt) true (Ok tt) (Thrown (JsError "The device has been lost."))
    (Thrown JsNonError).

(** The cache after [app.bin] has been saved on a fresh profile. *)
Definition cachedWorld : World :=
  world (run platform (saveFirmwareToDB "app.bin" (file_bytes appBin) initialSession) freshWorld).

Definition quotaExceeded : JsThrown := JsError "QuotaExceededError".

(** A medium that opens the database and then rejects the write. *)
Definition fullWorld : World := with_faults [NoFault; FaultError quotaExceeded] cachedWorld.

(** A medium that fails the first [open] and is sound afterwards. *)
Definition corruptWorld : World :=
  with_faults [FaultError (JsError "UnknownError")] cachedWorld.

(** A medium that fails the first [open] and then rejects the write of
    the retry. *)
Definition brokenWorld : World :=
  with_faults [FaultError (JsError "UnknownError"); NoFault; NoFault; NoFault;
               FaultError quotaExceeded] cachedWorld.

(** An asset of a release, with the two members the component reads. *)
Definition assetOf (name url : string) : Json :=
  JsonObject [("name", JsonString name); ("browser_download_url", JsonString url)].

Definition releaseOf (assets : list Json) : Json :=
  JsonObject [("tag_name", JsonString "v1.0"); ("assets", JsonArray assets)].

Definition releaseA : Json :=
  releaseOf [assetOf "npg-lite.bin" "https://example.org/npg-lite.bin";
             assetOf "notes.txt" "https://example.org/notes.txt"].

(** The direct call answers 200 with a body that does not parse; the first
    proxy answers 200 with a release. *)
Definition brokenDirect : Network :=
  mkNetwork
    (fun url => Ok (mkResponse true 200 url))
    (fun url => if String.eqb url apiUrl then Thrown (JsError "Unexpected token <")
                else Ok releaseA).

(** A release without any [.bin] asset, served by the direct call. *)
Definition releaseNotes : Json :=
  releaseOf [assetOf "notes.txt" "https://example.org/notes.txt"].

Definition notesOnly : Network :=
  mkNetwork (fun url => Ok (mkResponse true 200 url)) (fun url => Ok releaseNotes).

(** The direct call fails; the first proxy answers 200 with the body
    [null]; the second proxy would serve a release. *)
Definition nullFromFirstProxy : Network :=
  mkNetwork
    (fun url => if String.eqb url apiUrl then Thrown (JsError "Failed to fetch")
                else Ok (mkResponse true 200 url))
    (fun url => if String.eqb url ("https://api.allorigins.win/raw?url="
                                   +:+ encodeURIComponent apiUrl)
                then Ok JsonNull else Ok releaseA).

(** A session that still shows the candidates of an earlier fetch. *)
Definition staleSession : Session :=
  with_githubFirmwares
    [mkGithubFirmware "old.bin" (Some (JsonString "https://example.org/old.bin"))]
    initialSession.


(** The loader and the transport that [connectToDevice] builds over the
    port of the good device. *)
Definition goodTransport : Transport := mkTransport 1%N true.
Definition goodLoader : ESPLoader := mkESPLoader goodTransport 921600 115200.

(** A device that connects and then fails to tell its MAC address. *)
Definition macLessDevice : Device :=
  mkDevice true (Ok 1%N) ([], Ok "ESP32-C6") true (Thrown (JsError "Unsupported command"))
    true ([], Ok tt) true (Ok tt) (Ok tt) (Ok tt).

(** What the store holds once [app.bin] has been saved on a fresh profile. *)
Definition cachedRecords : gmap string FirmwareRecord :=
  {[ "app.bin" := mkFirmwareRecord "app.bin" (file_bytes appBin) 1700000000000 512 ]}.

(** A profile left by the first version of the page: the database is of
    version 1 and its store holds a firmware. *)
Definition legacyWorld : World :=
  with_databases
    {[ DB_NAME :=
         mkDatabase 1
           {[ STORE_NAME :=
                {[ "old.bin" := mkFirmwareRecord "old.bin" [Byte.x01] 1600000000000 1 ]} ]} ]}
    freshWorld.

(** ** The page: dialogs, uploads and downloads *)

(** The state of the component that the functions above leave alone: the
    Add Firmware dialog and the download in progress.  A page is a session
    and these. *)
Record Page : Type := mkPage {
  core : Session;
  showAddFirmwareDialog : bool;
  downloadingFirmware : option string;
  downloadProgress : string
}.

Definition initialPage : Page := mkPage initialSession false None "".

Definition with_core (v : Session) (p : Page) : Page :=
  mkPage v (showAddFirmwareDialog p) (downloadingFirmware p) (downloadProgress p).
Definition with_showAddFirmwareDialog (v : bool) (p : Page) : Page :=
  mkPage (core p) v (downloadingFirmware p) (downloadProgress p).
Definition with_downloadingFirmware (v : option string) (p : Page) : Page :=
  mkPage (core p) (showAddFirmwareDialog p) v (downloadProgress p).
Definition with_downloadProgress (v : string) (p : Page) : Page :=
  mkPage (core p) (showAddFirmwareDialog p) (downloadingFirmware p) v.

(** The second argument of [fetch], as the download gives it. *)
Record FetchInit : Type := mkFetchInit {
  init_method : string;
  init_headers : list (string * string);
  init_timeoutMs : N;
  init_mode : string
}.

(** The calls of the page: those of the session, a [fetch] with its
    options, and the two readings of a response that the download makes,
    [response.headers.get(name)] and [response.arrayBuffer()].

    The last one is no call of the source.  [handleFileUpload] prints
    [error.message] of whatever the save rejected with, without asking
    whether it is an [Error].  What that gives for a value that is none
    depends on the value, which [JsNonError] does not keep: the text the
    template prints for its [message] property, [undefined] for most, or
    the [TypeError] of reading a property of [null] or [undefined].  The
    platform, which chose the value, is asked. *)
Inductive PageCall : Type :=
| Core (c : ExtCall)
| FetchWith (url : string) (init : FetchInit)
| HeadersGet (response : Response) (name : string)
| ResponseArrayBuffer (response : Response)
| MessageOfNonError.

Definition pageReply (c : PageCall) : Type :=
  match c with
  | Core c => reply c
  | FetchWith _ _ => Result Response
  | HeadersGet _ _ => option string
  | ResponseArrayBuffer _ => Result ArrayBuffer
  | MessageOfNonError => Result string
  end.

(** Programs over a page, built as those over a session are. *)
Inductive PageStep (A : Type) : Type :=
| PageSettled (p : Page) (r : Result A)
| PageAwait (p : Page) (c : PageCall) (k : pageReply c -> Page -> PageStep A).
Arguments PageSettled {A} p r.
Arguments PageAwait {A} p c k.

Definition PageAsync (A : Type) : Type := Page -> PageStep A.

Module PageProgram.

Definition ret {A} (a : A) : PageAsync A := fun p => PageSettled p (Ok a).
Definition throw {A} (e : JsThrown) : PageAsync A := fun p => PageSettled p (Thrown e).
Definition settle {A} (r : Result A) : PageAsync A := fun p => PageSettled p r.

Fixpoint bindStep {A B} (st : PageStep A) (f : A -> PageAsync B) : PageStep B :=
  match st with
  | PageSettled p (Ok a) => f a p
  | PageSettled p (Thrown e) => PageSettled p (Thrown e)
  | PageAwait p c k => PageAwait p c (fun x p' => bindStep (k x p') f)
  end.

Definition bind {A B} (m : PageAsync A) (f : A -> PageAsync B) : PageAsync B :=
  fun p => bindStep (m p) f.

Fixpoint catchStep {A} (st : PageStep A) (handler : JsThrown -> PageAsync A) : PageStep A :=
  match st with
  | PageSettled p (Ok a) => PageSettled p (Ok a)
  | PageSettled p (Thrown e) => handler e p
  | PageAwait p c k => PageAwait p c (fun x p' => catchStep (k x p') handler)
  end.

Definition try_catch {A} (m : PageAsync A) (handler : JsThrown -> PageAsync A) : PageAsync A :=
  fun p => catchStep (m p) handler.

Fixpoint finallyStep {A} (st : PageStep A) (final : PageAsync unit) : PageStep A :=
  match st with
  | PageSettled p r => bindStep (final p) (fun _ p' => PageSettled p' r)
  | PageAwait p c k => PageAwait p c (fun x p' => finallyStep (k x p') final)
  end.

Definition try_finally {A} (m : PageAsync A) (final : PageAsync unit) : PageAsync A :=
  fun p => finallyStep (m p) final.

Definition call (c : PageCall) : PageAsync (pageReply c) :=
  fun p => PageAwait p c (fun x p' => PageSettled p' (Ok x)).

Definition update (f : Page -> Page) : PageAsync unit :=
  fun p => PageSettled (f p) (Ok tt).

Definition when (b : bool) (m : PageAsync unit) : PageAsync unit :=
  if b then m else ret tt.

(** A program over the session runs on the page's session; while it waits,
    the rest of the page may change. *)
Fixpoint liftStep {A} (p : Page) (st : Step A) : PageStep A :=
  match st with
  | Settled s r => PageSettled (with_core s p) r
  | Await s c k =>
      PageAwait (with_core s p) (Core c) (fun x p' => liftStep p' (k x (core p')))
  end.

Definition lift {A} (m : Async A) : PageAsync A :=
  fun p => liftStep p (m (core p)).

End PageProgram.

Coercion PageProgram.lift : Async >-> PageAsync.

Declare Scope page_scope.
Delimit Scope page_scope with page.
Bind Scope page_scope with PageAsync.

Notation "x <- m ;; k" := (PageProgram.bind m (fun x => k))
  (at level 100, m at next level, right associativity) : page_scope.
Notation "m ;; k" := (PageProgram.bind m (fun _ => k))
  (at level 100, k at level 200, right associativity) : page_scope.
Notation "'await' c" := (PageProgram.bind (PageProgram.call c) PageProgram.settle)
  (at level 10, c at level 9) : page_scope.

Definition PageHandler (W : Type) : Type := forall c : PageCall, W -> pageReply c * W.

Fixpoint runPage {W A} (h : PageHandler W) (st : PageStep A) (w : W)
  : Result A * Page * W * list PageCall :=
  match st with
  | PageSettled p r => (r, p, w, [])
  | PageAwait p c k =>
      let '(x, w1) := h c w in
      let '(r, p', w', calls) := runPage h (k x p) w1 in
      (r, p', w', c :: calls)
  end.

Definition pageOutcome {W A} (o : Result A * Page * W * list PageCall) : Result A :=
  o.1.1.1.
Definition pageOf {W A} (o : Result A * Page * W * list PageCall) : Page :=
  o.1.1.2.
Definition pageWorld {W A} (o : Result A * Page * W * list PageCall) : W :=
  o.1.2.
Definition pageCalls {W A} (o : Result A * Page * W * list PageCall) : list PageCall :=
  o.2.

(** [s.includes(searchString)] *)
Fixpoint includes (s searchString : string) : bool :=
  String.prefix searchString s
  || match s with
     | EmptyString => false
     | String _ rest => includes rest searchString
     end.

Inductive UploadExit : Type :=
| UploadNothing
| UploadRefused
| UploadSaved
| UploadNotSaved.

Inductive DownloadExit : Type :=
| DownloadDone
| DownloadFailed.

Definition downloadUrl (url : string) : string :=
  "https://api.codetabs.com/v1/proxy?quest=" +:+ encodeURIComponent url.

Definition commonHeaders : list (string * string) :=
  [("Accept", "application/octet-stream, */*");
   ("User-Agent", "Mozilla/5.0 (Windows NT 10.0; Win64; x64) AppleWebKit/537.36")].

Definition downloadFailure : string :=
  "Download failed. Please use manual download option.".

(** The lines that tell the user how to get the file by hand. *)
Definition manualInstructions (name : string) : list string :=
  [newline +:+ "🚀 Manual Download Instructions:";
   "   1. Visit: https://github.com/" +:+ githubRepo +:+ "/releases/latest";
   "   2. Find and click on " +:+ dquote +:+ name +:+ dquote;
   "   3. Save the .bin file to your computer";
   "   4. Use " +:+ dquote +:+ "Add Firmware" +:+ dquote +:+ " button to upload it"].

(** The options of the one [fetch] of the download. *)
Definition downloadInit : FetchInit := mkFetchInit "GET" commonHeaders 20000 "cors".

(** [contentType && contentType.includes('text/html')], as a condition:
    [null] and the empty string are falsy. *)
Definition isHtml (contentType : option string) : bool :=
  match contentType with
  | Some type => negb (String.eqb type "") && includes type "text/html"
  | None => false
  end.

Section PageFunctions.

Import PageProgram.
Local Open Scope page_scope.

Definition setShowAddFirmwareDialog (v : bool) : PageAsync unit :=
  update (with_showAddFirmwareDialog v).
Definition setDownloadingFirmware (v : option string) : PageAsync unit :=
  update (with_downloadingFirmware v).
Definition setDownloadProgress (v : string) : PageAsync unit :=
  update (with_downloadProgress v).

(** [error.message], read off a value that was not tested to be an
    [Error]. *)
Definition messageOf (error : JsThrown) : PageAsync string :=
  match error with
  | JsError message => ret message
  | JsNonError => await MessageOfNonError
  end.

(** [handleFileUpload], with [files] for [e.target.files].  The handler
    returns once the file is selected; the program goes on with the chain
    of promises it has started, [file.arrayBuffer().then(...)], and its
    outcome is how that chain settles: a failure to read the file is
    handled by nobody, a failure to save is.

    In the callback of [then], [loadLocalFirmwares()] is called and not
    awaited: it gets as far as its first request, the callback adds its
    line to the log and returns, and the list is refreshed when the
    database has answered.  The program adds the line and then runs
    [loadLocalFirmwares]: the request waits in a session that has the line,
    as in the browser, and [loadLocalFirmwares] neither reads the log nor
    rejects. *)
Definition handleFileUpload (files : list File) : PageAsync UploadExit :=
  match head files with
  | Some file =>
      if endsWith (file_name file) ".bin"
      then
        setFirmwareFile (Some file) ;;
        addLog ("Selected firmware: " +:+ file_name file +:+ " ("
                +:+ kilobytes (length (file_bytes file)) +:+ " KB)") ;;
        setShowAddFirmwareDialog false ;;
        arrayBuffer <- await (Core (FileArrayBuffer file)) ;;
        try_catch
          (saveFirmwareToDB (file_name file) arrayBuffer ;;
           addLog ("✓ Saved " +:+ file_name file +:+ " to local storage") ;;
           loadLocalFirmwares ;;
           ret UploadSaved)
          (fun error =>
             message <- messageOf error ;;
             addLog ("⚠ Could not save to storage: " +:+ message) ;;
             ret UploadNotSaved)
      else
        addLog "❌ Please select a .bin file" ;;
        ret UploadRefused
  | None => ret UploadNothing
  end.

(** The one attempt of [downloadGithubFirmware], through the proxy: what
    the variable [arrayBuffer] holds after it. *)
Definition downloadViaProxy (url : string) : PageAsync (option ArrayBuffer) :=
  try_catch
    (setDownloadProgress "Downloading via CORS Proxy..." ;;
     addLog "Downloading via CORS Proxy..." ;;
     response <- await (FetchWith (downloadUrl url) downloadInit) ;;
     if resp_ok response && (resp_status response =? 200)%N
     then
       contentType <- call (HeadersGet response "content-type") ;;
       if isHtml contentType
       then
         addLog "⚠ CORS Proxy: Got HTML response, skipping" ;;
         ret None
       else
         setDownloadProgress "Downloading via CORS Proxy..." ;;
         arrayBuffer <- await (ResponseArrayBuffer response) ;;
         when (1000 <? length arrayBuffer)%nat
           (addLog ("✓ Download successful via CORS Proxy ("
                    +:+ kilobytes (length arrayBuffer) +:+ " KB)")) ;;
         ret (Some arrayBuffer)
     else ret None)
    (fun error => ret None).

Definition downloadGithubFirmware (url name : string) : PageAsync DownloadExit :=
  setDownloadingFirmware (Some name) ;;
  setDownloadProgress "Initializing..." ;;
  try_finally
    (try_catch
       (addLog ("Downloading " +:+ name +:+ "...") ;;
        arrayBuffer <- downloadViaProxy url ;;
        match arrayBuffer with
        | Some bytes =>
            if (length bytes <? 1000)%nat
            then
              addLog ("❌ Download failed for " +:+ name) ;;
              throw (JsError downloadFailure)
            else
              setDownloadProgress "Saving to storage..." ;;
              addLog "Saving to browser storage..." ;;
              saveFirmwareToDB name bytes ;;
              loadLocalFirmwares ;;
              let file := mkFile name bytes in
              setFirmwareFile (Some file) ;;
              setShowGithubDialog false ;;
              addLog ("✓ Successfully downloaded and saved " +:+ name) ;;
              addLog ("✓ Ready to flash! Click " +:+ dquote +:+ "Flash Firmware" +:+ dquote
                      +:+ " when device is connected.") ;;
              ret DownloadDone
        | None =>
            addLog ("❌ Download failed for " +:+ name) ;;
            throw (JsError downloadFailure)
        end)
       (fun error =>
          addLog ("❌ Download error: " +:+ errorMessage error) ;;
          addLog (newline +:+ "🚀 Manual Download Instructions:") ;;
          addLog ("   1. Visit: https://github.com/" +:+ githubRepo +:+ "/releases/latest") ;;
          addLog ("   2. Find and click on " +:+ dquote +:+ name +:+ dquote) ;;
          addLog "   3. Save the .bin file to your computer" ;;
          addLog ("   4. Use " +:+ dquote +:+ "Add Firmware" +:+ dquote
                  +:+ " button to upload it") ;;
          ret DownloadFailed))
    (setDownloadingFirmware None ;;
     setDownloadProgress "").

End PageFunctions.

(** What the page meets beyond the world of the session: the web as
    the download sees it, with for every URL the response of [fetch], its
    headers and its body; and what reading the message of a thrown value
    that is no [Error] gives. *)
Record Web : Type := mkWeb {
  fileReply : string -> Result Response;
  headerOf : string -> string -> option string;
  bodyOf : string -> Result ArrayBuffer;
  messageOfNonError : Result string
}.

(** The reference platform, extended to the calls of the page. *)
Definition pagePlatform (web : Web) : PageHandler World :=
  fun c =>
    match c as c' return World -> pageReply c' * World with
    | Core c => platform c
    | FetchWith url _ => fun w => (fileReply web url, w)
    | HeadersGet response name => fun w => (headerOf web (resp_url response) name, w)
    | ResponseArrayBuffer response => fun w => (bodyOf web (resp_url response), w)
    | MessageOfNonError => fun w => (messageOfNonError web, w)
    end.

(** The session side of a handler of the page. *)
Definition coreHandler {W} (h : PageHandler W) : Handler W := fun c => h (Core c).

(** ** Notions of the page *)

(** A context of page programs that lets a pending call through. *)
Definition transparentPage {A B} (E : PageStep A -> PageStep B) : Prop :=
  forall p c k, E (PageAwait p c k) = PageAwait p c (fun x p' => E (k x p')).

Definition prependPage {W A} (cs : list PageCall) (o : Result A * Page * W * list PageCall)
  : Result A * Page * W * list PageCall :=
  (pageOutcome o, pageOf o, pageWorld o, cs ++ pageCalls o).

Definition isCore (c : PageCall) : bool :=
  match c with
  | Core _ => true
  | _ => false
  end.

(** What a call writes, if it is a write: the record of [name] and
    [data]. *)
Definition putsOnly (name : string) (data : ArrayBuffer) (cs : list ExtCall) : Prop :=
  Forall (fun c => isPut c = true ->
                   exists db timestamp,
                     c = IdbPut db STORE_NAME (mkFirmwareRecord name data timestamp (length data)))
    cs.

(** Every record written by the calls satisfies [P]. *)
Definition writesOnly (P : FirmwareRecord -> Prop) (cs : list PageCall) : Prop :=
  Forall (fun c => match c with
                   | Core (IdbPut _ _ record) => P record
                   | _ => True
                   end) cs.

(** What the platform answered when [bytes] were received from the proxy,
    the download starting in the world [w]: [fetch] resolved with a
    response that is [ok] with status 200, its content type, asked next,
    was not one of HTML, and its body, asked last, was [bytes]. *)
Definition received {W} (h : PageHandler W) (url : string) (w : W) (bytes : ArrayBuffer)
  : Prop :=
  exists response,
    let fetched := h (FetchWith (downloadUrl url) downloadInit) w in
    let contentType := h (HeadersGet response "content-type") fetched.2 in
    fetched.1 = Ok response
    /\ resp_ok response = true /\ resp_status response = 200%N
    /\ isHtml contentType.1 = false
    /\ (h (ResponseArrayBuffer response) contentType.2).1 = Ok bytes.

(** [bytes] were received from the proxy and there are at least 1000 of
    them. *)
Definition downloaded {W} (h : PageHandler W) (url : string) (w : W) (bytes : ArrayBuffer)
  : Prop :=
  (1000 <= length bytes)%nat /\ received h url w bytes.

(** What one attempt through the proxy leaves: it never rejects, it
    changes the page by the log and the progress text only, it asks nothing
    of IndexedDB, its first call is the [fetch] of the proxy, and when it
    has a body, that body was received from the proxy. *)
Definition attempted {W} (h : PageHandler W) (url : string) (p : Page) (w : W)
  (o : Result (option ArrayBuffer) * Page * W * list PageCall) : Prop :=
  exists result,
    pageOutcome o = Ok result
    /\ onlyLogged (core p) (core (pageOf o))
    /\ showAddFirmwareDialog (pageOf o) = showAddFirmwareDialog p
    /\ downloadingFirmware (pageOf o) = downloadingFirmware p
    /\ Forall (fun c => isCore c = false) (pageCalls o)
    /\ head (pageCalls o) = Some (FetchWith (downloadUrl url) downloadInit)
    /\ (forall bytes, result = Some bytes -> received h url w bytes).

(** A record of [name] and of bytes that were downloaded. *)
Definition recordOfDownload {W} (h : PageHandler W) (url name : string) (w : W)
  (record : FirmwareRecord) : Prop :=
  fw_name record = name
  /\ fw_size record = length (fw_data record)
  /\ downloaded h url w (fw_data record).

(** How a download leaves the page: the download flags are reset and the
    Add Firmware dialog is as it was; the first call was the [fetch] of the
    proxy; whatever was written to the store is a record of [name] and of
    bytes that were downloaded; and either the download failed and the
    session changed by its log only, or it is done and the session has the
    file selected, the dialog closed and a new list. *)
Definition downloadEnded {W} (h : PageHandler W) (url name : string) (p : Page) (w : W)
  (o : Result DownloadExit * Page * W * list PageCall) : Prop :=
  downloadingFirmware (pageOf o) = None
  /\ downloadProgress (pageOf o) = ""
  /\ showAddFirmwareDialog (pageOf o) = showAddFirmwareDialog p
  /\ head (pageCalls o) = Some (FetchWith (downloadUrl url) downloadInit)
  /\ writesOnly (recordOfDownload h url name w) (pageCalls o)
  /\ ((pageOutcome o = Ok DownloadFailed /\ onlyLogged (core p) (core (pageOf o)))
      \/ (pageOutcome o = Ok DownloadDone
          /\ exists bytes firmwares lines,
               downloaded h url w bytes
               /\ core (pageOf o)
                  = with_logs lines
                      (with_showGithubDialog false
                         (with_firmwareFile (Some (mkFile name bytes))
                            (with_localFirmwares firmwares (core p)))))).

(** A record of the file [name] with the bytes [data]. *)
Definition recordOfFile (name : string) (data : ArrayBuffer) (record : FirmwareRecord) : Prop :=
  exists timestamp, record = mkFirmwareRecord name data timestamp (length data).

(** ** A web for the examples *)

(** A body of exactly 1000 bytes. *)
Definition firmwareBody : ArrayBuffer := repeat Byte.x07 1000.

Definition releaseUrl : string :=
  "https://github.com/upsidedownlabs/npg-lite-firmware/releases/download/v1.0/NPG-LITE.bin".

(** The proxy answers every request with that body, as a binary. *)
Definition goodWeb : Web :=
  mkWeb (fun url => Ok (mkResponse true 200 url))
        (fun _ name => if String.eqb name "content-type" then Some "application/octet-stream"
                       else None)
        (fun _ => Ok firmwareBody)
        (Ok "undefined").

(** The proxy answers with a body one byte short of 1000. *)
Definition shortWeb : Web :=
  mkWeb (fileReply goodWeb) (headerOf goodWeb) (fun _ => Ok (repeat Byte.x07 999))
        (messageOfNonError goodWeb).

(** A firmware file on the user's disk. *)
Definition npgLite : File := mkFile "NPG-LITE.bin" firmwareBody.

(** * Properties *)

(** ** Symbolic execution *)

(** The program is unfolded up to its next call. *)
Ltac exec :=
  cbn [run waitingPoints bindStep catchStep finallyStep bind try_catch try_finally ret throw
       settle call update current withRender when addLog
       setIsConnected setIsFlashing setProgress setFirmwareFile setChipInfo
       setShowGithubDialog setGithubFirmwares setIsFetchingGithub setLocalFirmwares
       releaseSession
       with_isConnected with_isFlashing with_progress with_logs with_firmwareFile
       with_chipInfo with_flashAddress with_showGithubDialog with_githubFirmwares
       with_isFetchingGithub with_localFirmwares with_transportRef with_espLoaderRef
       with_serialPortRef
       isConnected isFlashing progress logs firmwareFile chipInfo flashAddress
       showGithubDialog githubFirmwares isFetchingGithub localFirmwares transportRef
       espLoaderRef serialPortRef progressHistory
       outcome session world calls fst snd negb].

(** Case analysis on the platform's answer to the call at hand. *)
Ltac answer h :=
  match goal with
  | |- context [h ?c ?w] =>
      let x := fresh "x" in
      let w' := fresh "w" in
      destruct (h c w) as [x w'] eqn:?; cbn [reply] in x
  end.

Ltac branch h :=
  first
    [ answer h
    | match goal with
      | |- context [match ?x with _ => _ end] => is_var x; destruct x
      | |- context [when ?x _] => is_var x; destruct x
      | |- context [negb ?x] => is_var x; destruct x
      | |- context [if ?b then _ else _] =>
          lazymatch type of b with bool => destruct b eqn:? end
      end ].

(** What is known of a ref or of a state variable is put to use. *)
Ltac recall :=
  match goal with
  | H : ?field ?s = _ |- context [?field ?s] => rewrite H
  end.

(** Every path of the program at hand is followed to its end. *)
Ltac explore h :=
  exec; repeat (first [ recall | branch h | progress unfold bind ]; exec);
  repeat match goal with a : unit |- _ => destruct a end.

(** ** Running composed programs *)

Section Running.

Context {W : Type} (h : Handler W).

Lemma run_bind {A B} (st : Step A) (f : A -> Async B) (w : W) :
  run h (bindStep st f) w =
  let o1 := run h st w in
  match outcome o1 with
  | Ok a =>
      let o2 := run h (f a (session o1)) (world o1) in
      (outcome o2, session o2, world o2, calls o1 ++ calls o2)
  | Thrown e => (Thrown e, session o1, world o1, calls o1)
  end.
Proof.
  revert w. induction st as [s [a|e]|s c k IH]; intros w; cbn.
  - destruct (run h (f a s) w) as [[[r s'] w'] cs]. reflexivity.
  - reflexivity.
  - destruct (h c w) as [x w1]. rewrite IH.
    destruct (run h (k x s) w1) as [[[r s'] w'] cs]. cbn.
    destruct r; reflexivity.
Qed.

Lemma run_catch {A} (st : Step A) (handler : JsThrown -> Async A) (w : W) :
  run h (catchStep st handler) w =
  let o1 := run h st w in
  match outcome o1 with
  | Ok a => o1
  | Thrown e =>
      let o2 := run h (handler e (session o1)) (world o1) in
      (outcome o2, session o2, world o2, calls o1 ++ calls o2)
  end.
Proof.
  revert w. induction st as [s [a|e]|s c k IH]; intros w; cbn.
  - reflexivity.
  - destruct (run h (handler e s) w) as [[[r s'] w'] cs]. reflexivity.
  - destruct (h c w) as [x w1]. rewrite IH.
    destruct (run h (k x s) w1) as [[[r s'] w'] cs]. cbn.
    destruct r; reflexivity.
Qed.

Lemma run_finally {A} (st : Step A) (final : Async unit) (w : W) :
  run h (finallyStep st final) w =
  let o1 := run h st w in
  let o2 := run h (final (session o1)) (world o1) in
  match outcome o2 with
  | Ok _ => (outcome o1, session o2, world o2, calls o1 ++ calls o2)
  | Thrown e => (Thrown e, session o2, world o2, calls o1 ++ calls o2)
  end.
Proof.
  revert w. induction st as [s r|s c k IH]; intros w; cbn.
  - rewrite run_bind. destruct (run h (final s) w) as [[[r' s'] w'] cs]. cbn.
    destruct r'; cbn; rewrite ?app_nil_r; reflexivity.
  - destruct (h c w) as [x w1]. rewrite IH.
    destruct (run h (k x s) w1) as [[[r s'] w'] cs]. cbn.
    destruct (run h (final s') w') as [[[r2 s2] w2] cs2]. cbn.
    destruct r2; reflexivity.
Qed.

(** A part of a program can be run first and the rest afterwards, whatever
    the context of [try], [catch], [finally] and sequencing around it. *)
Lemma run_context {A B} (E : Step A -> Step B) (HE : transparent E) (st : Step A) (w : W) :
  run h (E st) w =
  prepend (calls (run h st w))
    (run h (E (Settled (session (run h st w)) (outcome (run h st w)))) (world (run h st w))).
Proof.
  revert w. induction st as [s r|s c k IH]; intros w.
  - cbn. destruct (run h (E (Settled s r)) w) as [[[r' s'] w'] cs]. reflexivity.
  - rewrite HE. cbn [run]. destruct (h c w) as [x w1]. rewrite IH.
    destruct (run h (k x s) w1) as [[[r' s'] w'] cs]. cbn.
    destruct (run h (E (Settled s' r')) w') as [[[r2 s2] w2] cs2]. reflexivity.
Qed.

(** The waits of a run are one for each of its calls, in order. *)
Lemma waitingPoints_calls {A} (st : Step A) (w : W) :
  map (fun point => point.1.2) (waitingPoints h st w) = calls (run h st w).
Proof.
  revert w. induction st as [s r|s c k IH]; intros w; cbn; [reflexivity|].
  destruct (h c w) as [x w1]. rewrite IH.
  destruct (run h (k x s) w1) as [[[r' s'] w'] cs]. reflexivity.
Qed.

(** The waits of a part come first, those of the rest afterwards. *)
Lemma waitingPoints_context {A B} (E : Step A -> Step B) (HE : transparent E)
    (st : Step A) (w : W) :
  waitingPoints h (E st) w =
  waitingPoints h st w
  ++ waitingPoints h (E (Settled (session (run h st w)) (outcome (run h st w))))
       (world (run h st w)).
Proof.
  revert w. induction st as [s r|s c k IH]; intros w.
  - reflexivity.
  - rewrite HE. cbn [waitingPoints run app]. destruct (h c w) as [x w1]. rewrite IH.
    destruct (run h (k x s) w1) as [[[r' s'] w'] cs]. reflexivity.
Qed.

End Running.

(** The part [X] of the program at hand is run first. *)
Ltac run_first X :=
  match goal with
  | |- context [run ?h ?prog ?w] =>
      match prog with
      | context E [X] =>
          let T := type of X in
          let E' := constr:(fun st : T => ltac:(let t := context E [st] in exact t)) in
          let H := fresh in
          assert (H : transparent E') by (intros ? ? ?; reflexivity);
          rewrite (run_context h E' H X w); clear H
      end
  end.

(** The waits of the part [X] of the program at hand are taken first. *)
Ltac waits_first X :=
  match goal with
  | |- context [waitingPoints ?h ?prog ?w] =>
      match prog with
      | context E [X] =>
          let T := type of X in
          let E' := constr:(fun st : T => ltac:(let t := context E [st] in exact t)) in
          let H := fresh in
          assert (H : transparent E') by (intros ? ? ?; reflexivity);
          rewrite (waitingPoints_context h E' H X w); clear H
      end
  end.

(** The part [X] is run first and its result is named. *)
Ltac run_part h X :=
  unfold bind; exec; run_first X;
  let r := fresh "r" in
  let s' := fresh "s" in
  let w' := fresh "w" in
  let cs := fresh "cs" in
  let E := fresh "Hrun" in
  destruct (run h X _) as [[[r s'] w'] cs] eqn:E;
  cbn [outcome session world calls fst snd].

(** The part [X], whose run is known, is run first. *)
Ltac run_known X Hrun :=
  unfold bind; exec; run_first X; rewrite Hrun; unfold prepend;
  cbn [outcome session world calls fst snd].

(** ** The callbacks of the loader *)

Lemma forEach_deliver events s :
  forEach events deliver s = Settled (delivered events s) (Ok tt).
Proof.
  revert s. induction events as [|event rest IH]; intros s; [reflexivity|].
  cbn [forEach]. unfold bind. destruct event; cbn; rewrite IH; reflexivity.
Qed.

Lemma forEach_addLog lines s :
  forEach lines addLog s = Settled (logged lines s) (Ok tt).
Proof.
  revert s. induction lines as [|line rest IH]; intros s; [reflexivity|].
  cbn [forEach]. unfold bind. cbn. rewrite IH. reflexivity.
Qed.

(** Delivering events adds to the history the values computed from the
    progress callbacks, in order. *)
Lemma delivered_history events s :
  progressHistory (delivered events s) =
  progressHistory s ++ map (fun p => totalProgress p.1 p.2) (progressCalls events).
Proof.
  revert s. induction events as [|event rest IH]; intros s.
  - cbn. rewrite app_nil_r. reflexivity.
  - unfold delivered in *. cbn [fold_left]. rewrite IH.
    destruct event; cbn; rewrite <- ?app_assoc; reflexivity.
Qed.

Lemma published_app (s s' : Session) (values : list JsNumber) :
  progressHistory s' = progressHistory s ++ values -> published s s' = values.
Proof.
  intros H. unfold published. rewrite H. apply drop_app_length.
Qed.

(** ** The progress scale *)

Lemma totalProgress_scaled written total :
  totalProgress written (Npos total) = Num (Qfloor (scaled written total)).
Proof.
  unfold totalProgress, Math_round, scaled. cbn [N.eqb]. f_equal.
  apply Qfloor_comp. rewrite (Qmake_Qdiv (Z.of_N written) total). reflexivity.
Qed.

Lemma scaled_le w1 t1 w2 t2 :
  (w1 * Npos t2 <= w2 * Npos t1)%N -> scaled w1 t1 <= scaled w2 t2.
Proof.
  intros Hle. unfold scaled.
  apply Qplus_le_compat; [|apply Qle_refl].
  apply Qplus_le_compat; [apply Qle_refl|].
  apply Qmult_le_compat_r; [|discriminate].
  apply Qmult_le_compat_r; [|discriminate].
  unfold Qle. cbn [Qnum Qden].
  apply N2Z.inj_le in Hle. rewrite !N2Z.inj_mul in Hle. exact Hle.
Qed.

Lemma scaled_bounds w t :
  (w <= Npos t)%N -> (10 <= Qfloor (scaled w t) <= 100)%Z.
Proof.
  intros Hle. split.
  - change 10%Z with (Qfloor (scaled 0 1)). apply Qfloor_resp_le, scaled_le.
    rewrite N.mul_0_l. apply N.le_0_l.
  - change 100%Z with (Qfloor (scaled 1 1)). apply Qfloor_resp_le, scaled_le.
    rewrite N.mul_1_r, N.mul_1_l. exact Hle.
Qed.

Lemma steady_inv p rest :
  steady (p :: rest) = true ->
  exists t, p.2 = Npos t /\ (p.1 <= Npos t)%N /\ steady rest = true /\
            match rest with
            | q :: _ => (p.1 * q.2 <= q.1 * Npos t)%N
            | [] => True
            end.
Proof.
  destruct p as [w [|t]]; cbn [steady fst snd]; intros H.
  - discriminate.
  - exists t. destruct rest as [|q rest'].
    + rewrite andb_true_r in H. apply andb_prop in H as [_ H%N.leb_le]. auto.
    + apply andb_prop in H as [H H2]. apply andb_prop in H as [_ H%N.leb_le].
      apply andb_prop in H2 as [H2%N.leb_le H3]. auto.
Qed.

(** The values published for a steady run of callbacks lie between 10 and
    100 and never go down. *)
Lemma steady_values l lower :
  steady l = true -> (lower <= 100)%Z ->
  (match l with
   | p :: _ => forall t, p.2 = Npos t -> (lower <= Qfloor (scaled p.1 t))%Z
   | [] => True
   end) ->
  nonDecreasing (Num lower :: map (fun p => totalProgress p.1 p.2) l) = true
  /\ nonDecreasing (Num lower :: map (fun p => totalProgress p.1 p.2) l ++ [Num 100]) = true.
Proof.
  revert lower. induction l as [|p rest IH]; intros lower Hsteady Hlower Hfirst.
  - cbn. split; [reflexivity|]. rewrite andb_true_r. apply Z.leb_le. lia.
  - apply steady_inv in Hsteady as (t & Ht & Hwt & Hrest & Hnext).
    specialize (Hfirst t Ht).
    destruct (IH (Qfloor (scaled p.1 t)) Hrest) as [IH1 IH2].
    + pose proof (scaled_bounds p.1 t Hwt). lia.
    + destruct rest as [|q rest']; [exact I|].
      intros t' Ht'. apply Qfloor_resp_le, scaled_le. rewrite <- Ht'. exact Hnext.
    + cbn [map app nonDecreasing] in *. rewrite Ht, totalProgress_scaled in *.
      cbn [js_le]. split; (apply andb_true_intro; split; [apply Z.leb_le; exact Hfirst|]).
      * exact IH1.
      * exact IH2.
Qed.

Lemma steady_published l :
  steady l = true ->
  nonDecreasing ([Num 0; Num 10] ++ map (fun p => totalProgress p.1 p.2) l) = true
  /\ nonDecreasing ([Num 0; Num 10] ++ map (fun p => totalProgress p.1 p.2) l ++ [Num 100]) = true.
Proof.
  intros Hsteady.
  destruct (steady_values l 10 Hsteady) as [H1 H2]; [lia| |].
  - destruct l as [|p rest]; [exact I|]. intros t Ht.
    apply steady_inv in Hsteady as (t' & Ht' & Hwt & _).
    assert (t' = t) by congruence. subst t'.
    apply (scaled_bounds p.1 t Hwt).
  - cbn [app nonDecreasing js_le] in *. split; assumption.
Qed.

(** A fixed positive total with [written] going up to it is steady. *)
Lemma fixed_total_steady (total : N) (l : list (N * N)) :
  (0 < total)%N -> Forall (fun p => p.2 = total) l ->
  writtenNonDecreasing l = true -> writtenWithinTotal l = true ->
  steady l = true.
Proof.
  intros Hpos. induction l as [|p rest IH]; intros Hall Hup Hin; [reflexivity|].
  inversion Hall as [|? ? Hp Hrest]; subst.
  cbn [writtenWithinTotal forallb] in Hin. apply andb_prop in Hin as [Hp1 Hin].
  cbn [steady]. rewrite Hp1. apply N.ltb_lt in Hpos. rewrite Hpos. cbn [andb].
  destruct rest as [|q rest'].
  - reflexivity.
  - cbn [writtenNonDecreasing] in Hup. apply andb_prop in Hup as [Hpq Hup].
    rewrite (IH Hrest Hup Hin), andb_true_r.
    inversion Hrest as [|? ? Hq _]; subst. rewrite Hq.
    apply N.leb_le. apply N.leb_le in Hpq. nia.
Qed.

(** The callbacks of the loader touch the log and the progress only. *)
Lemma delivered_refs events s :
  transportRef (delivered events s) = transportRef s
  /\ espLoaderRef (delivered events s) = espLoaderRef s
  /\ serialPortRef (delivered events s) = serialPortRef s.
Proof.
  revert s. induction events as [|event rest IH]; intros s; [auto|].
  unfold delivered in *. cbn [fold_left].
  destruct (IH (deliverTo s event)) as (-> & -> & ->). destruct event; auto.
Qed.

Lemma delivered_flags events s :
  isFlashing (delivered events s) = isFlashing s
  /\ isConnected (delivered events s) = isConnected s
  /\ firmwareFile (delivered events s) = firmwareFile s.
Proof.
  revert s. induction events as [|event rest IH]; intros s; [auto|].
  unfold delivered in *. cbn [fold_left].
  destruct (IH (deliverTo s event)) as (-> & -> & ->). destruct event; auto.
Qed.

(** ** The device session, on any platform *)

Section DeviceSession.

Context {W : Type} (h : Handler W).

(** The cleanup after a write changes nothing but the log, and never
    throws. *)
Lemma finalizeFlash_frame s w :
  outcome (run h (finalizeFlash s) w) = Ok tt /\
  exists lines, session (run h (finalizeFlash s) w) = with_logs lines s.
Proof.
  unfold finalizeFlash. destruct s as [? ? ? ? ? ? ? ? ? ? ? transport loader port ?].
  destruct port, transport; explore h; (split; [reflexivity | eexists; reflexivity]).
Qed.

(** The cleanup after a failure changes nothing, and never throws. *)
Lemma abandonFlash_frame s w :
  outcome (run h (abandonFlash s) w) = Ok tt /\ session (run h (abandonFlash s) w) = s.
Proof.
  unfold abandonFlash. destruct s as [? ? ? ? ? ? ? ? ? ? ? transport loader port ?].
  destruct port, transport; explore h; (split; reflexivity).
Qed.

(** The call of [finalizeFlash] or of [abandonFlash] in the program at
    hand is run, and what is known of it is put to use. *)
Ltac teardown :=
  unfold bind; exec;
  lazymatch goal with
  | |- context [finalizeFlash ?s1] =>
      run_first (finalizeFlash s1);
      lazymatch goal with
      | |- context [run h (finalizeFlash s1) ?w1] =>
          let Hok := fresh "Hok" in
          let Hs := fresh "Hs" in
          let lines := fresh "lines" in
          destruct (finalizeFlash_frame s1 w1) as [Hok [lines Hs]];
          let r := fresh "r" in
          let s2 := fresh "s" in
          destruct (run h (finalizeFlash s1) w1) as [[[r s2] ?] ?];
          cbn [outcome session fst snd] in Hok, Hs; subst r s2
      end
  | |- context [abandonFlash ?s1] =>
      run_first (abandonFlash s1);
      lazymatch goal with
      | |- context [run h (abandonFlash s1) ?w1] =>
          let Hok := fresh "Hok" in
          let Hs := fresh "Hs" in
          destruct (abandonFlash_frame s1 w1) as [Hok Hs];
          let r := fresh "r" in
          let s2 := fresh "s" in
          destruct (run h (abandonFlash s1) w1) as [[[r s2] ?] ?];
          cbn [outcome session fst snd] in Hok, Hs; subst r s2
      end
  end.

(** *** The guards of [flashFirmware] *)

Lemma flash_not_ready s w :
  espLoaderRef s = None \/ firmwareFile s = None ->
  run h (flashFirmware s) w
  = (Ok FlashNotReady, with_logs (logs s ++ [notReadyLine]) s, w, []).
Proof.
  intros Hnot. unfold flashFirmware. exec.
  destruct (espLoaderRef s), (firmwareFile s); exec; try reflexivity.
  destruct Hnot; discriminate.
Qed.

Lemma flash_invalid_address s w loader file :
  espLoaderRef s = Some loader -> firmwareFile s = Some file ->
  isValidAddr (trim (flashAddress s)) = false ->
  run h (flashFirmware s) w
  = (Ok FlashInvalidAddress, with_logs (logs s ++ [invalidAddressLine]) s, w, []).
Proof.
  intros Hloader Hfile Hinvalid. unfold flashFirmware. exec.
  rewrite Hloader, Hfile, Hinvalid. exec. reflexivity.
Qed.

(** A call of [flashFirmware] that gets past the guards: how it ends,
    what it leaves of the session and what it publishes. *)
Lemma flash_started s w loader file :
  espLoaderRef s = Some loader -> firmwareFile s = Some file ->
  isValidAddr (trim (flashAddress s)) = true ->
  let o := run h (flashFirmware s) w in
  released (session o) /\ isFlashing (session o) = false /\
  ((outcome o = Ok FlashFailed /\
    progressHistory (session o) = progressHistory s ++ [Num 0])
   \/ exists options w1,
        let events := (h (LoaderWriteFlash loader options) w1).1.1 in
        let values := map (fun p => totalProgress p.1 p.2) (progressCalls events) in
        (outcome o = Ok FlashFailed /\
         progressHistory (session o) = progressHistory s ++ [Num 0; Num 10] ++ values)
        \/ (outcome o = Ok FlashCompleted /\
            progressHistory (session o)
            = progressHistory s ++ [Num 0; Num 10] ++ values ++ [Num 100])).
Proof.
  intros Hloader Hfile Hvalid o. subst o. unfold flashFirmware. exec.
  rewrite Hloader, Hfile, Hvalid. exec. rewrite Hloader.
  answer h. destruct x as [arrayBuffer|e]; exec.
  - answer h. destruct x as [events written]. exec.
    unfold bind. rewrite forEach_deliver. exec.
    match goal with
    | H : h (LoaderWriteFlash _ ?options) ?w0 = _ |- _ =>
        assert (Hevents : (h (LoaderWriteFlash loader options) w0).1.1 = events)
          by (rewrite H; reflexivity)
    end.
    destruct written as [[]|e]; exec; teardown; exec;
      unfold released, prepend; exec; repeat split;
      right; eexists _, _; rewrite Hevents; cbv zeta; [right|left];
      (split; [reflexivity|]);
      rewrite delivered_history; exec; rewrite <- ?app_assoc; reflexivity.
  - teardown. exec. unfold released, prepend. exec.
    repeat split. left. split; reflexivity.
Qed.

Lemma flash_started_terminal s w loader file :
  espLoaderRef s = Some loader -> firmwareFile s = Some file ->
  isValidAddr (trim (flashAddress s)) = true ->
  terminal (outcome (run h (flashFirmware s) w)).
Proof.
  intros Hloader Hfile Hvalid.
  destruct (flash_started s w loader file Hloader Hfile Hvalid)
    as (_ & _ & [[H _]|(options & w1 & [[H _]|[H _]])]);
    unfold terminal; auto.
Qed.

(** The three ways a call of [flashFirmware] can go. *)
Lemma flash_cases s w :
  (exists line r,
      run h (flashFirmware s) w = (Ok r, with_logs (logs s ++ [line]) s, w, [])
      /\ (r = FlashNotReady \/ r = FlashInvalidAddress))
  \/ (exists loader file,
         espLoaderRef s = Some loader /\ firmwareFile s = Some file
         /\ isValidAddr (trim (flashAddress s)) = true).
Proof.
  destruct (espLoaderRef s) as [loader|] eqn:Hloader;
    [destruct (firmwareFile s) as [file|] eqn:Hfile|].
  - destruct (isValidAddr (trim (flashAddress s))) eqn:Hvalid.
    + right. eauto.
    + left. eexists _, _. split; [exact (flash_invalid_address s w loader file Hloader Hfile Hvalid)|].
      auto.
  - left. eexists _, _. split; [exact (flash_not_ready s w (or_intror Hfile))|]. auto.
  - left. eexists _, _. split; [exact (flash_not_ready s w (or_introl Hloader))|]. auto.
Qed.

(** *** Teardown after a flash *)

(** C1. Every call of [flashFirmware] that runs to a terminal outcome, a
    completed flash or a failed one, returns with no device handle bound:
    the transport, loader and port refs are empty, the connected flag is
    false and the chip name is cleared. *)
Theorem flash_leaves_no_handle s w :
  terminal (outcome (run h (flashFirmware s) w)) ->
  released (session (run h (flashFirmware s) w)).
Proof.
  intros Hterminal.
  destruct (flash_cases s w) as [(line & r & Hrun & Hr)|(loader & file & Hloader & Hfile & Hvalid)].
  - rewrite Hrun in Hterminal. destruct Hterminal as [[= ->]|[= ->]], Hr; discriminate.
  - apply (flash_started s w loader file Hloader Hfile Hvalid).
Qed.

(** *** The calls and the waits of a flash *)

(** The two cleanups neither write nor read the file, and both ask a bound
    transport to disconnect. *)
Lemma finalizeFlash_calls s w :
  cleanupOnly (calls (run h (finalizeFlash s) w))
  /\ forall t, transportRef s = Some t ->
               In (TransportDisconnect t) (calls (run h (finalizeFlash s) w)).
Proof.
  unfold finalizeFlash, cleanupOnly. destruct s as [? ? ? ? ? ? ? ? ? ? ? transport loader port ?].
  destruct port, transport; explore h;
    (split; [repeat constructor | intros ? [= <-]; cbn; tauto]).
Qed.

Lemma abandonFlash_calls s w :
  cleanupOnly (calls (run h (abandonFlash s) w))
  /\ forall t, transportRef s = Some t ->
               In (TransportDisconnect t) (calls (run h (abandonFlash s) w)).
Proof.
  unfold abandonFlash, cleanupOnly. destruct s as [? ? ? ? ? ? ? ? ? ? ? transport loader port ?].
  destruct port, transport; explore h;
    (split; [repeat constructor | intros ? [= <-]; cbn; tauto]).
Qed.

(** The cleanup in the program at hand is run, and what is known of its
    session and of its calls is put to use. *)
Ltac teardown_calls :=
  unfold bind; exec;
  lazymatch goal with
  | |- context [finalizeFlash ?s1] =>
      run_first (finalizeFlash s1);
      lazymatch goal with
      | |- context [run h (finalizeFlash s1) ?w1] =>
          let Hok := fresh "Hok" in
          let Hs := fresh "Hs" in
          let lines := fresh "lines" in
          let Hclean := fresh "Hclean" in
          let Hdisc := fresh "Hdisc" in
          destruct (finalizeFlash_frame s1 w1) as [Hok [lines Hs]];
          destruct (finalizeFlash_calls s1 w1) as [Hclean Hdisc];
          let r := fresh "r" in
          let s2 := fresh "s" in
          destruct (run h (finalizeFlash s1) w1) as [[[r s2] ?] ?];
          cbn [outcome session calls fst snd] in Hok, Hs, Hclean, Hdisc; subst r s2
      end
  | |- context [abandonFlash ?s1] =>
      run_first (abandonFlash s1);
      lazymatch goal with
      | |- context [run h (abandonFlash s1) ?w1] =>
          let Hok := fresh "Hok" in
          let Hs := fresh "Hs" in
          let Hclean := fresh "Hclean" in
          let Hdisc := fresh "Hdisc" in
          destruct (abandonFlash_frame s1 w1) as [Hok Hs];
          destruct (abandonFlash_calls s1 w1) as [Hclean Hdisc];
          let r := fresh "r" in
          let s2 := fresh "s" in
          destruct (run h (abandonFlash s1) w1) as [[[r s2] ?] ?];
          cbn [outcome session calls fst snd] in Hok, Hs, Hclean, Hdisc; subst r s2
      end
  end.

(** The calls of a flash that gets past its guards: the read of the file,
    the write if the file could be read, and a cleanup. *)
Lemma flash_started_calls s w loader file :
  espLoaderRef s = Some loader -> firmwareFile s = Some file ->
  isValidAddr (trim (flashAddress s)) = true ->
  exists cleanup,
    cleanupOnly cleanup
    /\ (forall t, transportRef s = Some t -> In (TransportDisconnect t) cleanup)
    /\ match (h (FileArrayBuffer file) w).1 with
       | Ok bytes =>
           calls (run h (flashFirmware s) w)
           = FileArrayBuffer file
               :: LoaderWriteFlash loader
                    (writeOptions bytes (parseInt16 (trim (flashAddress s))))
               :: cleanup
       | Thrown e =>
           calls (run h (flashFirmware s) w) = FileArrayBuffer file :: cleanup
           /\ outcome (run h (flashFirmware s) w) = Ok FlashFailed
       end.
Proof.
  intros Hloader Hfile Hvalid. unfold flashFirmware. exec.
  rewrite Hloader, Hfile, Hvalid. exec. rewrite Hloader.
  answer h. destruct x as [arrayBuffer|e]; exec.
  - answer h. destruct x as [events written]. exec.
    unfold bind. rewrite forEach_deliver. exec.
    destruct written as [[]|e]; exec; teardown_calls; exec;
      unfold prepend; exec; eexists; (split; [|split; [|reflexivity]]).
    all: rewrite ?app_nil_r; cbn [transportRef] in *; try assumption.
    all: intros t Ht; apply Hdisc; exec; rewrite (proj1 (delivered_refs _ _)); exact Ht.
  - teardown_calls. exec. unfold prepend. exec.
    eexists. split; [|split; [|split; reflexivity]]; rewrite ?app_nil_r; assumption.
Qed.

(** While either cleanup waits, the session is as it was, but for the
    log. *)
Lemma finalizeFlash_waits s w :
  Forall (fun point => isFlashing point.1.1 = isFlashing s)
    (waitingPoints h (finalizeFlash s) w).
Proof.
  unfold finalizeFlash. destruct s as [? ? ? ? ? ? ? ? ? ? ? transport loader port ?].
  destruct port, transport; explore h; repeat constructor.
Qed.

Lemma abandonFlash_waits s w :
  Forall (fun point => isFlashing point.1.1 = isFlashing s)
    (waitingPoints h (abandonFlash s) w).
Proof.
  unfold abandonFlash. destruct s as [? ? ? ? ? ? ? ? ? ? ? transport loader port ?].
  destruct port, transport; explore h; repeat constructor.
Qed.

(** The waits of the cleanup in the program at hand are taken first; after
    it the program makes no call. *)
Ltac teardown_waits :=
  unfold bind; exec;
  lazymatch goal with
  | |- context [finalizeFlash ?s1] =>
      waits_first (finalizeFlash s1);
      lazymatch goal with
      | |- context [run h (finalizeFlash s1) ?w1] =>
          let Hok := fresh "Hok" in
          let Hs := fresh "Hs" in
          let lines := fresh "lines" in
          let Hwaits := fresh "Hwaits" in
          destruct (finalizeFlash_frame s1 w1) as [Hok [lines Hs]];
          pose proof (finalizeFlash_waits s1 w1) as Hwaits;
          let r := fresh "r" in
          let s2 := fresh "s" in
          destruct (run h (finalizeFlash s1) w1) as [[[r s2] ?] ?];
          cbn [outcome session fst snd] in Hok, Hs; subst r s2
      end
  | |- context [abandonFlash ?s1] =>
      waits_first (abandonFlash s1);
      lazymatch goal with
      | |- context [run h (abandonFlash s1) ?w1] =>
          let Hok := fresh "Hok" in
          let Hs := fresh "Hs" in
          let Hwaits := fresh "Hwaits" in
          destruct (abandonFlash_frame s1 w1) as [Hok Hs];
          pose proof (abandonFlash_waits s1 w1) as Hwaits;
          let r := fresh "r" in
          let s2 := fresh "s" in
          destruct (run h (abandonFlash s1) w1) as [[[r s2] ?] ?];
          cbn [outcome session fst snd] in Hok, Hs; subst r s2
      end
  end.

(** From its first call to its last, a flash waits with [isFlashing]
    true. *)
Lemma flash_waits_flashing s w :
  Forall (fun point => isFlashing point.1.1 = true) (waitingPoints h (flashFirmware s) w).
Proof.
  destruct (espLoaderRef s) as [loader|] eqn:Hloader;
    [destruct (firmwareFile s) as [file|] eqn:Hfile;
     [destruct (isValidAddr (trim (flashAddress s))) eqn:Hvalid|]|];
    unfold flashFirmware; exec; rewrite ?Hloader, ?Hfile, ?Hvalid; exec;
    try (constructor; fail).
  rewrite Hloader. constructor; [reflexivity|].
  answer h. destruct x as [arrayBuffer|e]; exec.
  - constructor; [reflexivity|].
    answer h. destruct x as [events written]. exec.
    unfold bind. rewrite forEach_deliver. exec.
    destruct written as [[]|e]; exec; teardown_waits; exec;
      rewrite app_nil_r; (eapply Forall_impl; [exact Hwaits|]);
      intros point ->; exec; apply delivered_flags.
  - teardown_waits. exec. rewrite app_nil_r.
    eapply Forall_impl; [exact Hwaits|]. intros point ->. reflexivity.
Qed.

(** *** The address *)

(** C3, amended. With a loader bound and a firmware selected,
    [flashFirmware] goes on to the write phase exactly when the address,
    once [trim] has removed the white space at its two ends, matches
    [^0x[0-9a-fA-F]+$].  Going on to the write phase is: the call ends as a
    completed or as a failed flash, it reads the selected file first, and
    when the file is read it calls [writeFlash] next, once, with the bytes
    read at the address parsed from the trimmed input (when the file cannot
    be read the flash fails and nothing is written).  For every other
    address it adds the invalid-address line to the log and returns without
    a call to the platform and with no other change of the session. *)
Theorem flash_address_check s w loader file :
  espLoaderRef s = Some loader -> firmwareFile s = Some file ->
  (isValidAddr (trim (flashAddress s)) = true <-> entersWritePhase h s w loader file)
  /\ (isValidAddr (trim (flashAddress s)) = false ->
      run h (flashFirmware s) w
      = (Ok FlashInvalidAddress, with_logs (logs s ++ [invalidAddressLine]) s, w, [])).
Proof.
  intros Hloader Hfile. split; [split|].
  - intros Hvalid. split.
    + exact (flash_started_terminal s w loader file Hloader Hfile Hvalid).
    + destruct (flash_started_calls s w loader file Hloader Hfile Hvalid)
        as (cleanup & Hclean & _ & Hcalls).
      exists cleanup. split; assumption.
  - intros [Hterminal _]. destruct (isValidAddr (trim (flashAddress s))) eqn:Hvalid; [reflexivity|].
    rewrite (flash_invalid_address s w loader file Hloader Hfile Hvalid) in Hterminal.
    destruct Hterminal; discriminate.
  - exact (flash_invalid_address s w loader file Hloader Hfile).
Qed.

(** *** A request during a flash *)

(** C4, amended. [flashFirmware] has no check of its own; its one caller is
    the flash button, which is disabled while [isFlashing] is true.  A flash
    waits once for each of its calls, and at every one of these waits,
    whatever the loader has reported meanwhile, [isFlashing] is true and a
    click on the button calls nothing: no call to the platform, no change of
    the session, no line in the log, nothing queued and no error raised. *)
Theorem click_while_flashing s w :
  map (fun point => point.1.2) (waitingPoints h (flashFirmware s) w)
  = calls (run h (flashFirmware s) w)
  /\ Forall (fun point =>
               forall events w',
                 let now := delivered events point.1.1 in
                 isFlashing now = true
                 /\ run h (clickFlashButton now) w' = (Ok None, now, w', []))
       (waitingPoints h (flashFirmware s) w).
Proof.
  split; [apply waitingPoints_calls|].
  eapply Forall_impl; [apply flash_waits_flashing|].
  intros point Hflashing events w' now.
  assert (Hnow : isFlashing now = true)
    by (subst now; rewrite (proj1 (delivered_flags _ _)); exact Hflashing).
  split; [exact Hnow|].
  unfold clickFlashButton, flashButtonDisabled. rewrite Hnow, orb_true_r. reflexivity.
Qed.

(** *** Progress *)

(** Whatever the callbacks, a flash that completes has published 100
    last. *)
Lemma flash_completed_ends_at_100 s w :
  outcome (run h (flashFirmware s) w) = Ok FlashCompleted ->
  last (published s (session (run h (flashFirmware s) w))) = Some (Num 100).
Proof.
  intros Hcompleted.
  destruct (flash_cases s w) as [(line & r & Hrun & Hr)|(loader & file & Hloader & Hfile & Hvalid)].
  - rewrite Hrun in Hcompleted. destruct Hr as [-> | ->]; discriminate.
  - destruct (flash_started s w loader file Hloader Hfile Hvalid)
      as (_ & _ & [[Hout _]|(options & w1 & [[Hout _]|[_ Hhist]])]);
      try congruence.
    rewrite (published_app _ _ _ Hhist), !app_assoc. apply last_snoc.
Qed.

(** C2, amended. When in every write the progress callbacks are steady
    (every total positive, [written <= total], and the fraction
    [written / total] never going down, as for a fixed total with [written]
    going up), the values one call of [flashFirmware] publishes never go
    down, and when the flash completes the last of them is 100. *)
Theorem flash_progress_steady s w :
  (forall loader options w1,
      steady (progressCalls (h (LoaderWriteFlash loader options) w1).1.1) = true) ->
  nonDecreasing (published s (session (run h (flashFirmware s) w))) = true
  /\ (outcome (run h (flashFirmware s) w) = Ok FlashCompleted ->
      last (published s (session (run h (flashFirmware s) w))) = Some (Num 100)).
Proof.
  intros Hsteady. split; [|apply flash_completed_ends_at_100].
  destruct (flash_cases s w) as [(line & r & Hrun & Hr)|(loader & file & Hloader & Hfile & Hvalid)].
  - rewrite Hrun. cbn [session fst snd].
    rewrite (published_app s _ []) by (cbn; rewrite app_nil_r; reflexivity).
    reflexivity.
  - destruct (flash_started s w loader file Hloader Hfile Hvalid)
      as (_ & _ & [[_ Hhist]|(options & w1 & Hcases)]).
    + rewrite (published_app _ _ _ Hhist). reflexivity.
    + cbv zeta in Hcases. specialize (Hsteady loader options w1).
      destruct (steady_published _ Hsteady) as [Hup Hup100].
      destruct Hcases as [[_ Hhist]|[_ Hhist]]; rewrite (published_app _ _ _ Hhist);
        assumption.
Qed.

(** *** Disconnecting *)

(** C9. [disconnectDevice] never throws and always leaves the session
    released: whatever [transport.disconnect()] and [port.close()] do, the
    three refs are cleared, the connected flag is false and the chip name
    is empty; an error is turned into a warning line of the log. *)
Theorem disconnect_always_releases s w :
  outcome (run h (disconnectDevice s) w) = Ok tt
  /\ released (session (run h (disconnectDevice s) w))
  /\ (logs (session (run h (disconnectDevice s) w)) = logs s ++ ["Disconnected from device"]
      \/ exists e, logs (session (run h (disconnectDevice s) w))
                   = logs s ++ ["Disconnect warning: " +:+ errorMessage e]).
Proof.
  unfold disconnectDevice, released.
  destruct (transportRef s) as [t|] eqn:Ht; destruct (serialPortRef s) as [p|] eqn:Hp;
    explore h; repeat split; eauto.
Qed.

(** When [transport.disconnect()] throws, the port is not closed, the
    error goes to the log and the session is released all the same. *)
Lemma disconnect_absorbs_error s w t e w1 :
  transportRef s = Some t ->
  h (TransportDisconnect t) w = (Thrown e, w1) ->
  run h (disconnectDevice s) w
  = (Ok tt,
     with_chipInfo "" (with_isConnected false (with_espLoaderRef None (with_transportRef None
       (with_serialPortRef None
          (with_logs (logs s ++ ["Disconnect warning: " +:+ errorMessage e]) s))))),
     w1, [TransportDisconnect t]).
Proof.
  intros Ht Hthrow. unfold disconnectDevice. exec. rewrite Ht. exec. rewrite Hthrow. exec.
  reflexivity.
Qed.

(** *** A handshake that fails *)

(** When [esploader.main()] rejects, [connectToDevice] logs the error and
    empties the three refs, and that is all: the calls made are the request
    for the port and the handshake, and neither [transport.disconnect()] nor
    [port.close()] is among them. *)
Lemma connect_handshake_failure s w w1 w2 w3 port lines e :
  h SerialRequestPortAvailable w = (true, w1) ->
  h SerialRequestPort w1 = (Ok port, w2) ->
  h (LoaderMain (mkESPLoader (mkTransport port true) 921600 115200)) w2
  = ((lines, Thrown e), w3) ->
  outcome (run h (connectToDevice s) w) = Ok ConnectFailed
  /\ transportRef (session (run h (connectToDevice s) w)) = None
  /\ espLoaderRef (session (run h (connectToDevice s) w)) = None
  /\ serialPortRef (session (run h (connectToDevice s) w)) = None
  /\ world (run h (connectToDevice s) w) = w3
  /\ calls (run h (connectToDevice s) w)
     = [SerialRequestPortAvailable; SerialRequestPort;
        LoaderMain (mkESPLoader (mkTransport port true) 921600 115200)].
Proof.
  intros Havailable Hport Hmain. unfold connectToDevice. exec.
  rewrite Havailable. exec. rewrite Hport. exec. rewrite Hmain. exec.
  unfold bind. rewrite forEach_addLog. exec. repeat split.
Qed.

End DeviceSession.

(** ** The device session, on the reference platform *)

Lemma flash_leaves_no_handle_witness :
  terminal (outcome (run platform (flashFirmware readySession) connectedWorld))
  /\ released (session (run platform (flashFirmware readySession) connectedWorld)).
Proof.
  split.
  - left. vm_compute. reflexivity.
  - apply (flash_leaves_no_handle platform readySession connectedWorld).
    left. vm_compute. reflexivity.
Defined.

(** C3, as stated, fails: the address [" 0x10000"] does not match
    [^0x[0-9a-fA-F]+$], yet the flash goes on to write at [0x10000]. *)
Lemma flash_address_counterexample :
  isValidAddr (flashAddress paddedSession) = false
  /\ outcome (run platform (flashFirmware paddedSession) connectedWorld) = Ok FlashCompleted
  /\ existsb (isWriteFlashAt (Num 65536))
       (calls (run platform (flashFirmware paddedSession) connectedWorld)) = true.
Proof. vm_compute. repeat split. Qed.

Lemma flash_address_check_witness :
  (isValidAddr (trim (flashAddress paddedSession)) = true
   /\ entersWritePhase platform paddedSession connectedWorld
        (mkESPLoader (mkTransport 1%N true) 921600 115200) appBin)
  /\ (isValidAddr (trim (flashAddress malformedSession)) = false
      /\ run platform (flashFirmware malformedSession) connectedWorld
         = (Ok FlashInvalidAddress,
            with_logs (logs malformedSession ++ [invalidAddressLine]) malformedSession,
            connectedWorld, [])).
Proof.
  split; split.
  - vm_compute. reflexivity.
  - apply (flash_address_check platform paddedSession connectedWorld
             (mkESPLoader (mkTransport 1%N true) 921600 115200) appBin);
      vm_compute; reflexivity.
  - vm_compute. reflexivity.
  - apply (flash_address_check platform malformedSession connectedWorld
             (mkESPLoader (mkTransport 1%N true) 921600 115200) appBin);
      vm_compute; reflexivity.
Defined.

(** With the address [" 0x10000"] the calls of the flash are the read of
    the file, the write of its bytes at [0x10000] and the cleanup. *)
Example flash_write_phase :
  take 2 (calls (run platform (flashFirmware paddedSession) connectedWorld))
  = [FileArrayBuffer appBin;
     LoaderWriteFlash (mkESPLoader (mkTransport 1%N true) 921600 115200)
       (writeOptions (file_bytes appBin) (Num 65536))].
Proof. vm_compute. reflexivity. Qed.

(** The test is anchored at both ends: an address that only contains a
    match is turned away, and nothing is asked of the platform. *)
Example flash_address_is_anchored :
  outcome (run platform (flashFirmware malformedSession) connectedWorld)
  = Ok FlashInvalidAddress
  /\ calls (run platform (flashFirmware malformedSession) connectedWorld) = [].
Proof. vm_compute. split; reflexivity. Qed.

(** C4, as stated, fails: while a first request waits for its write, with
    [isFlashing] true, a request made with the flash button is not answered
    by a rejection.  The button is disabled and the click calls nothing:
    there is no exit that says the session is busy, no line is added to the
    log and no error is raised; the session and the world are as they
    were. *)
Lemma busy_counterexample :
  isFlashing inFlight = true
  /\ awaitsWriteAt (Num 65536) firstRequest.1 = true
  /\ flashButtonDisabled inFlight = true
  /\ outcome (run platform (clickFlashButton inFlight) firstRequest.2) = Ok None
  /\ logs (session (run platform (clickFlashButton inFlight) firstRequest.2)) = logs inFlight
  /\ session (run platform (clickFlashButton inFlight) firstRequest.2) = inFlight
  /\ calls (run platform (clickFlashButton inFlight) firstRequest.2) = [].
Proof. vm_compute. repeat split. Qed.

Lemma click_while_flashing_witness :
  isFlashing inFlight = true
  /\ run platform (clickFlashButton inFlight) firstRequest.2
     = (Ok None, inFlight, firstRequest.2, []).
Proof.
  destruct (click_while_flashing platform readySession connectedWorld) as [_ Hwaits].
  assert (Hpoint : waitingPoints platform (flashFirmware readySession) connectedWorld !! 1%nat
                   = Some (inFlight,
                           LoaderWriteFlash (mkESPLoader (mkTransport 1%N true) 921600 115200)
                             (writeOptions (file_bytes appBin) (Num 65536)),
                           firstRequest.2))
    by (vm_compute; reflexivity).
  exact (proj1 (Forall_lookup _ _) Hwaits 1%nat _ Hpoint [] firstRequest.2).
Defined.

(** The flash of [app.bin] waits ten times, the second time for the
    write, and the button is disabled at each of these waits. *)
Example flash_waits_with_button_disabled :
  length (waitingPoints platform (flashFirmware readySession) connectedWorld) = 10%nat
  /\ (waitingPoints platform (flashFirmware readySession) connectedWorld) !! 1%nat
     = Some (inFlight,
             LoaderWriteFlash (mkESPLoader (mkTransport 1%N true) 921600 115200)
               (writeOptions (file_bytes appBin) (Num 65536)),
             firstRequest.2)
  /\ forallb (fun point => flashButtonDisabled point.1.1)
       (waitingPoints platform (flashFirmware readySession) connectedWorld) = true.
Proof. vm_compute. repeat split. Qed.

(** The check is the button's alone: [flashFirmware] itself, were it called
    during a flash, would set the published progress back from 10 to 0 and
    go on to a write of its own. *)
Example flash_has_no_check_of_its_own :
  pending (flashFirmware inFlight) = Some (FileArrayBuffer appBin)
  /\ progressHistory (stateOf (flashFirmware inFlight)) = [Num 0; Num 10; Num 0]
  /\ awaitsWriteAt (Num 65536) secondRequest.1 = true.
Proof. vm_compute. repeat split. Qed.

(** C2, as stated, fails: with [written] going up and never above [total],
    callbacks whose total changes, here [(5, 10)] then [(6, 100)], make the
    published progress go from 55 down to 15. *)
Lemma progress_counterexample :
  writtenNonDecreasing (progressCalls shiftingTotals) = true
  /\ writtenWithinTotal (progressCalls shiftingTotals) = true
  /\ outcome (run platform (flashFirmware readySession)
                (with_device shiftingDevice connectedWorld)) = Ok FlashCompleted
  /\ published readySession
       (session (run platform (flashFirmware readySession)
                   (with_device shiftingDevice connectedWorld)))
     = [Num 0; Num 10; Num 55; Num 15; Num 100]
  /\ nonDecreasing
       (published readySession
          (session (run platform (flashFirmware readySession)
                      (with_device shiftingDevice connectedWorld)))) = false.
Proof. vm_compute. repeat split. Qed.

(** A zero total is no better: [0 / 0] is [NaN], which compares with
    nothing. *)
Example progress_zero_total :
  totalProgress 0 0 = NaN /\ nonDecreasing [Num 0; Num 10; totalProgress 0 0; Num 100] = false.
Proof. split; reflexivity. Qed.

Lemma flash_progress_steady_witness :
  nonDecreasing
    (published readySession
       (session (run (deviceHandler goodDevice) (flashFirmware readySession) connectedWorld)))
  = true
  /\ outcome (run (deviceHandler goodDevice) (flashFirmware readySession) connectedWorld)
     = Ok FlashCompleted
  /\ last (published readySession
             (session (run (deviceHandler goodDevice) (flashFirmware readySession)
                         connectedWorld)))
     = Some (Num 100).
Proof.
  destruct (flash_progress_steady (deviceHandler goodDevice) readySession connectedWorld)
    as [Hup Hlast].
  - intros loader options w1. reflexivity.
  - split; [exact Hup|]. split; [vm_compute; reflexivity|].
    apply Hlast. vm_compute. reflexivity.
Defined.

(** A device whose [disconnect] throws: the session is released, the port
    is not closed and the warning is in the log. *)
Example disconnect_stuck_device :
  outcome (run platform (disconnectDevice readySession) (with_device stuckDevice connectedWorld))
  = Ok tt
  /\ espLoaderRef (session (run platform (disconnectDevice readySession)
                              (with_device stuckDevice connectedWorld))) = None
  /\ isConnected (session (run platform (disconnectDevice readySession)
                             (with_device stuckDevice connectedWorld))) = false
  /\ last (logs (session (run platform (disconnectDevice readySession)
                            (with_device stuckDevice connectedWorld))))
     = Some "Disconnect warning: The device has been lost."
  /\ calls (run platform (disconnectDevice readySession)
              (with_device stuckDevice connectedWorld))
     = [TransportDisconnect (mkTransport 1%N true)].
Proof. vm_compute. repeat split. Qed.

(** C7: the code at a failing input.  A device whose handshake fails, on a
    fresh profile: the session ends with no handle bound, but no call that
    closes the device was made and the port that [main] opened is still
    open. *)
Theorem connect_failure_leaves_port_open :
  outcome (run platform (connectToDevice initialSession) deafWorld) = Ok ConnectFailed
  /\ transportRef (session (run platform (connectToDevice initialSession) deafWorld)) = None
  /\ espLoaderRef (session (run platform (connectToDevice initialSession) deafWorld)) = None
  /\ serialPortRef (session (run platform (connectToDevice initialSession) deafWorld)) = None
  /\ existsb closesDevice (calls (run platform (connectToDevice initialSession) deafWorld))
     = false
  /\ portOpened (world (run platform (connectToDevice initialSession) deafWorld)) = true.
Proof. vm_compute. repeat split. Qed.

(** The sibling path does close the device: a flash whose write fails calls
    [transport.disconnect()] before it lets go of the refs, and the port is
    closed. *)
Example flash_failure_closes_device :
  outcome (run platform (flashFirmware readySession) (with_device timeoutDevice connectedWorld))
  = Ok FlashFailed
  /\ existsb closesDevice
       (calls (run platform (flashFirmware readySession)
                 (with_device timeoutDevice connectedWorld))) = true
  /\ portOpened
       (world (run platform (flashFirmware readySession)
                 (with_device timeoutDevice connectedWorld))) = false.
Proof. vm_compute. repeat split. Qed.

(** ** The cache, on any platform *)

Section Cache.

Context {W : Type} (h : Handler W).

(** The IndexedDB functions do not touch the component's state. *)
Lemma openDB_session s w : session (run h (openDB s) w) = s.
Proof. unfold openDB. explore h; reflexivity. Qed.

Lemma deleteFirmwareFromDB_session name s w :
  session (run h (deleteFirmwareFromDB name s) w) = s.
Proof.
  unfold deleteFirmwareFromDB.
  run_part h (openDB s). pose proof (openDB_session s w) as Hs. rewrite Hrun in Hs.
  cbn [session fst snd] in Hs. subst. unfold prepend. destruct r; explore h; reflexivity.
Qed.

Lemma resetDatabase_session s w : session (run h (resetDatabase s) w) = s.
Proof. unfold resetDatabase. explore h; reflexivity. Qed.

(** [loadLocalFirmwares] never throws and leaves the selection alone. *)
Lemma loadLocalFirmwares_frame s w :
  outcome (run h (loadLocalFirmwares s) w) = Ok tt
  /\ firmwareFile (session (run h (loadLocalFirmwares s) w)) = firmwareFile s.
Proof.
  unfold loadLocalFirmwares, getAllFirmwaresFromDB.
  run_part h (openDB s). pose proof (openDB_session s w) as Hs. rewrite Hrun in Hs.
  cbn [session fst snd] in Hs. subst. unfold prepend.
  destruct r; explore h; split; reflexivity.
Qed.

(** *** Saving *)

(** When the database opens and the write is rejected, the rejection goes
    straight to the caller: the promise of the write was returned, not
    awaited, so neither [catch] clause sees it. *)
Lemma save_put_failure_escapes s w name data db w1 now w2 e w3 :
  h (IdbOpen DB_NAME DB_VERSION) w = (OpenSuccess db, w1) ->
  h DateNow w1 = (now, w2) ->
  h (IdbPut db STORE_NAME (mkFirmwareRecord name data now (length data))) w2
  = (Thrown e, w3) ->
  run h (saveFirmwareToDB name data s) w
  = (Thrown e, s, w3,
     [IdbOpen DB_NAME DB_VERSION; DateNow;
      IdbPut db STORE_NAME (mkFirmwareRecord name data now (length data))]).
Proof.
  intros Hopen Hnow Hput. unfold saveFirmwareToDB, openDB, putFirmware. exec.
  rewrite Hopen. exec. rewrite Hnow. exec. rewrite Hput. exec. reflexivity.
Qed.

(** *** The selection *)

(** [deleteFirmwareFromStorage] ends as [DeleteDone] exactly when the
    deletion in the database resolved. *)
Lemma delete_done_iff s w name :
  outcome (run h (deleteFirmwareFromStorage name s) w) = Ok DeleteDone
  <-> outcome (run h (deleteFirmwareFromDB name s) w) = Ok tt.
Proof.
  unfold deleteFirmwareFromStorage. exec.
  run_part h (deleteFirmwareFromDB name s).
  pose proof (deleteFirmwareFromDB_session name s w) as Hs. rewrite Hrun in Hs.
  cbn [session fst snd] in Hs. subst. unfold prepend. destruct r as [[]|e]; exec.
  - run_part h (loadLocalFirmwares s).
    destruct (loadLocalFirmwares_frame s w0) as [Hok Hfile]. rewrite Hrun0 in Hok, Hfile.
    cbn [outcome session fst snd] in Hok, Hfile. subst. unfold prepend. exec.
    destruct (firmwareFile s) as [file|]; exec;
      [destruct (String.eqb (file_name file) name); exec|]; split; reflexivity.
  - split; discriminate.
Qed.

(** C10. When [deleteFirmwareFromStorage name] has deleted the record, the
    selected firmware does not bear that name any more: a selection of that
    name is cleared, any other is kept.  When [clearAllFirmwares] has
    cleared the cache, nothing is selected. *)
Theorem selection_follows_cache s w name :
  (outcome (run h (deleteFirmwareFromStorage name s) w) = Ok DeleteDone ->
   firmwareFile (session (run h (deleteFirmwareFromStorage name s) w))
   = match firmwareFile s with
     | Some file => if String.eqb (file_name file) name then None else Some file
     | None => None
     end)
  /\ (outcome (run h (clearAllFirmwares s) w) = Ok ClearDone ->
      firmwareFile (session (run h (clearAllFirmwares s) w)) = None).
Proof.
  split.
  - unfold deleteFirmwareFromStorage. exec.
    run_part h (deleteFirmwareFromDB name s).
    pose proof (deleteFirmwareFromDB_session name s w) as Hs. rewrite Hrun in Hs.
    cbn [session fst snd] in Hs. subst. unfold prepend. destruct r as [[]|e]; exec.
    + run_part h (loadLocalFirmwares s).
      destruct (loadLocalFirmwares_frame s w0) as [Hok Hfile]. rewrite Hrun0 in Hok, Hfile.
      cbn [outcome session fst snd] in Hok, Hfile. subst. unfold prepend. exec.
      destruct (firmwareFile s) as [file|] eqn:Hselected; exec;
        [destruct (String.eqb (file_name file) name); exec|]; intros _; try reflexivity;
        congruence.
    + discriminate.
  - unfold clearAllFirmwares. exec. answer h. destruct x; exec; [|discriminate].
    run_part h (resetDatabase (with_logs (logs s ++ ["Clearing all stored firmwares..."]) s)).
    unfold prepend. destruct r as [[]|e]; exec; [|discriminate].
    run_part h (loadLocalFirmwares s0).
    destruct (loadLocalFirmwares_frame s0 w1) as [Hok _]. rewrite Hrun0 in Hok.
    cbn [outcome fst snd] in Hok. subst. unfold prepend. exec. reflexivity.
Qed.

End Cache.

(** ** The cache, on the reference platform *)

Ltac execp :=
  exec;
  cbn [platform onStore storeOf setStores with_databases with_faults with_clock
       with_portOpened databases faults clock portOpened device network confirmAnswer
       db_version db_stores].

Lemma nextFault_sound (w : World) : faults w = [] -> nextFault w = (NoFault, w).
Proof. intros H. unfold nextFault. rewrite H. reflexivity. Qed.

(** The medium's own bookkeeping is simplified: no fault is due, and a
    look-up after an update is resolved. *)
Ltac medium Hsound :=
  repeat (execp;
          first [ rewrite nextFault_sound by (execp; exact Hsound)
                | rewrite lookup_insert_eq
                | rewrite lookup_delete_eq
                | rewrite insert_insert_eq
                | rewrite lookup_empty
                | match goal with
                  | H : ?m !! ?k = _ |- context [?m !! ?k] => rewrite H
                  | H : (?a <? ?b)%N = _ |- context [(?a <? ?b)%N] => rewrite H
                  | H : (?a =? ?b)%N = _ |- context [(?a =? ?b)%N] => rewrite H
                  end
                | match goal with
                  | |- context [bool_decide (is_Some (Some ?x))] =>
                      rewrite (bool_decide_eq_true_2 (is_Some (Some x)))
                        by (eexists; reflexivity)
                  | |- context [bool_decide (is_Some (@None ?A))] =>
                      rewrite (bool_decide_eq_false_2 (is_Some (@None A)))
                        by (intros [? ?]; discriminate)
                  end
                | progress change (0 <? 2)%N with true
                | progress unfold bind, storeOf, setStores, onStore ]);
  execp.

(** On a sound medium [openDB] either fails on a database of a later
    version, leaving the medium as it is, or yields a database of the
    current version, which holds the object store unless nothing was
    changed; the medium stays sound and the session is not touched. *)
Lemma openDB_platform (w : World) (s : Session) :
  faults w = [] ->
  exists r w' cs,
    run platform (openDB s) w = (r, s, w', cs)
    /\ faults w' = []
    /\ match r with
       | Ok db =>
           db = DB_NAME
           /\ exists d, databases w' !! DB_NAME = Some d
                        /\ db_version d = DB_VERSION
                        /\ (w' = w \/ is_Some (db_stores d !! STORE_NAME))
       | Thrown e => w' = w
       end.
Proof.
  intros Hsound. unfold openDB, DB_VERSION.
  destruct (databases w !! DB_NAME) as [d|] eqn:Hdb.
  - destruct (db_version d <? 2)%N eqn:Hold.
    + destruct (db_stores d !! STORE_NAME) as [records|] eqn:Hstore; medium Hsound.
      all: eexists _, _, _; (split; [reflexivity|]); execp; (split; [exact Hsound|]).
      all: split; [reflexivity|]; eexists; rewrite lookup_insert_eq.
      all: (split; [reflexivity|]); split; [reflexivity|]; right; execp.
      all: rewrite lookup_insert_eq; eexists; reflexivity.
    + destruct (db_version d =? 2)%N eqn:Hnow; medium Hsound.
      * eexists _, _, _. split; [reflexivity|]. split; [exact Hsound|].
        split; [reflexivity|]. exists d. apply N.eqb_eq in Hnow. auto.
      * eexists _, _, _. split; [reflexivity|]. auto.
  - medium Hsound.
    eexists _, _, _; (split; [reflexivity|]); execp; (split; [exact Hsound|]).
    split; [reflexivity|]; eexists; rewrite lookup_insert_eq.
    (split; [reflexivity|]); split; [reflexivity|]; right; execp.
    rewrite lookup_insert_eq; eexists; reflexivity.
Qed.

(** A write into a database of the current version, on a sound medium:
    if it resolves, the record is in the store. *)
Lemma putFirmware_platform (w : World) (s : Session) (name : string) (data : ArrayBuffer) d :
  faults w = [] -> databases w !! DB_NAME = Some d -> db_version d = DB_VERSION ->
  exists r w' cs,
    run platform (putFirmware DB_NAME name data s) w = (r, s, w', cs)
    /\ (r = Ok tt ->
        cachedAs w' name (Some (mkFirmwareRecord name data (clock w) (length data)))).
Proof.
  intros Hsound Hdb Hversion. unfold putFirmware.
  destruct (db_stores d !! STORE_NAME) as [records|] eqn:Hstore; medium Hsound;
    eexists _, _, _; (split; [reflexivity|]).
  - intros _. split; [exact Hsound|]. execp. eexists _, _.
    rewrite lookup_insert_eq. split; [reflexivity|]. split; [exact Hversion|]. execp.
    rewrite lookup_insert_eq. split; [reflexivity|]. apply lookup_insert_eq.
  - discriminate.
Qed.

(** What [getFirmwareFromDB] reads is what the store holds. *)
Lemma getFirmwareFromDB_cached (w : World) (s : Session) (name : string) record :
  cachedAs w name record ->
  outcome (run platform (getFirmwareFromDB name s) w) = Ok (fw_data <$> record).
Proof.
  intros (Hsound & d & records & Hdb & Hversion & Hstore & Hrecord).
  unfold getFirmwareFromDB, openDB. unfold DB_VERSION in *.
  assert (Hold : (db_version d <? 2)%N = false) by (rewrite Hversion; reflexivity).
  assert (Hnow : (db_version d =? 2)%N = true) by (rewrite Hversion; reflexivity).
  medium Hsound. destruct record; reflexivity.
Qed.

(** A deletion that resolves leaves nothing under the name. *)
Lemma deleteFirmwareFromDB_platform (w : World) (s : Session) (name : string) :
  faults w = [] ->
  outcome (run platform (deleteFirmwareFromDB name s) w) = Ok tt ->
  cachedAs (world (run platform (deleteFirmwareFromDB name s) w)) name None.
Proof.
  intros Hsound. unfold deleteFirmwareFromDB.
  destruct (openDB_platform w s Hsound) as (r & w1 & cs & Hopen & Hsound1 & Hr).
  run_known (openDB s) Hopen.
  destruct r as [db|e]; [|discriminate].
  destruct Hr as (-> & d & Hdb & Hversion & _).
  destruct (db_stores d !! STORE_NAME) as [records|] eqn:Hstore; medium Hsound1.
  - intros _. split; [exact Hsound1|]. execp. eexists _, _.
    rewrite lookup_insert_eq. split; [reflexivity|]. split; [exact Hversion|]. execp.
    rewrite lookup_insert_eq. split; [reflexivity|]. apply lookup_delete_eq.
  - discriminate.
Qed.

(** A save that resolves leaves the record, with the bytes given and their
    length as its size, under the name. *)
Lemma saveFirmwareToDB_platform (w : World) (s : Session) (name : string) (data : ArrayBuffer) :
  faults w = [] ->
  outcome (run platform (saveFirmwareToDB name data s) w) = Ok tt ->
  exists timestamp,
    cachedAs (world (run platform (saveFirmwareToDB name data s) w)) name
      (Some (mkFirmwareRecord name data timestamp (length data))).
Proof.
  intros Hsound. unfold saveFirmwareToDB.
  destruct (openDB_platform w s Hsound) as (r & w1 & cs & Hopen & Hsound1 & Hr).
  run_known (openDB s) Hopen.
  destruct r as [db|e].
  - destruct Hr as (-> & d & Hdb & Hversion & _). exec.
    destruct (putFirmware_platform w1 s name data d Hsound1 Hdb Hversion)
      as (r & w2 & cs2 & Hput & Hcached).
    rewrite Hput. cbn [outcome world fst snd]. intros ->. eauto.
  - subst w1. exec. unfold resetDatabase. medium Hsound.
    match goal with
    | |- context [openDB ?s1] =>
        match goal with
        | |- context [run platform _ ?w2] =>
            assert (Hsound2 : faults w2 = []) by exact Hsound;
            destruct (openDB_platform w2 s1 Hsound2) as (r & w3 & cs3 & Hopen2 & Hsound3 & Hr);
            run_known (openDB s1) Hopen2
        end
    end.
    destruct r as [db|e2]; exec.
    + destruct Hr as (-> & d & Hdb & Hversion & _).
      destruct (putFirmware_platform w3 s name data d Hsound3 Hdb Hversion)
        as (r & w4 & cs4 & Hput & Hcached).
      rewrite Hput. cbn [outcome world fst snd]. intros ->. eauto.
    + discriminate.
Qed.

(** On a sound medium without the database, a save resolves. *)
Lemma saveFirmwareToDB_fresh (w : World) (s : Session) (name : string) (data : ArrayBuffer) :
  faults w = [] -> databases w !! DB_NAME = None ->
  outcome (run platform (saveFirmwareToDB name data s) w) = Ok tt.
Proof.
  intros Hsound Hdb. unfold saveFirmwareToDB, openDB, putFirmware, DB_VERSION.
  medium Hsound. reflexivity.
Qed.

(** C8. On a sound medium, after [saveFirmwareToDB name data] has resolved,
    [getFirmwareFromDB name] resolves to the very bytes [data], and the
    record stored under [name] has these bytes and their length as its
    size; after [deleteFirmwareFromDB name] has resolved,
    [getFirmwareFromDB name] resolves to [null]. *)
Theorem cache_round_trip (w : World) (s s' : Session) (name : string) (data : ArrayBuffer) :
  faults w = [] ->
  (outcome (run platform (saveFirmwareToDB name data s) w) = Ok tt ->
   outcome (run platform (getFirmwareFromDB name s')
              (world (run platform (saveFirmwareToDB name data s) w))) = Ok (Some data)
   /\ exists record,
        cachedAs (world (run platform (saveFirmwareToDB name data s) w)) name (Some record)
        /\ fw_data record = data /\ fw_size record = length (fw_data record))
  /\ (outcome (run platform (deleteFirmwareFromDB name s) w) = Ok tt ->
      outcome (run platform (getFirmwareFromDB name s')
                 (world (run platform (deleteFirmwareFromDB name s) w))) = Ok None).
Proof.
  intros Hsound. split.
  - intros Hsaved.
    destruct (saveFirmwareToDB_platform w s name data Hsound Hsaved) as [timestamp Hcached].
    split.
    + rewrite (getFirmwareFromDB_cached _ s' name _ Hcached). reflexivity.
    + eexists. split; [exact Hcached|]. split; reflexivity.
  - intros Hdeleted.
    rewrite (getFirmwareFromDB_cached _ s' name _
               (deleteFirmwareFromDB_platform w s name Hsound Hdeleted)).
    reflexivity.
Qed.

Lemma cache_round_trip_witness :
  outcome (run platform (getFirmwareFromDB "app.bin" initialSession)
             (world (run platform (saveFirmwareToDB "app.bin" (file_bytes appBin)
                                     initialSession) freshWorld)))
  = Ok (Some (file_bytes appBin))
  /\ outcome (run platform (getFirmwareFromDB "app.bin" initialSession)
                (world (run platform (deleteFirmwareFromDB "app.bin" initialSession)
                          cachedWorld)))
     = Ok None.
Proof.
  split.
  - apply (cache_round_trip freshWorld initialSession initialSession "app.bin"
             (file_bytes appBin)); [reflexivity | vm_compute; reflexivity].
  - apply (cache_round_trip cachedWorld initialSession initialSession "app.bin"
             (file_bytes appBin)); [reflexivity | vm_compute; reflexivity].
Defined.

Lemma selection_follows_cache_witness :
  (outcome (run platform (deleteFirmwareFromStorage "app.bin" readySession) cachedWorld)
   = Ok DeleteDone
   /\ firmwareFile (session (run platform (deleteFirmwareFromStorage "app.bin" readySession)
                               cachedWorld)) = None)
  /\ (outcome (run platform (clearAllFirmwares readySession) cachedWorld) = Ok ClearDone
      /\ firmwareFile (session (run platform (clearAllFirmwares readySession) cachedWorld))
         = None).
Proof.
  destruct (selection_follows_cache platform readySession cachedWorld "app.bin")
    as [Hdelete Hclear].
  split; split.
  - vm_compute. reflexivity.
  - rewrite Hdelete; [reflexivity | vm_compute; reflexivity].
  - vm_compute. reflexivity.
  - apply Hclear. vm_compute. reflexivity.
Defined.

(** C5: the code at a failing input.  The database opens and the medium
    rejects the write with [QuotaExceededError]: [saveFirmwareToDB] rejects
    with that very error, having made no call to delete the database and
    no second write. *)
Theorem save_put_failure_no_self_heal :
  outcome (run platform (saveFirmwareToDB "app.bin" (file_bytes appBin) initialSession)
             fullWorld) = Thrown quotaExceeded
  /\ length (List.filter isDeleteDatabase
               (calls (run platform (saveFirmwareToDB "app.bin" (file_bytes appBin)
                                       initialSession) fullWorld))) = 0%nat
  /\ length (List.filter isPut
               (calls (run platform (saveFirmwareToDB "app.bin" (file_bytes appBin)
                                       initialSession) fullWorld))) = 1%nat.
Proof. vm_compute. repeat split. Qed.

(** A failure to open is what the [catch] clause does see: one deletion of
    the database, one new [open] and one write. *)
Lemma save_open_failure_heals_once :
  outcome (run platform (saveFirmwareToDB "app.bin" (file_bytes appBin) initialSession)
             corruptWorld) = Ok tt
  /\ length (List.filter isDeleteDatabase
               (calls (run platform (saveFirmwareToDB "app.bin" (file_bytes appBin)
                                       initialSession) corruptWorld))) = 1%nat
  /\ length (List.filter isPut
               (calls (run platform (saveFirmwareToDB "app.bin" (file_bytes appBin)
                                       initialSession) corruptWorld))) = 1%nat.
Proof. vm_compute. repeat split. Qed.

(** And when the write of the retry is rejected in its turn, the caller
    gets that rejection, not the guidance to clear the browser's data. *)
Lemma save_retry_failure_escapes :
  outcome (run platform (saveFirmwareToDB "app.bin" (file_bytes appBin) initialSession)
             brokenWorld) = Thrown quotaExceeded
  /\ outcome (run platform (saveFirmwareToDB "app.bin" (file_bytes appBin) initialSession)
                brokenWorld) <> Thrown (JsError storageGuidance).
Proof. vm_compute. split; [reflexivity | discriminate]. Qed.

(** ** The fallback chain *)

(** C6, as stated, fails: the direct call returns a success status, but its
    body does not parse; the function does not stop there, it goes on to the
    first proxy and publishes that proxy's candidates. *)
Lemma fetch_counterexample :
  match fetchReply brokenDirect apiUrl with
  | Ok response => resp_ok response
  | Thrown _ => false
  end = true
  /\ fetchedUrls (calls (run platform (fetchGithubReleases initialSession)
                           (with_network brokenDirect freshWorld)))
     = take 2 chain
  /\ outcome (run platform (fetchGithubReleases initialSession)
                (with_network brokenDirect freshWorld)) = Ok FetchPublished
  /\ githubFirmwares (session (run platform (fetchGithubReleases initialSession)
                                 (with_network brokenDirect freshWorld)))
     = [mkGithubFirmware "npg-lite.bin"
          (Some (JsonString "https://example.org/npg-lite.bin"))].
Proof. vm_compute. repeat split. Qed.

(** A winner without a [.bin] asset publishes nothing: the list of an
    earlier fetch stays. *)
Lemma fetch_empty_keeps_stale_list :
  outcome (run platform (fetchGithubReleases staleSession)
             (with_network notesOnly freshWorld)) = Ok FetchEmpty
  /\ githubFirmwares (session (run platform (fetchGithubReleases staleSession)
                                 (with_network notesOnly freshWorld)))
     = githubFirmwares staleSession.
Proof. vm_compute. repeat split. Qed.

(** A proxy that answers 200 with the body [null] ends the chain: the
    loop is left by its [break], the second proxy, which would serve a
    release, is not asked, and the function ends as failed. *)
Lemma fetch_null_body_ends_chain :
  attemptOf nullFromFirstProxy (nth 2 chain "") = Some releaseA
  /\ fetchedUrls (calls (run platform (fetchGithubReleases initialSession)
                           (with_network nullFromFirstProxy freshWorld)))
     = take 2 chain
  /\ outcome (run platform (fetchGithubReleases initialSession)
                (with_network nullFromFirstProxy freshWorld)) = Ok FetchFailed.
Proof. vm_compute. repeat split. Qed.

Lemma onlyLogged_refl s : onlyLogged s s.
Proof. destruct s. reflexivity. Qed.

Lemma onlyLogged_trans s1 s2 s3 : onlyLogged s1 s2 -> onlyLogged s2 s3 -> onlyLogged s1 s3.
Proof. unfold onlyLogged. intros H12 H23. rewrite H23, H12. reflexivity. Qed.

Lemma onlyLogged_addLog s s' line :
  onlyLogged s s' -> onlyLogged s (with_logs (logs s' ++ [line]) s').
Proof. unfold onlyLogged. intros H. rewrite H. reflexivity. Qed.

Create HintDb logged.
#[local] Hint Resolve onlyLogged_refl : logged.
#[local] Hint Extern 1 (onlyLogged _ (with_logs _ _)) => apply onlyLogged_addLog : logged.

(** The direct call on the reference platform: the variable holds the
    body of [attemptOf], or [null]; the URL is fetched once, and the session
    changes by its log only. *)
Lemma fetchDirect_platform (w : World) (s : Session) :
  exists s' cs,
    run platform (fetchDirect s) w
    = (Ok (default JsonNull (attemptOf (network w) apiUrl)), s', w, cs)
    /\ onlyLogged s s' /\ fetchedUrls cs = [apiUrl].
Proof.
  unfold fetchDirect, attemptOf. exec. cbn [platform].
  destruct (fetchReply (network w) apiUrl) as [response|e]; exec.
  - destruct (resp_ok response); exec.
    + cbn [platform]. destruct (jsonReply (network w) (resp_url response)); exec;
        eexists _, _; (split; [reflexivity|]); split; try reflexivity;
        auto 10 with logged.
    + eexists _, _; (split; [reflexivity|]); split; try reflexivity;
        auto 10 with logged.
  - eexists _, _; (split; [reflexivity|]); split; try reflexivity;
      auto 10 with logged.
Qed.

(** The proxies, whatever their list: the first that gives a body ends the
    loop and no later one is called; when none does, the variable is as it
    was. *)
Lemma fetchViaProxies_platform (proxies : list Proxy) (before : Json) (w : World)
  (s : Session) :
  exists found s' cs,
    run platform (fetchViaProxies proxies before s) w = (Ok found, s', w, cs)
    /\ onlyLogged s s'
    /\ match firstBody (network w) (map proxy_url proxies) with
       | Some (i, body) =>
           found = body
           /\ fetchedUrls cs = take (S i) (map proxy_url proxies)
       | None => found = before /\ fetchedUrls cs = map proxy_url proxies
       end.
Proof.
  revert s. induction proxies as [|proxy rest IH]; intros s.
  - exists before, s, []. cbn. auto using onlyLogged_refl.
  - cbn [fetchViaProxies map firstBody]. unfold attemptOf. exec. cbn [platform].
    assert (Hnext : forall s1 cs1,
               onlyLogged s s1 -> fetchedUrls cs1 = [proxy_url proxy] ->
               exists found s' cs,
                 prepend cs1 (run platform (fetchViaProxies rest before s1) w)
                 = (Ok found, s', w, cs)
                 /\ onlyLogged s s'
                 /\ match
                      match firstBody (network w) (map proxy_url rest) with
                      | Some (i, body) => Some (S i, body)
                      | None => None
                      end
                    with
                    | Some (i, body) =>
                        found = body
                        /\ fetchedUrls cs = take (S i) (proxy_url proxy :: map proxy_url rest)
                    | None =>
                        found = before
                        /\ fetchedUrls cs = proxy_url proxy :: map proxy_url rest
                    end).
    { intros s1 cs1 Hs1 Hcs1. destruct (IH s1) as (found & s' & cs & Hrun & Hs' & Hfound).
      exists found, s', (cs1 ++ cs). rewrite Hrun. unfold prepend.
      cbn [outcome session world calls fst snd].
      split; [reflexivity|]. split; [exact (onlyLogged_trans _ _ _ Hs1 Hs')|].
      unfold fetchedUrls in *. rewrite flat_map_app, Hcs1.
      destruct (firstBody (network w) (map proxy_url rest)) as [[i d]|];
        destruct Hfound as [-> ->]; split; reflexivity. }
    destruct (fetchReply (network w) (proxy_url proxy)) as [response|e]; exec.
    + destruct (resp_ok response); exec.
      * cbn [platform]. destruct (jsonReply (network w) (resp_url response)); exec.
        -- eexists _, _, _. split; [reflexivity|]. split; [|split; reflexivity].
           auto 10 with logged.
        -- match goal with
           | |- context [run platform (fetchViaProxies rest before ?s1) w] =>
               destruct (Hnext s1 [Fetch (proxy_url proxy) acceptGithub 10000;
                                   ResponseJson response])
                 as (found & s' & cs & Hrun & Hs' & Hfound);
               [auto 10 with logged | reflexivity |];
               destruct (run platform (fetchViaProxies rest before s1) w)
                 as [[[r2 s2] w2] cs2]
           end.
           unfold prepend in Hrun. cbn [outcome session world calls fst snd app] in Hrun.
           injection Hrun as -> -> -> <-. eexists _, _, _. split; [reflexivity|]. auto.
      * match goal with
        | |- context [run platform (fetchViaProxies rest before ?s1) w] =>
            destruct (Hnext s1 [Fetch (proxy_url proxy) acceptGithub 10000])
              as (found & s' & cs & Hrun & Hs' & Hfound);
            [auto 10 with logged | reflexivity |];
            destruct (run platform (fetchViaProxies rest before s1) w) as [[[r2 s2] w2] cs2]
        end.
        unfold prepend in Hrun. cbn [outcome session world calls fst snd app] in Hrun.
        injection Hrun as -> -> -> <-. eexists _, _, _. split; [reflexivity|]. auto.
    + match goal with
      | |- context [run platform (fetchViaProxies rest before ?s1) w] =>
          destruct (Hnext s1 [Fetch (proxy_url proxy) acceptGithub 10000])
            as (found & s' & cs & Hrun & Hs' & Hfound);
          [auto 10 with logged | reflexivity |];
          destruct (run platform (fetchViaProxies rest before s1) w) as [[[r2 s2] w2] cs2]
      end.
      unfold prepend in Hrun. cbn [outcome session world calls fst snd app] in Hrun.
      injection Hrun as -> -> -> <-. eexists _, _, _. split; [reflexivity|]. auto.
Qed.

(** The URLs of the chain are distinct: a URL fetched once in a prefix of
    the chain is an attempt made once. *)
Lemma chain_distinct : NoDup chain.
Proof. apply (bool_decide_unpack _). vm_compute. exact I. Qed.

(** The end of [fetchGithubReleases], from the test of [releasesData] on:
    every way it can go is followed. *)
Ltac fetch_ending Hs :=
  exec; unfold bind; exec;
  lazymatch goal with
  | |- context [candidates ?body] =>
      destruct (candidates body) as [[|candidate others]|e]
  | _ => idtac
  end;
  cbn [length Nat.eqb]; exec; unfold fetchedUrls in *;
  rewrite ?app_nil_r, ?flat_map_app;
  repeat match goal with
         | H : flat_map _ _ = _ |- _ => rewrite H
         end;
  (split; [reflexivity|]); repeat split; rewrite Hs; reflexivity.

(** The loop over the proxies is run, from a variable that is falsy. *)
Ltac via_proxies w before Hs1 :=
  lazymatch goal with
  | |- context [fetchViaProxies corsProxies before ?s1] =>
      run_part platform (fetchViaProxies corsProxies before s1);
      let Hvia := fresh "Hvia" in
      let Hs2 := fresh "Hlogged" in
      let Hfound := fresh "Hfound" in
      let Hs := fresh "Hframe" in
      let Hcs2 := fresh "Hurls" in
      destruct (fetchViaProxies_platform corsProxies before w s1)
        as (? & ? & ? & Hvia & Hs2 & Hfound);
      match goal with
      | Hrun : run platform (fetchViaProxies corsProxies before s1) w = _ |- _ =>
          rewrite Hvia in Hrun; injection Hrun as <- <- <- <-
      end;
      unfold prepend; exec;
      pose proof (onlyLogged_trans _ _ _ Hs1 Hs2) as Hs; unfold onlyLogged in Hs;
      cbn [logs with_logs with_isFetchingGithub] in Hs;
      destruct (firstBody (network w) (map proxy_url corsProxies)) as [[? later]|];
      destruct Hfound as [-> Hcs2];
      [ destruct (truthy later) eqn:?; cbn [negb]; fetch_ending Hs
      | try match goal with
            | H : truthy _ = false |- _ => rewrite H
            end;
        cbn [truthy negb]; fetch_ending Hs ]
  end.

(** C6, amended. [fetchGithubReleases] makes the direct call, then calls
    the proxies in their order, each at most once.  It stops at the direct
    call when that has a success status and a body that parses to a truthy
    value, and otherwise at the first proxy whose status is a success and
    whose body parses, whatever it parses to.  When the body it stopped at
    is truthy and has candidates (assets named [*.bin]) exactly these are
    published and the dialog opens; when it has none, nothing is published;
    when it is falsy or not shaped as a release, or when no attempt gave a
    body and the whole chain has been tried, the function ends as failed
    and nothing is published. *)
Theorem fetch_first_success (w : World) (s : Session) :
  let o := run platform (fetchGithubReleases s) w in
  match stopOf (network w) with
  | Some (i, body) =>
      fetchedUrls (calls o) = take (S i) chain
      /\ if truthy body
         then match candidates body with
              | Ok [] =>
                  outcome o = Ok FetchEmpty
                  /\ githubFirmwares (session o) = githubFirmwares s
              | Ok firmwares =>
                  outcome o = Ok FetchPublished
                  /\ githubFirmwares (session o) = firmwares
                  /\ showGithubDialog (session o) = true
              | Thrown e =>
                  outcome o = Ok FetchFailed
                  /\ githubFirmwares (session o) = githubFirmwares s
              end
         else outcome o = Ok FetchFailed
              /\ githubFirmwares (session o) = githubFirmwares s
  | None =>
      fetchedUrls (calls o) = chain
      /\ outcome o = Ok FetchFailed
      /\ githubFirmwares (session o) = githubFirmwares s
  end.
Proof.
  intros o. subst o. unfold fetchGithubReleases, chain, stopOf. exec.
  run_part platform (fetchDirect
                       (with_logs (logs s ++ ["Fetching firmwares from GitHub: " +:+
                                              githubRepo +:+ "..."])
                          (with_isFetchingGithub true s))).
  match type of Hrun with
  | run platform (fetchDirect ?s1) w = _ =>
      destruct (fetchDirect_platform w s1) as (s1' & cs1 & Hdirect & Hs1 & Hcs1)
  end.
  rewrite Hdirect in Hrun. injection Hrun as <- <- <- <-. unfold prepend. exec.
  pose proof Hs1 as Hs. unfold onlyLogged in Hs.
  cbn [logs with_logs with_isFetchingGithub] in Hs.
  destruct (attemptOf (network w) apiUrl) as [body|]; cbn [default id].
  - destruct (truthy body) eqn:Htruthy; cbn [negb]; exec.
    + rewrite Htruthy. cbn [negb]. fetch_ending Hs.
    + via_proxies w body Hs1.
  - cbn [truthy negb]. exec. via_proxies w JsonNull Hs1.
Qed.

(** ** A session from end to end *)

(** [app.bin] of 512 bytes is saved and selected, the device answers as an
    ESP32-C6, and the flash at [0x10000] completes with the progress at 100
    and the session released; the cache lists [app.bin] with its size, and
    a new [connectToDevice] binds a device again. *)
Example flash_scenario :
  let saved := run platform (saveFirmwareToDB "app.bin" (file_bytes appBin) initialSession)
                 freshWorld in
  let connected := run platform (connectToDevice (session saved)) (world saved) in
  let flashed := run platform
                   (flashFirmware (with_firmwareFile (Some appBin) (session connected)))
                   (world connected) in
  let listed := run platform (getAllFirmwaresFromDB (session flashed)) (world flashed) in
  let again := run platform (connectToDevice (session flashed)) (world flashed) in
  chipInfo (session connected) = "ESP32-C6"
  /\ outcome flashed = Ok FlashCompleted
  /\ progress (session flashed) = Num 100
  /\ isConnected (session flashed) = false
  /\ outcome listed = Ok [mkFirmwareInfo "app.bin" 512 1700000000000]
  /\ outcome again = Ok ConnectDone
  /\ isConnected (session again) = true.
Proof. vm_compute. repeat split. Qed.

(** * Further properties *)

(** ** The address, as a number *)

Lemma hexValue_digit (c : ascii) :
  isHexDigit c = true -> exists d, hexValue (Ascii.N_of_ascii c) = Some d.
Proof.
  unfold isHexDigit, hexValue. cbv zeta.
  destruct ((48 <=? Ascii.N_of_ascii c) && (Ascii.N_of_ascii c <=? 57))%N; [eauto|].
  destruct ((97 <=? Ascii.N_of_ascii c) && (Ascii.N_of_ascii c <=? 102))%N; [eauto|].
  destruct ((65 <=? Ascii.N_of_ascii c) && (Ascii.N_of_ascii c <=? 70))%N; [eauto|].
  discriminate.
Qed.

Lemma hexPrefix_started (l : list N) (acc : N) : exists n, hexPrefix l (Some acc) = Some n.
Proof.
  revert acc. induction l as [|c rest IH]; intros acc; cbn [hexPrefix]; [eauto|].
  destruct (hexValue c); [apply IH | eauto].
Qed.

Lemma hexValue_bound (c d : N) : hexValue c = Some d -> (d < 16)%N.
Proof.
  unfold hexValue.
  destruct ((48 <=? c) && (c <=? 57))%N eqn:H1;
    [|destruct ((97 <=? c) && (c <=? 102))%N eqn:H2;
      [|destruct ((65 <=? c) && (c <=? 70))%N eqn:H3; [|discriminate]]];
    intros [= <-];
    match goal with
    | H : (_ && _)%bool = true |- _ =>
        apply andb_prop in H as [Hlow Hhigh]; apply N.leb_le in Hlow, Hhigh; lia
    end.
Qed.

(** What has been read of the digits stays below the power of 16 of their
    number. *)
Lemma hexPrefix_bound (l : list N) (acc n : N) :
  hexPrefix l (Some acc) = Some n -> (n < (acc + 1) * 16 ^ N.of_nat (length l))%N.
Proof.
  revert acc. induction l as [|c rest IH]; intros acc; cbn [hexPrefix length].
  - intros [= <-]. cbn. lia.
  - destruct (hexValue c) as [d|] eqn:Hd.
    + intros H. apply IH in H. pose proof (hexValue_bound c d Hd) as Hlt.
      cbn [default id] in H. rewrite Nat2N.inj_succ, N.pow_succ_r'. nia.
    + intros [= <-]. assert (0 < 16 ^ N.of_nat (S (length rest)))%N
        by (apply N.neq_0_lt_0, N.pow_nonzero; discriminate).
      nia.
Qed.

Lemma length_list_ascii_of_string (s : string) :
  length (String.list_ascii_of_string s) = String.length s.
Proof. induction s as [|c rest IH]; cbn; congruence. Qed.

Lemma toBinary64_range (n : N) :
  toBinary64 n = Infinity \/ exists m : N, toBinary64 n = Num (Z.of_N m).
Proof.
  unfold toBinary64. cbv zeta. destruct (N.size n <=? 53)%N; [eauto|].
  match goal with
  | |- context [if ?b then Infinity else _] => destruct b; eauto
  end.
Qed.

(** A number below 2^53 is a binary64 number. *)
Lemma toBinary64_exact (n : N) : (n < 2 ^ 53)%N -> toBinary64 n = Num (Z.of_N n).
Proof.
  intros Hlt. unfold toBinary64. cbv zeta.
  destruct (N.leb_spec (N.size n) 53) as [_|Hsize]; [reflexivity|].
  exfalso. pose proof (N.size_le n) as Hle.
  assert (2 ^ 54 <= 2 ^ N.size n)%N by (apply N.pow_le_mono_r; [discriminate | lia]).
  change (2 ^ 54)%N with (2 * 2 ^ 53)%N in *. rewrite N.succ_double_spec in Hle. lia.
Qed.

(** X1. An address that passes the test
    [/^0x[0-9a-fA-F]+$/] is read by [parseInt(address, 16)] as the binary64
    number nearest to the value of its digits: never [NaN], never negative;
    [Infinity] or a non-negative integer.  With at most 13 digits the
    number is the value itself. *)
Theorem valid_address_parses (address : string) :
  isValidAddr address = true ->
  exists n : N,
    hexPrefix (drop 2 (codes address)) None = Some n
    /\ parseInt16 address = toBinary64 n
    /\ (parseInt16 address = Infinity \/ exists m : N, parseInt16 address = Num (Z.of_N m))
    /\ ((String.length address <= 15)%nat -> parseInt16 address = Num (Z.of_N n)).
Proof.
  destruct address as [|c0 [|c1 [|d rest]]]; try discriminate.
  - cbn. destruct c0 as [[] [] [] [] [] [] [] []]; discriminate.
  - cbn. destruct c0 as [[] [] [] [] [] [] [] []]; try discriminate.
    destruct c1 as [[] [] [] [] [] [] [] []]; discriminate.
  - cbn [isValidAddr].
    destruct c0 as [[] [] [] [] [] [] [] []]; try discriminate.
    destruct c1 as [[] [] [] [] [] [] [] []]; try discriminate.
    intros [Hd _]%andb_prop. destruct (hexValue_digit d Hd) as [v Hv].
    unfold parseInt16, codes. cbn [String.list_ascii_of_string map drop String.length].
    change (Ascii.N_of_ascii "0") with 48%N. change (Ascii.N_of_ascii "x") with 120%N.
    cbn [skipWhiteSpace ws1 ws2 ws3 N.leb N.eqb N.compare Pos.compare Pos.compare_cont Pos.eqb
         andb orb].
    cbn [hexPrefix]. rewrite Hv.
    destruct (hexPrefix_started (map Ascii.N_of_ascii (String.list_ascii_of_string rest))
                (16 * default 0 None + v)%N) as [n Hn].
    rewrite Hn. exists n. split; [reflexivity|].
    assert (Hparse : match toBinary64 n with
                     | Num z => Num z
                     | Infinity => Infinity
                     | other => other
                     end = toBinary64 n) by (destruct (toBinary64 n); reflexivity).
    rewrite Hparse. split; [reflexivity|]. split; [apply toBinary64_range|].
    intros Hshort. apply toBinary64_exact.
    apply hexPrefix_bound in Hn. rewrite length_map in Hn.
    pose proof (hexValue_bound _ _ Hv) as Hv16. cbn [default id] in Hn.
    assert (Hlen : (length (String.list_ascii_of_string rest) <= 12)%nat)
      by (rewrite length_list_ascii_of_string; lia).
    assert (16 ^ N.of_nat (length (String.list_ascii_of_string rest)) <= 16 ^ 12)%N
      by (apply N.pow_le_mono_r; [discriminate | lia]).
    change (2 ^ 53)%N with (2 * (16 * 16 ^ 12))%N. nia.
Qed.

Lemma valid_address_parses_witness :
  isValidAddr "0x10000" = true /\ parseInt16 "0x10000" = Num 65536.
Proof.
  split; [reflexivity|].
  destruct (valid_address_parses "0x10000" eq_refl) as (n & Hn & _ & _ & Hexact).
  rewrite (Hexact ltac:(cbn; lia)). injection Hn as <-. reflexivity.
Defined.

(** Beyond 2^53 the number is rounded, and beyond the largest binary64
    number it is [Infinity]. *)
Example parseInt16_is_binary64 :
  isValidAddr "0x20000000000001" = true
  /\ parseInt16 "0x20000000000001" = Num 9007199254740992
  /\ parseInt16 ("0x" +:+ String.string_of_list_ascii (repeat "F"%char 257)) = Infinity.
Proof. vm_compute. repeat split. Qed.

(** ** The calls of a flash *)

Lemma logged_refs lines s :
  transportRef (logged lines s) = transportRef s
  /\ espLoaderRef (logged lines s) = espLoaderRef s
  /\ serialPortRef (logged lines s) = serialPortRef s
  /\ isConnected (logged lines s) = isConnected s
  /\ chipInfo (logged lines s) = chipInfo s.
Proof.
  revert s. induction lines as [|line rest IH]; intros s; [auto 10|].
  unfold logged in *. cbn [fold_left].
  destruct (IH (with_logs (logs s ++ [line]) s)) as (-> & -> & -> & -> & ->). auto 10.
Qed.

Lemma withinTotal_percentages l :
  withinTotal l = true -> Forall percentage (map (fun p => totalProgress p.1 p.2) l).
Proof.
  induction l as [|[written total] rest IH]; cbn [withinTotal forallb map fst snd]; intros H.
  - constructor.
  - apply andb_prop in H as [Hp Hrest]. apply andb_prop in Hp as [Hpos Hle].
    constructor; [|exact (IH Hrest)].
    destruct total as [|t]; [discriminate|]. apply N.leb_le in Hle.
    rewrite totalProgress_scaled. eexists. split; [reflexivity|].
    pose proof (scaled_bounds written t Hle). lia.
Qed.

Section DeviceCalls.

Context {W : Type} (h : Handler W).

(** X2. A flash that gets past its guards
    first reads the selected file, once.  If the read fails the flash fails
    and nothing is written.  Otherwise [writeFlash] is called right after,
    once, with one file: the bytes read, as a binary string, at the address
    parsed from the trimmed input, with [flashSize] keep, [eraseAll] off,
    [compress] on, mode dio and frequency 40m.  Every later call is part of
    the cleanup: neither a write nor a read of the file. *)
Theorem flash_reads_then_writes_once s w loader file :
  espLoaderRef s = Some loader -> firmwareFile s = Some file ->
  isValidAddr (trim (flashAddress s)) = true ->
  exists cleanup,
    cleanupOnly cleanup
    /\ match (h (FileArrayBuffer file) w).1 with
       | Ok bytes =>
           calls (run h (flashFirmware s) w)
           = FileArrayBuffer file
               :: LoaderWriteFlash loader
                    (writeOptions bytes (parseInt16 (trim (flashAddress s))))
               :: cleanup
       | Thrown e =>
           calls (run h (flashFirmware s) w) = FileArrayBuffer file :: cleanup
           /\ outcome (run h (flashFirmware s) w) = Ok FlashFailed
       end.
Proof.
  intros Hloader Hfile Hvalid.
  destruct (flash_started_calls h s w loader file Hloader Hfile Hvalid) as (cleanup & H1 & _ & H2).
  eauto.
Qed.

(** X3. Every call of [flashFirmware]
    that runs to a terminal outcome with a transport bound calls
    [transport.disconnect()] on it, whether the write succeeded or not. *)
Theorem flash_asks_transport_to_disconnect s w t :
  terminal (outcome (run h (flashFirmware s) w)) ->
  transportRef s = Some t ->
  In (TransportDisconnect t) (calls (run h (flashFirmware s) w)).
Proof.
  intros Hterminal Ht.
  destruct (flash_cases h s w) as [(line & r & Hrun & Hr)|(loader & file & Hloader & Hfile & Hvalid)].
  - rewrite Hrun in Hterminal. destruct Hterminal as [[= ->]|[= ->]], Hr; discriminate.
  - destruct (flash_started_calls h s w loader file Hloader Hfile Hvalid)
      as (cleanup & _ & Hdisc & Hcalls).
    destruct (h (FileArrayBuffer file) w).1; [rewrite Hcalls|destruct Hcalls as [-> _]];
      cbn [In]; auto.
Qed.

(** X4. When in every progress callback the
    total is positive and [written <= total], every value one call of
    [flashFirmware] publishes is an integer from 0 to 100. *)
Theorem flash_progress_in_range s w :
  (forall loader options w1,
      withinTotal (progressCalls (h (LoaderWriteFlash loader options) w1).1.1) = true) ->
  Forall percentage (published s (session (run h (flashFirmware s) w))).
Proof.
  intros Hwithin.
  assert (H0 : percentage (Num 0)) by (eexists; split; [reflexivity | lia]).
  assert (H10 : percentage (Num 10)) by (eexists; split; [reflexivity | lia]).
  assert (H100 : percentage (Num 100)) by (eexists; split; [reflexivity | lia]).
  destruct (flash_cases h s w) as [(line & r & Hrun & Hr)|(loader & file & Hloader & Hfile & Hvalid)].
  - rewrite Hrun. cbn [session fst snd].
    rewrite (published_app s _ []) by (cbn; rewrite app_nil_r; reflexivity).
    constructor.
  - destruct (flash_started h s w loader file Hloader Hfile Hvalid)
      as (_ & _ & [[_ Hhist]|(options & w1 & Hcases)]).
    + rewrite (published_app _ _ _ Hhist). auto.
    + cbv zeta in Hcases. specialize (Hwithin loader options w1).
      apply withinTotal_percentages in Hwithin.
      destruct Hcases as [[_ Hhist]|[_ Hhist]]; rewrite (published_app _ _ _ Hhist);
        repeat (apply Forall_cons; split; [assumption|]);
        rewrite ?Forall_app; auto.
Qed.

(** X5. [flashFirmware] never rejects.  When it ran
    to a terminal outcome [isFlashing] is false again; when a guard turned
    it away nothing changed but the log, and the platform was not called. *)
Theorem flash_always_resolves s w :
  (exists exit, outcome (run h (flashFirmware s) w) = Ok exit)
  /\ (terminal (outcome (run h (flashFirmware s) w)) ->
      isFlashing (session (run h (flashFirmware s) w)) = false)
  /\ (~ terminal (outcome (run h (flashFirmware s) w)) ->
      onlyLogged s (session (run h (flashFirmware s) w))
      /\ calls (run h (flashFirmware s) w) = []).
Proof.
  destruct (flash_cases h s w) as [(line & r & Hrun & Hr)|(loader & file & Hloader & Hfile & Hvalid)].
  - rewrite Hrun. cbn [outcome session calls fst snd]. split; [eauto|]. split.
    + intros [[= ->]|[= ->]]; destruct Hr; discriminate.
    + intros _. split; [|reflexivity]. unfold onlyLogged. reflexivity.
  - pose proof (flash_started_terminal h s w loader file Hloader Hfile Hvalid) as Hterminal.
    destruct (flash_started h s w loader file Hloader Hfile Hvalid) as (_ & Hflashing & _).
    split; [destruct Hterminal; eauto|]. split; [auto|]. intros Hnot. contradiction.
Qed.

(** X6. After a flash that ran to a terminal
    outcome the session holds no loader: a new call of [flashFirmware] is
    turned away as not ready, without a call to the platform, until a
    device is connected again. *)
Theorem flash_again_needs_connect s w w' :
  terminal (outcome (run h (flashFirmware s) w)) ->
  run h (flashFirmware (session (run h (flashFirmware s) w))) w'
  = (Ok FlashNotReady,
     with_logs (logs (session (run h (flashFirmware s) w)) ++ [notReadyLine])
       (session (run h (flashFirmware s) w)),
     w', []).
Proof.
  intros Hterminal. apply flash_not_ready. left.
  destruct (flash_cases h s w) as [(line & r & Hrun & Hr)|(loader & file & Hloader & Hfile & Hvalid)].
  - rewrite Hrun in Hterminal. destruct Hterminal as [[= ->]|[= ->]], Hr; discriminate.
  - apply (flash_started h s w loader file Hloader Hfile Hvalid).
Qed.

(** ** Connecting *)

(** X7. When [connectToDevice] ends as connected,
    the port is the one [requestPort] gave, the transport and the loader are
    built over it (tracing on, 921600 and 115200 baud), the three refs hold
    them, [isConnected] is true and [chipInfo] is the chip name that
    [main] resolved to. *)
Theorem connect_binds_device s w :
  outcome (run h (connectToDevice s) w) = Ok ConnectDone ->
  exists port chip,
    serialPortRef (session (run h (connectToDevice s) w)) = Some port
    /\ transportRef (session (run h (connectToDevice s) w)) = Some (mkTransport port true)
    /\ espLoaderRef (session (run h (connectToDevice s) w))
       = Some (mkESPLoader (mkTransport port true) 921600 115200)
    /\ isConnected (session (run h (connectToDevice s) w)) = true
    /\ chipInfo (session (run h (connectToDevice s) w)) = chip
    /\ exists w1 w2 lines,
         (h SerialRequestPort w1).1 = Ok port
         /\ (h (LoaderMain (mkESPLoader (mkTransport port true) 921600 115200)) w2).1
            = (lines, Ok chip).
Proof.
  unfold connectToDevice. exec. answer h. destruct x; exec; [|discriminate].
  answer h. destruct x as [port|e]; exec; [|discriminate].
  answer h. destruct x as [lines [chip|e]]; exec; unfold bind; rewrite forEach_addLog; exec;
    [|discriminate].
  intros _. exists port, chip.
  assert (Hreplies : exists w1 w2 lines0,
             (h SerialRequestPort w1).1 = Ok port
             /\ (h (LoaderMain (mkESPLoader (mkTransport port true) 921600 115200)) w2).1
                = (lines0, Ok chip)).
  { eexists _, _, _. split; match goal with H : _ = _ |- _ => rewrite H; reflexivity end. }
  match goal with
  | |- context [logged lines ?s1] => destruct (logged_refs lines s1) as (Ht & Hl & Hp & _)
  end.
  answer h. destruct x; exec; [answer h; destruct x; exec|];
    rewrite Ht, Hl, Hp; repeat split; exact Hreplies.
Qed.

(** X8. [connectToDevice] never rejects.
    When it fails (the user grants no port, or the handshake is rejected)
    the three refs are empty and [isConnected] and [chipInfo] are what they
    were; when Web Serial is missing, only the log changes and nothing else
    is asked of the platform. *)
Theorem connect_failure_keeps_state s w :
  (exists exit, outcome (run h (connectToDevice s) w) = Ok exit)
  /\ (outcome (run h (connectToDevice s) w) = Ok ConnectFailed ->
      transportRef (session (run h (connectToDevice s) w)) = None
      /\ espLoaderRef (session (run h (connectToDevice s) w)) = None
      /\ serialPortRef (session (run h (connectToDevice s) w)) = None
      /\ isConnected (session (run h (connectToDevice s) w)) = isConnected s
      /\ chipInfo (session (run h (connectToDevice s) w)) = chipInfo s)
  /\ (outcome (run h (connectToDevice s) w) = Ok ConnectUnsupported ->
      onlyLogged s (session (run h (connectToDevice s) w))
      /\ calls (run h (connectToDevice s) w) = [SerialRequestPortAvailable]).
Proof.
  unfold connectToDevice. exec. answer h. destruct x; exec.
  - answer h. destruct x as [port|e]; exec.
    + answer h. destruct x as [lines [chip|e]]; exec; unfold bind; rewrite forEach_addLog; exec.
      * answer h. destruct x; exec; [answer h; destruct x; exec|];
          (split; [eauto|]); split; discriminate.
      * split; [eauto|]. split; [|discriminate]. intros _.
        match goal with
        | |- context [logged lines ?s1] =>
            destruct (logged_refs lines s1) as (_ & _ & _ & -> & ->)
        end.
        repeat split.
    + split; [eauto|]. split; [|discriminate]. intros _. repeat split.
  - split; [eauto|]. split; [discriminate|]. intros _. split; [|reflexivity].
    unfold onlyLogged. reflexivity.
Qed.

(** X9. The MAC address is not critical: once
    the port is granted and the handshake has succeeded the connection
    stands, whether [readMac] exists, resolves or rejects. *)
Theorem connect_mac_not_critical s w w1 w2 w3 port lines chip :
  h SerialRequestPortAvailable w = (true, w1) ->
  h SerialRequestPort w1 = (Ok port, w2) ->
  h (LoaderMain (mkESPLoader (mkTransport port true) 921600 115200)) w2
  = ((lines, Ok chip), w3) ->
  outcome (run h (connectToDevice s) w) = Ok ConnectDone
  /\ isConnected (session (run h (connectToDevice s) w)) = true
  /\ chipInfo (session (run h (connectToDevice s) w)) = chip.
Proof.
  intros Havailable Hport Hmain. unfold connectToDevice. exec.
  rewrite Havailable. exec. rewrite Hport. exec. rewrite Hmain. exec.
  unfold bind. rewrite forEach_addLog. exec.
  answer h. destruct x; exec; [answer h; destruct x; exec|]; repeat split.
Qed.

(** ** Disconnecting twice *)

(** X10. On a released session, as a
    terminal flash or an earlier [disconnectDevice] leaves it,
    [disconnectDevice] asks nothing of the platform: it adds the
    disconnected line to the log and changes nothing else. *)
Theorem disconnect_released_is_silent s w :
  released s ->
  run h (disconnectDevice s) w
  = (Ok tt, with_logs (logs s ++ ["Disconnected from device"]) s, w, []).
Proof.
  intros (Ht & Hl & Hp & Hc & Hi). unfold disconnectDevice. exec.
  rewrite Ht. exec. rewrite Hp. exec.
  destruct s. cbn in *. subst. reflexivity.
Qed.

End DeviceCalls.

Lemma flash_reads_then_writes_once_witness :
  exists cleanup,
    cleanupOnly cleanup
    /\ calls (run platform (flashFirmware readySession) connectedWorld)
       = FileArrayBuffer appBin
           :: LoaderWriteFlash goodLoader (writeOptions (file_bytes appBin) (Num 65536))
           :: cleanup.
Proof.
  destruct (flash_reads_then_writes_once platform readySession connectedWorld goodLoader appBin)
    as (cleanup & Hclean & Hcalls); [reflexivity | reflexivity | vm_compute; reflexivity |].
  exists cleanup. split; [exact Hclean|]. exact Hcalls.
Defined.

Lemma flash_asks_transport_to_disconnect_witness :
  terminal (outcome (run platform (flashFirmware readySession)
                       (with_device timeoutDevice connectedWorld)))
  /\ transportRef readySession = Some goodTransport
  /\ In (TransportDisconnect goodTransport)
       (calls (run platform (flashFirmware readySession)
                 (with_device timeoutDevice connectedWorld))).
Proof.
  split; [right; vm_compute; reflexivity|]. split; [reflexivity|].
  apply (flash_asks_transport_to_disconnect platform readySession
           (with_device timeoutDevice connectedWorld) goodTransport);
    [right; vm_compute; reflexivity | reflexivity].
Defined.

Lemma flash_progress_in_range_witness :
  Forall percentage
    (published readySession
       (session (run (deviceHandler goodDevice) (flashFirmware readySession) connectedWorld))).
Proof.
  apply (flash_progress_in_range (deviceHandler goodDevice) readySession connectedWorld).
  intros loader options w1. reflexivity.
Defined.

Lemma flash_again_needs_connect_witness :
  outcome (run platform
             (flashFirmware (session (run platform (flashFirmware readySession) connectedWorld)))
             connectedWorld)
  = Ok FlashNotReady.
Proof.
  rewrite (flash_again_needs_connect platform readySession connectedWorld connectedWorld);
    [reflexivity | left; vm_compute; reflexivity].
Defined.

Lemma connect_binds_device_witness :
  exists port chip,
    serialPortRef (session (run platform (connectToDevice initialSession) freshWorld))
    = Some port
    /\ espLoaderRef (session (run platform (connectToDevice initialSession) freshWorld))
       = Some (mkESPLoader (mkTransport port true) 921600 115200)
    /\ chipInfo (session (run platform (connectToDevice initialSession) freshWorld)) = chip.
Proof.
  destruct (connect_binds_device platform initialSession freshWorld)
    as (port & chip & Hport & _ & Hloader & _ & Hchip & _); [vm_compute; reflexivity|].
  exists port, chip. auto.
Defined.

Lemma connect_mac_not_critical_witness :
  readMacReply macLessDevice = Thrown (JsError "Unsupported command")
  /\ outcome (run platform (connectToDevice initialSession) (with_device macLessDevice freshWorld))
     = Ok ConnectDone.
Proof.
  split; [reflexivity|].
  apply (connect_mac_not_critical platform initialSession (with_device macLessDevice freshWorld)
           (with_device macLessDevice freshWorld) (with_device macLessDevice freshWorld)
           (with_portOpened true (with_device macLessDevice freshWorld)) 1%N [] "ESP32-C6");
    reflexivity.
Defined.

Lemma disconnect_released_is_silent_witness :
  released initialSession
  /\ calls (run platform (disconnectDevice initialSession) freshWorld) = [].
Proof.
  assert (Hreleased : released initialSession) by (repeat split).
  split; [exact Hreleased|].
  rewrite (disconnect_released_is_silent platform initialSession freshWorld Hreleased).
  reflexivity.
Defined.

(** ** The cache as a map *)

Lemma storeHolds_inv w records :
  storeHolds w records ->
  faults w = []
  /\ exists d, databases w !! DB_NAME = Some d /\ db_version d = DB_VERSION
               /\ db_stores d !! STORE_NAME = Some records.
Proof.
  unfold storeHolds, versionOf, storeOf. intros (Hsound & Hversion & Hstore).
  split; [exact Hsound|].
  destruct (databases w !! DB_NAME) as [d|]; [|discriminate]. eauto.
Qed.

Lemma storeHolds_intro w records d :
  faults w = [] -> databases w !! DB_NAME = Some d -> db_version d = DB_VERSION ->
  db_stores d !! STORE_NAME = Some records -> storeHolds w records.
Proof.
  intros Hsound Hdb Hversion Hstore. unfold storeHolds, versionOf, storeOf.
  rewrite Hdb. auto.
Qed.

(** What a healthy store is made of is named, and the two tests of
    [openDB] on the version are settled. *)
Ltac healthy H :=
  let Hsound := fresh "Hsound" in
  let d := fresh "d" in
  let Hdb := fresh "Hdb" in
  let Hversion := fresh "Hversion" in
  let Hstore := fresh "Hstore" in
  let Hold := fresh "Hold" in
  let Hnow := fresh "Hnow" in
  apply storeHolds_inv in H;
  destruct H as (Hsound & d & Hdb & Hversion & Hstore);
  unfold DB_VERSION in *;
  assert (Hold : (db_version d <? 2)%N = false) by (rewrite Hversion; reflexivity);
  assert (Hnow : (db_version d =? 2)%N = true) by (rewrite Hversion; reflexivity).

(** Writing back what was read leaves the medium as it is. *)
Lemma store_untouched (w : World) d records :
  databases w !! DB_NAME = Some d -> db_stores d !! STORE_NAME = Some records ->
  with_databases
    (<[DB_NAME := mkDatabase (db_version d) (<[STORE_NAME := records]> (db_stores d))]>
       (databases w)) w = w.
Proof.
  intros Hdb Hstore. rewrite (insert_id (db_stores d)) by exact Hstore.
  destruct d as [version stores]. cbn [db_version db_stores].
  rewrite insert_id by exact Hdb. destruct w. reflexivity.
Qed.

Lemma saveFirmwareToDB_healthy (w : World) (s : Session) name data records :
  storeHolds w records ->
  outcome (run platform (saveFirmwareToDB name data s) w) = Ok tt
  /\ storeHolds (world (run platform (saveFirmwareToDB name data s) w))
       (<[name := mkFirmwareRecord name data (clock w) (length data)]> records).
Proof.
  intros H. healthy H. unfold saveFirmwareToDB, openDB, putFirmware. unfold DB_VERSION.
  medium Hsound. split; [reflexivity|].
  eapply storeHolds_intro; execp; [exact Hsound | apply lookup_insert_eq | exact Hversion |].
  execp. apply lookup_insert_eq.
Qed.

Lemma deleteFirmwareFromDB_healthy (w : World) (s : Session) name records :
  storeHolds w records ->
  outcome (run platform (deleteFirmwareFromDB name s) w) = Ok tt
  /\ storeHolds (world (run platform (deleteFirmwareFromDB name s) w)) (delete name records).
Proof.
  intros H. healthy H. unfold deleteFirmwareFromDB, openDB. unfold DB_VERSION.
  medium Hsound. split; [reflexivity|].
  eapply storeHolds_intro; execp; [exact Hsound | apply lookup_insert_eq | exact Hversion |].
  execp. apply lookup_insert_eq.
Qed.

Lemma getFirmwareFromDB_healthy (w : World) (s : Session) name records :
  storeHolds w records ->
  run platform (getFirmwareFromDB name s) w
  = (Ok (fw_data <$> records !! name), s, w,
     [IdbOpen DB_NAME DB_VERSION; IdbGet DB_NAME STORE_NAME name]).
Proof.
  intros H. healthy H. unfold getFirmwareFromDB, openDB. unfold DB_VERSION.
  medium Hsound. rewrite (store_untouched w d records Hdb Hstore).
  destruct (records !! name); reflexivity.
Qed.

(** Putting the records in the order of their keys loses none and adds
    none. *)
Lemma insertByKey_Permutation entry sorted : insertByKey entry sorted ≡ₚ entry :: sorted.
Proof.
  induction sorted as [|first rest IH]; cbn [insertByKey]; [reflexivity|].
  destruct (keyLe entry.1 first.1); [reflexivity|].
  rewrite IH. apply Permutation_swap.
Qed.

Lemma inKeyOrder_Permutation records : inKeyOrder records ≡ₚ (map_to_list records).*2.
Proof.
  unfold inKeyOrder. apply fmap_Permutation.
  induction (map_to_list records) as [|entry rest IH]; cbn [foldr]; [reflexivity|].
  rewrite insertByKey_Permutation, IH. reflexivity.
Qed.

Lemma getAllFirmwaresFromDB_healthy (w : World) (s : Session) records :
  storeHolds w records ->
  run platform (getAllFirmwaresFromDB s) w
  = (Ok (map infoOf (inKeyOrder records)), s, w,
     [IdbOpen DB_NAME DB_VERSION; IdbGetAll DB_NAME STORE_NAME]).
Proof.
  intros H. healthy H. unfold getAllFirmwaresFromDB, openDB. unfold DB_VERSION.
  medium Hsound. rewrite (store_untouched w d records Hdb Hstore). reflexivity.
Qed.

Lemma loadLocalFirmwares_healthy (w : World) (s : Session) records :
  storeHolds w records ->
  run platform (loadLocalFirmwares s) w
  = (Ok tt, with_localFirmwares (map infoOf (inKeyOrder records)) s, w,
     [IdbOpen DB_NAME DB_VERSION; IdbGetAll DB_NAME STORE_NAME]).
Proof.
  intros H. unfold loadLocalFirmwares.
  run_known (getAllFirmwaresFromDB s) (getAllFirmwaresFromDB_healthy w s records H).
  exec. rewrite app_nil_r. reflexivity.
Qed.

Lemma listing_names records :
  keyedByName records ->
  map info_name (map infoOf (map_to_list records).*2) = (map_to_list records).*1.
Proof.
  intros Hkeyed.
  assert (Hall : forall key record,
             In (key, record) (map_to_list records) -> fw_name record = key).
  { intros key record Hin. apply (Hkeyed key record).
    apply elem_of_map_to_list, list_elem_of_In. exact Hin. }
  induction (map_to_list records) as [|[key record] rest IH]; [reflexivity|].
  cbn. f_equal.
  - apply Hall. left. reflexivity.
  - apply IH. intros k r Hin. apply Hall. right. exact Hin.
Qed.

Lemma deleteFirmwareFromStorage_healthy (w : World) (s : Session) name records :
  storeHolds w records ->
  outcome (run platform (deleteFirmwareFromStorage name s) w) = Ok DeleteDone
  /\ storeHolds (world (run platform (deleteFirmwareFromStorage name s) w))
       (delete name records)
  /\ localFirmwares (session (run platform (deleteFirmwareFromStorage name s) w))
     = map infoOf (inKeyOrder (delete name records)).
Proof.
  intros H. destruct (deleteFirmwareFromDB_healthy w s name records H) as [Hok Hafter].
  unfold deleteFirmwareFromStorage. exec.
  run_part platform (deleteFirmwareFromDB name s).
  pose proof (deleteFirmwareFromDB_session platform name s w) as Hs. rewrite Hrun in Hs.
  cbn [outcome session world fst snd] in Hs, Hok, Hafter.
  subst. unfold prepend. exec.
  run_known (loadLocalFirmwares s) (loadLocalFirmwares_healthy w0 s _ Hafter). exec.
  destruct (firmwareFile s) as [file|]; exec;
    [destruct (String.eqb (file_name file) name); exec|].
  all: split; [reflexivity|split; [assumption|reflexivity]].
Qed.

(** Opening a database that is absent or of a version before 2 ends with
    an empty store. *)
Lemma openDB_upgrade (w : World) (s : Session) :
  faults w = [] -> (versionOf w DB_NAME <? DB_VERSION)%N = true ->
  outcome (run platform (openDB s) w) = Ok DB_NAME
  /\ storeHolds (world (run platform (openDB s) w)) ∅.
Proof.
  intros Hsound Hold. unfold versionOf, DB_VERSION in Hold. unfold openDB, DB_VERSION.
  destruct (databases w !! DB_NAME) as [d|] eqn:Hdb;
    cbn [fmap option_fmap option_map default id] in Hold.
  - destruct (db_stores d !! STORE_NAME) as [records|] eqn:Hstore; medium Hsound.
    all: split; [reflexivity|].
    all: eapply storeHolds_intro; execp; [exact Hsound | apply lookup_insert_eq | reflexivity |].
    all: execp; apply lookup_insert_eq.
  - medium Hsound. split; [reflexivity|].
    eapply storeHolds_intro; execp; [exact Hsound | apply lookup_insert_eq | reflexivity |].
    execp. apply lookup_insert_eq.
Qed.

Lemma resetDatabase_sound (w : World) (s : Session) :
  faults w = [] ->
  run platform (resetDatabase s) w
  = (Ok tt, s, with_databases (delete DB_NAME (databases w)) w, [IdbDeleteDatabase DB_NAME]).
Proof.
  intros Hsound. unfold resetDatabase. exec. cbn [platform].
  rewrite nextFault_sound by exact Hsound. reflexivity.
Qed.

Lemma loadLocalFirmwares_upgrade (w : World) (s : Session) :
  faults w = [] -> (versionOf w DB_NAME <? DB_VERSION)%N = true ->
  outcome (run platform (loadLocalFirmwares s) w) = Ok tt
  /\ session (run platform (loadLocalFirmwares s) w) = with_localFirmwares [] s
  /\ storeHolds (world (run platform (loadLocalFirmwares s) w)) ∅.
Proof.
  intros Hsound Hold. destruct (openDB_upgrade w s Hsound Hold) as [Hok Hempty].
  pose proof (openDB_session platform s w) as Hs.
  unfold loadLocalFirmwares, getAllFirmwaresFromDB.
  run_part platform (openDB s). cbn [outcome session world fst snd] in Hok, Hempty, Hs.
  subst. unfold prepend. exec.
  pose proof Hempty as Hkeep. healthy Hempty. medium Hsound0.
  rewrite (store_untouched w0 d ∅ Hdb Hstore). unfold inKeyOrder. rewrite map_to_list_empty.
  split; [reflexivity|]. split; [reflexivity|]. exact Hkeep.
Qed.

Lemma storeHolds_cachedWorld : storeHolds cachedWorld cachedRecords.
Proof. repeat split; vm_compute; reflexivity. Qed.

Lemma keyedByName_cachedRecords : keyedByName cachedRecords.
Proof. apply map_Forall_singleton. reflexivity. Qed.

(** X11. On a sound medium whose database is
    of the current version, [saveFirmwareToDB name data] resolves, and
    afterwards [getFirmwareFromDB] gives [data] for [name], replacing what
    was stored under that name, and for every other name what it gave
    before: a save touches one entry only. *)
Theorem save_keeps_other_entries (w : World) (s s' : Session) name data records other :
  storeHolds w records ->
  outcome (run platform (saveFirmwareToDB name data s) w) = Ok tt
  /\ outcome (run platform (getFirmwareFromDB other s')
                (world (run platform (saveFirmwareToDB name data s) w)))
     = Ok (if String.eqb other name then Some data else fw_data <$> records !! other).
Proof.
  intros H. destruct (saveFirmwareToDB_healthy w s name data records H) as [Hok Hafter].
  split; [exact Hok|].
  rewrite (getFirmwareFromDB_healthy _ s' other _ Hafter). cbn [outcome fst].
  destruct (String.eqb_spec other name) as [->|Hne].
  - rewrite lookup_insert_eq. reflexivity.
  - rewrite lookup_insert_ne by congruence. reflexivity.
Qed.

Lemma save_keeps_other_entries_witness :
  storeHolds cachedWorld cachedRecords
  /\ outcome (run platform (getFirmwareFromDB "app.bin" initialSession)
                (world (run platform (saveFirmwareToDB "boot.bin" [Byte.x02] initialSession)
                          cachedWorld)))
     = Ok (Some (file_bytes appBin)).
Proof.
  split; [exact storeHolds_cachedWorld|].
  apply (save_keeps_other_entries cachedWorld initialSession initialSession "boot.bin"
           [Byte.x02] cachedRecords "app.bin").
  exact storeHolds_cachedWorld.
Defined.

(** X12. On a sound medium whose database is
    of the current version, [deleteFirmwareFromDB name] resolves, also when
    nothing is stored under [name], and afterwards [getFirmwareFromDB] gives
    [null] for [name] and for every other name what it gave before. *)
Theorem delete_keeps_other_entries (w : World) (s s' : Session) name records other :
  storeHolds w records ->
  outcome (run platform (deleteFirmwareFromDB name s) w) = Ok tt
  /\ outcome (run platform (getFirmwareFromDB other s')
                (world (run platform (deleteFirmwareFromDB name s) w)))
     = Ok (if String.eqb other name then None else fw_data <$> records !! other).
Proof.
  intros H. destruct (deleteFirmwareFromDB_healthy w s name records H) as [Hok Hafter].
  split; [exact Hok|].
  rewrite (getFirmwareFromDB_healthy _ s' other _ Hafter). cbn [outcome fst].
  destruct (String.eqb_spec other name) as [->|Hne].
  - rewrite lookup_delete_eq. reflexivity.
  - rewrite lookup_delete_ne by congruence. reflexivity.
Qed.

Lemma delete_keeps_other_entries_witness :
  storeHolds cachedWorld cachedRecords
  /\ cachedRecords !! "missing.bin" = None
  /\ outcome (run platform (deleteFirmwareFromDB "missing.bin" initialSession) cachedWorld)
     = Ok tt
  /\ outcome (run platform (getFirmwareFromDB "app.bin" initialSession)
                (world (run platform (deleteFirmwareFromDB "missing.bin" initialSession)
                          cachedWorld)))
     = Ok (Some (file_bytes appBin)).
Proof.
  split; [exact storeHolds_cachedWorld|]. split; [reflexivity|].
  apply (delete_keeps_other_entries cachedWorld initialSession initialSession "missing.bin"
           cachedRecords "app.bin").
  exact storeHolds_cachedWorld.
Defined.

(** X13. On a sound medium whose database is of
    the current version, with every record stored under its own name,
    [loadLocalFirmwares] reads without changing the medium and publishes
    one entry per record, with the record's name, size and timestamp, in
    some order: the names listed are the names stored, each once. *)
Theorem listing_shows_the_store (w : World) (s : Session) records :
  storeHolds w records -> keyedByName records ->
  let o := run platform (loadLocalFirmwares s) w in
  outcome o = Ok tt
  /\ world o = w
  /\ calls o = [IdbOpen DB_NAME DB_VERSION; IdbGetAll DB_NAME STORE_NAME]
  /\ session o = with_localFirmwares (localFirmwares (session o)) s
  /\ localFirmwares (session o) ≡ₚ map infoOf (map_to_list records).*2
  /\ NoDup (map info_name (localFirmwares (session o)))
  /\ forall name, In name (map info_name (localFirmwares (session o)))
                  <-> is_Some (records !! name).
Proof.
  intros H Hkeyed o. subst o. rewrite (loadLocalFirmwares_healthy w s records H).
  cbn [outcome session world calls fst snd localFirmwares with_localFirmwares].
  do 4 (split; [reflexivity|]).
  assert (Hlisted : map infoOf (inKeyOrder records) ≡ₚ map infoOf (map_to_list records).*2)
    by (apply fmap_Permutation, inKeyOrder_Permutation).
  split; [exact Hlisted|].
  assert (Hnames : map info_name (map infoOf (inKeyOrder records)) ≡ₚ (map_to_list records).*1).
  { rewrite <- (listing_names records Hkeyed). apply fmap_Permutation. exact Hlisted. }
  split.
  - rewrite Hnames. apply NoDup_fst_map_to_list.
  - intros name. rewrite <- list_elem_of_In, Hnames, list_elem_of_fmap. split.
    + intros ([key record] & -> & Hin%elem_of_map_to_list). eauto.
    + intros [record Hrecord]. exists (name, record). split; [reflexivity|].
      apply elem_of_map_to_list. exact Hrecord.
Qed.

Lemma listing_shows_the_store_witness :
  storeHolds cachedWorld cachedRecords /\ keyedByName cachedRecords
  /\ localFirmwares (session (run platform (loadLocalFirmwares initialSession) cachedWorld))
     ≡ₚ map infoOf (map_to_list cachedRecords).*2.
Proof.
  split; [exact storeHolds_cachedWorld|]. split; [exact keyedByName_cachedRecords|].
  destruct (listing_shows_the_store cachedWorld initialSession cachedRecords
              storeHolds_cachedWorld keyedByName_cachedRecords) as (_ & _ & _ & _ & Hlisted & _).
  exact Hlisted.
Defined.

(** X14. On such a medium
    [deleteFirmwareFromStorage name] ends as done and the list it
    publishes holds exactly the entries of the records stored before under
    another name: no entry bears [name] any more. *)
Theorem delete_refreshes_listing (w : World) (s : Session) name records :
  storeHolds w records -> keyedByName records ->
  outcome (run platform (deleteFirmwareFromStorage name s) w) = Ok DeleteDone
  /\ (forall info,
        In info (localFirmwares (session (run platform (deleteFirmwareFromStorage name s) w)))
        <-> exists record, records !! info_name info = Some record
                           /\ info = infoOf record /\ info_name info <> name).
Proof.
  intros H Hkeyed.
  destruct (deleteFirmwareFromStorage_healthy w s name records H) as (Hok & _ & ->).
  split; [exact Hok|]. intros info.
  rewrite <- list_elem_of_In, inKeyOrder_Permutation, list_elem_of_fmap. split.
  - intros (record & -> & ([key r] & Hr & Hin%elem_of_map_to_list)%list_elem_of_fmap).
    cbn in Hr. subst r. apply lookup_delete_Some in Hin as [Hne Hin].
    pose proof (Hkeyed key record Hin) as Hname. cbn [infoOf info_name]. rewrite Hname. eauto.
  - intros (record & Hrecord & -> & Hne). exists record. split; [reflexivity|].
    apply list_elem_of_fmap. exists (info_name (infoOf record), record). split; [reflexivity|].
    apply elem_of_map_to_list, lookup_delete_Some. auto.
Qed.

Lemma delete_refreshes_listing_witness :
  storeHolds cachedWorld cachedRecords /\ keyedByName cachedRecords
  /\ outcome (run platform (deleteFirmwareFromStorage "app.bin" readySession) cachedWorld)
     = Ok DeleteDone.
Proof.
  split; [exact storeHolds_cachedWorld|]. split; [exact keyedByName_cachedRecords|].
  apply (delete_refreshes_listing cachedWorld readySession "app.bin" cachedRecords
           storeHolds_cachedWorld keyedByName_cachedRecords).
Defined.

(** X15. On a sound medium, opening a
    database that does not exist yet or is of a version before 2 succeeds
    and leaves an empty store: whatever an earlier version of the page
    stored is gone, no name is cached and the listing is empty. *)
Theorem open_upgrade_discards_old_store (w : World) (s s' : Session) name :
  faults w = [] -> (versionOf w DB_NAME <? DB_VERSION)%N = true ->
  outcome (run platform (openDB s) w) = Ok DB_NAME
  /\ outcome (run platform (getFirmwareFromDB name s') (world (run platform (openDB s) w)))
     = Ok None
  /\ outcome (run platform (getAllFirmwaresFromDB s') (world (run platform (openDB s) w)))
     = Ok [].
Proof.
  intros Hsound Hold. destruct (openDB_upgrade w s Hsound Hold) as [Hok Hempty].
  split; [exact Hok|].
  rewrite (getFirmwareFromDB_healthy _ s' name _ Hempty).
  rewrite (getAllFirmwaresFromDB_healthy _ s' _ Hempty).
  unfold inKeyOrder. rewrite lookup_empty, map_to_list_empty. split; reflexivity.
Qed.

Lemma open_upgrade_discards_old_store_witness :
  is_Some (storeOf legacyWorld DB_NAME STORE_NAME ≫= lookup "old.bin")
  /\ outcome (run platform (getFirmwareFromDB "old.bin" initialSession)
                (world (run platform (openDB initialSession) legacyWorld))) = Ok None.
Proof.
  split; [eexists; vm_compute; reflexivity|].
  apply (open_upgrade_discards_old_store legacyWorld initialSession initialSession "old.bin");
    reflexivity.
Defined.

(** ** Actions on the storage, on any platform *)

Section StorageActions.

Context {W : Type} (h : Handler W).

Lemma getFirmwareFromDB_session name s w :
  session (run h (getFirmwareFromDB name s) w) = s.
Proof.
  unfold getFirmwareFromDB.
  run_part h (openDB s). pose proof (openDB_session h s w) as Hs. rewrite Hrun in Hs.
  cbn [session fst snd] in Hs. subst. unfold prepend. destruct r; explore h; reflexivity.
Qed.

(** How [loadFirmwareFromStorage] ends follows what [getFirmwareFromDB]
    gave. *)
Lemma loadFirmwareFromStorage_run name s w :
  let s1 := with_logs (logs s ++ ["Loading " +:+ name +:+ " from storage..."]) s in
  let o := run h (getFirmwareFromDB name s1) w in
  run h (loadFirmwareFromStorage name s) w
  = match outcome o with
    | Ok (Some bytes) =>
        (Ok LoadDone,
         with_logs (logs s1 ++ ["✓ Loaded " +:+ name +:+ " (" +:+ kilobytes (length bytes)
                                 +:+ " KB)"])
           (with_firmwareFile (Some (mkFile name bytes)) s1),
         world o, calls o)
    | Ok None =>
        (Ok LoadMissing,
         with_logs (logs s1 ++ ["❌ Firmware " +:+ name +:+ " not found in storage"]) s1,
         world o, calls o)
    | Thrown e =>
        (Ok LoadFailed,
         with_logs (logs s1 ++ ["Error loading firmware: " +:+ errorMessage e]) s1,
         world o, calls o)
    end.
Proof.
  intros s1 o. subst o. unfold loadFirmwareFromStorage. exec. fold s1.
  run_part h (getFirmwareFromDB name s1).
  pose proof (getFirmwareFromDB_session name s1 w) as Hs. rewrite Hrun in Hs.
  cbn [session fst snd] in Hs. subst s0. unfold prepend.
  destruct r as [[bytes|]|e]; exec; rewrite app_nil_r; reflexivity.
Qed.

(** X19. [loadFirmwareFromStorage] never
    rejects.  It changes the selection only when it ends as done, and then
    the file selected bears the name asked for; when the record is missing
    or the database fails, nothing changes but the log. *)
Theorem load_from_storage_settles name s w :
  (exists exit, outcome (run h (loadFirmwareFromStorage name s) w) = Ok exit)
  /\ (outcome (run h (loadFirmwareFromStorage name s) w) <> Ok LoadDone ->
      onlyLogged s (session (run h (loadFirmwareFromStorage name s) w)))
  /\ (outcome (run h (loadFirmwareFromStorage name s) w) = Ok LoadDone ->
      exists bytes,
        firmwareFile (session (run h (loadFirmwareFromStorage name s) w))
        = Some (mkFile name bytes)).
Proof.
  rewrite loadFirmwareFromStorage_run. cbv zeta.
  destruct (outcome (run h (getFirmwareFromDB name _) w)) as [[bytes|]|e];
    cbn [outcome session fst snd].
  - split; [eauto|]. split; [congruence|]. intros _. exists bytes. reflexivity.
  - split; [eauto|]. split; [|discriminate]. intros _. unfold onlyLogged. reflexivity.
  - split; [eauto|]. split; [|discriminate]. intros _. unfold onlyLogged. reflexivity.
Qed.

(** X18. [deleteFirmwareFromStorage] never
    rejects.  It ends as failed exactly by a rejection of
    [deleteFirmwareFromDB], and then nothing changes but the log, which
    gains the error's message: the selection and the list stay. *)
Theorem delete_from_storage_settles s w name :
  (exists exit, outcome (run h (deleteFirmwareFromStorage name s) w) = Ok exit)
  /\ (outcome (run h (deleteFirmwareFromStorage name s) w) = Ok DeleteFailed ->
      exists e,
        outcome (run h (deleteFirmwareFromDB name s) w) = Thrown e
        /\ session (run h (deleteFirmwareFromStorage name s) w)
           = with_logs (logs s ++ ["Error deleting firmware: " +:+ errorMessage e]) s).
Proof.
  unfold deleteFirmwareFromStorage. exec.
  run_part h (deleteFirmwareFromDB name s).
  pose proof (deleteFirmwareFromDB_session h name s w) as Hs. rewrite Hrun in Hs.
  cbn [session fst snd] in Hs. subst. unfold prepend. destruct r as [[]|e]; exec.
  - run_part h (loadLocalFirmwares s).
    destruct (loadLocalFirmwares_frame h s w0) as [Hok Hfile]. rewrite Hrun0 in Hok, Hfile.
    cbn [outcome session fst snd] in Hok, Hfile. subst. unfold prepend. exec.
    destruct (firmwareFile s) as [file|]; exec;
      [destruct (String.eqb (file_name file) name); exec|];
      (split; [eauto | discriminate]).
  - split; [eauto|]. intros _. eauto.
Qed.

(** X17. [clearAllFirmwares] never rejects.  When the
    user declines, nothing happens: the session is untouched and the
    question is the only call.  When it fails, the deletion of the database
    was the only request made to IndexedDB and nothing changed but the
    log. *)
Theorem clear_all_settles s w :
  (exists exit, outcome (run h (clearAllFirmwares s) w) = Ok exit)
  /\ ((h (Confirm confirmClear) w).1 = false ->
      run h (clearAllFirmwares s) w
      = (Ok ClearDeclined, s, (h (Confirm confirmClear) w).2, [Confirm confirmClear]))
  /\ (outcome (run h (clearAllFirmwares s) w) = Ok ClearFailed ->
      onlyLogged s (session (run h (clearAllFirmwares s) w))
      /\ calls (run h (clearAllFirmwares s) w)
         = [Confirm confirmClear; IdbDeleteDatabase DB_NAME]).
Proof.
  unfold clearAllFirmwares, confirmClear. exec. answer h. destruct x; exec.
  - unfold bind. exec.
    run_part h (resetDatabase (with_logs (logs s ++ ["Clearing all stored firmwares..."]) s)).
    pose proof (resetDatabase_session h
                  (with_logs (logs s ++ ["Clearing all stored firmwares..."]) s) w0) as Hs.
    rewrite Hrun in Hs. cbn [session fst snd] in Hs. subst. unfold prepend.
    destruct r as [[]|e]; exec.
    + run_part h (loadLocalFirmwares
                    (with_logs (logs s ++ ["Clearing all stored firmwares..."]) s)).
      destruct (loadLocalFirmwares_frame h
                  (with_logs (logs s ++ ["Clearing all stored firmwares..."]) s) w1)
        as [Hok _].
      rewrite Hrun0 in Hok. cbn [outcome fst snd] in Hok. subst. unfold prepend. exec.
      split; [eauto|]. split; discriminate.
    + split; [eauto|]. split; [discriminate|]. intros _. split.
      * unfold onlyLogged. reflexivity.
      * revert Hrun. unfold resetDatabase. exec. answer h. destruct x; exec;
          intros [= <- <- <-]; reflexivity.
  - split; [eauto|]. split; [reflexivity | discriminate].
Qed.

End StorageActions.

(** ** From the cache to the selection and to the device *)

(** X20. On a sound medium whose database is
    of the current version, [loadFirmwareFromStorage name] leaves the medium
    as it is; when a record is stored under [name] it ends as done and
    selects a file of that name with the record's bytes, and when none is
    it ends as missing and the selection stays. *)
Theorem load_selects_what_is_stored (w : World) (s : Session) name records :
  storeHolds w records ->
  world (run platform (loadFirmwareFromStorage name s) w) = w
  /\ match records !! name with
     | Some record =>
         outcome (run platform (loadFirmwareFromStorage name s) w) = Ok LoadDone
         /\ firmwareFile (session (run platform (loadFirmwareFromStorage name s) w))
            = Some (mkFile name (fw_data record))
     | None =>
         outcome (run platform (loadFirmwareFromStorage name s) w) = Ok LoadMissing
         /\ firmwareFile (session (run platform (loadFirmwareFromStorage name s) w))
            = firmwareFile s
     end.
Proof.
  intros H. rewrite loadFirmwareFromStorage_run. cbv zeta.
  rewrite (getFirmwareFromDB_healthy w _ name records H). cbn [outcome world fst snd].
  destruct (records !! name) as [record|]; cbn [fmap option_fmap option_map];
    repeat split.
Qed.

Lemma load_selects_what_is_stored_witness :
  storeHolds cachedWorld cachedRecords
  /\ firmwareFile (session (run platform (loadFirmwareFromStorage "app.bin" initialSession)
                              cachedWorld)) = Some appBin
  /\ outcome (run platform (loadFirmwareFromStorage "boot.bin" readySession) cachedWorld)
     = Ok LoadMissing
  /\ firmwareFile (session (run platform (loadFirmwareFromStorage "boot.bin" readySession)
                              cachedWorld)) = Some appBin.
Proof.
  split; [exact storeHolds_cachedWorld|].
  pose proof (load_selects_what_is_stored cachedWorld initialSession "app.bin" cachedRecords
                storeHolds_cachedWorld) as [_ [_ Hfound]].
  pose proof (load_selects_what_is_stored cachedWorld readySession "boot.bin" cachedRecords
                storeHolds_cachedWorld) as [_ [Hmissing Hkept]].
  split; [exact Hfound|]. split; [exact Hmissing | exact Hkept].
Defined.

(** X21. On a sound medium, whatever the
    databases it starts with: once [saveFirmwareToDB name data] has
    resolved, [loadFirmwareFromStorage name] ends as done and the file it
    selects has that name and the very bytes [data]. *)
Theorem saved_firmware_loads_back (w : World) (s s' : Session) name data :
  faults w = [] ->
  outcome (run platform (saveFirmwareToDB name data s) w) = Ok tt ->
  outcome (run platform (loadFirmwareFromStorage name s')
             (world (run platform (saveFirmwareToDB name data s) w))) = Ok LoadDone
  /\ firmwareFile (session (run platform (loadFirmwareFromStorage name s')
                              (world (run platform (saveFirmwareToDB name data s) w))))
     = Some (mkFile name data).
Proof.
  intros Hsound Hsaved.
  destruct (saveFirmwareToDB_platform w s name data Hsound Hsaved) as [timestamp Hcached].
  rewrite loadFirmwareFromStorage_run. cbv zeta.
  rewrite (getFirmwareFromDB_cached _ _ name _ Hcached). cbn [fmap option_fmap option_map fw_data].
  split; reflexivity.
Qed.

Lemma saved_firmware_loads_back_witness :
  firmwareFile
    (session (run platform (loadFirmwareFromStorage "app.bin" initialSession)
                (world (run platform (saveFirmwareToDB "app.bin" (file_bytes appBin)
                                        initialSession) legacyWorld))))
  = Some appBin.
Proof.
  apply (saved_firmware_loads_back legacyWorld initialSession initialSession "app.bin"
           (file_bytes appBin)); [reflexivity | vm_compute; reflexivity].
Defined.

(** X22. From the cache to the device, on the
    reference platform: a firmware saved, loaded back from storage and
    flashed while the file can be read is written byte for byte, in one
    [writeFlash] call at the address parsed from the input. *)
Theorem flashes_the_saved_bytes (w w' : World) (s s' : Session) name data loader :
  faults w = [] ->
  outcome (run platform (saveFirmwareToDB name data s) w) = Ok tt ->
  let loaded := session (run platform (loadFirmwareFromStorage name s')
                           (world (run platform (saveFirmwareToDB name data s) w))) in
  espLoaderRef loaded = Some loader ->
  isValidAddr (trim (flashAddress loaded)) = true ->
  fileReadable (device w') = true ->
  In (LoaderWriteFlash loader (writeOptions data (parseInt16 (trim (flashAddress loaded)))))
    (calls (run platform (flashFirmware loaded) w')).
Proof.
  intros Hsound Hsaved loaded Hloader Hvalid Hreadable.
  assert (Hfile : firmwareFile loaded = Some (mkFile name data)).
  { subst loaded.
    destruct (saveFirmwareToDB_platform w s name data Hsound Hsaved) as [timestamp Hcached].
    rewrite loadFirmwareFromStorage_run. cbv zeta.
    rewrite (getFirmwareFromDB_cached _ _ name _ Hcached). reflexivity. }
  destruct (flash_started_calls platform loaded w' loader (mkFile name data) Hloader Hfile Hvalid)
    as (cleanup & _ & _ & Hcalls).
  cbn [platform fst] in Hcalls. rewrite Hreadable in Hcalls. cbn [file_bytes] in Hcalls.
  rewrite Hcalls. right. left. reflexivity.
Qed.

Lemma flashes_the_saved_bytes_witness :
  existsb isWriteFlash
    (calls (run platform
              (flashFirmware
                 (session (run platform
                             (loadFirmwareFromStorage "app.bin"
                                (session (run platform (connectToDevice initialSession)
                                            freshWorld)))
                             cachedWorld)))
              connectedWorld)) = true.
Proof.
  apply existsb_exists.
  exists (LoaderWriteFlash goodLoader (writeOptions (file_bytes appBin) (Num 65536))).
  split; [|reflexivity].
  apply (flashes_the_saved_bytes freshWorld connectedWorld initialSession
           (session (run platform (connectToDevice initialSession) freshWorld))
           "app.bin" (file_bytes appBin) goodLoader);
    vm_compute; reflexivity.
Defined.

(** ** The fallback chain, on any platform *)

Section Fetching.

Context {W : Type} (h : Handler W).

Lemma fetchDirect_any s w :
  exists found s' w' cs,
    run h (fetchDirect s) w = (Ok found, s', w', cs)
    /\ onlyLogged s s' /\ fetchedUrls cs = [apiUrl].
Proof.
  unfold fetchDirect. exec. answer h. destruct x as [response|e]; exec.
  - destruct (resp_ok response); exec.
    + answer h. destruct x; exec;
        eexists _, _, _, _; (split; [reflexivity|]); split; try reflexivity;
        auto 10 with logged.
    + eexists _, _, _, _; (split; [reflexivity|]); split; try reflexivity;
        auto 10 with logged.
  - eexists _, _, _, _; (split; [reflexivity|]); split; try reflexivity;
      auto 10 with logged.
Qed.

Lemma fetchViaProxies_any proxies before s w :
  exists found s' w' cs,
    run h (fetchViaProxies proxies before s) w = (Ok found, s', w', cs)
    /\ onlyLogged s s'
    /\ fetchedUrls cs `prefix_of` map proxy_url proxies.
Proof.
  revert s w. induction proxies as [|proxy rest IH]; intros s w.
  - exists before, s, w, []. cbn. split; [reflexivity|]. split; [apply onlyLogged_refl|].
    reflexivity.
  - cbn [fetchViaProxies map]. exec.
    assert (Hnext : forall s1 w1 cs1,
               onlyLogged s s1 -> fetchedUrls cs1 = [proxy_url proxy] ->
               exists found s' w' cs,
                 prepend cs1 (run h (fetchViaProxies rest before s1) w1)
                 = (Ok found, s', w', cs)
                 /\ onlyLogged s s'
                 /\ fetchedUrls cs `prefix_of` proxy_url proxy :: map proxy_url rest).
    { intros s1 w1 cs1 Hs1 Hcs1.
      destruct (IH s1 w1) as (found & s' & w' & cs & Hrun & Hs' & Hfound).
      exists found, s', w', (cs1 ++ cs). rewrite Hrun. unfold prepend.
      cbn [outcome session world calls fst snd].
      split; [reflexivity|]. split; [exact (onlyLogged_trans _ _ _ Hs1 Hs')|].
      unfold fetchedUrls in *. rewrite flat_map_app, Hcs1. cbn [app].
      apply prefix_cons. exact Hfound. }
    answer h. destruct x as [response|e]; exec.
    + destruct (resp_ok response); exec.
      * answer h. destruct x; exec.
        -- eexists _, _, _, _. split; [reflexivity|]. split; [auto 10 with logged|].
           cbn. apply prefix_cons, prefix_nil.
        -- match goal with
           | |- context [run h (fetchViaProxies rest before ?s1) ?w1] =>
               destruct (Hnext s1 w1 [Fetch (proxy_url proxy) acceptGithub 10000;
                                      ResponseJson response])
                 as (found & s' & w' & cs & Hrun & Hs' & Hfound);
               [auto 10 with logged | reflexivity |];
               destruct (run h (fetchViaProxies rest before s1) w1) as [[[r2 s2] w2] cs2]
           end.
           unfold prepend in Hrun. cbn [outcome session world calls fst snd app] in Hrun.
           injection Hrun as -> -> -> <-. eexists _, _, _, _. split; [reflexivity|]. auto.
      * match goal with
        | |- context [run h (fetchViaProxies rest before ?s1) ?w1] =>
            destruct (Hnext s1 w1 [Fetch (proxy_url proxy) acceptGithub 10000])
              as (found & s' & w' & cs & Hrun & Hs' & Hfound);
            [auto 10 with logged | reflexivity |];
            destruct (run h (fetchViaProxies rest before s1) w1) as [[[r2 s2] w2] cs2]
        end.
        unfold prepend in Hrun. cbn [outcome session world calls fst snd app] in Hrun.
        injection Hrun as -> -> -> <-. eexists _, _, _, _. split; [reflexivity|]. auto.
    + match goal with
      | |- context [run h (fetchViaProxies rest before ?s1) ?w1] =>
          destruct (Hnext s1 w1 [Fetch (proxy_url proxy) acceptGithub 10000])
            as (found & s' & w' & cs & Hrun & Hs' & Hfound);
          [auto 10 with logged | reflexivity |];
          destruct (run h (fetchViaProxies rest before s1) w1) as [[[r2 s2] w2] cs2]
      end.
      unfold prepend in Hrun. cbn [outcome session world calls fst snd app] in Hrun.
      injection Hrun as -> -> -> <-. eexists _, _, _, _. split; [reflexivity|]. auto.
Qed.

(** What the filter keeps has a name that is a string and ends in
    [.bin]. *)
Lemma filterBin_kept (assets kept : list Json) :
  filterBin assets = Ok kept ->
  Forall (fun asset => endsWith (nameOf asset) ".bin" = true) kept.
Proof.
  revert kept. induction assets as [|asset rest IH]; cbn [filterBin]; intros kept.
  - intros [= <-]. constructor.
  - destruct (namedBin asset) as [keep|e] eqn:Hnamed; [|discriminate].
    destruct (filterBin rest) as [others|e]; [|discriminate].
    intros [= <-]. specialize (IH others eq_refl). destruct keep; [|exact IH].
    constructor; [|exact IH]. unfold namedBin in Hnamed. unfold nameOf.
    destruct asset; try discriminate;
      destruct (property "name" _) as [[| | |name| |]|]; try discriminate;
      injection Hnamed as ->; reflexivity.
Qed.

Lemma candidates_bin (releasesData : Json) (firmwares : list GithubFirmware) :
  candidates releasesData = Ok firmwares ->
  Forall (fun firmware => endsWith (gf_name firmware) ".bin" = true) firmwares.
Proof.
  unfold candidates. cbv zeta.
  match goal with
  | |- match ?assets with _ => _ end = _ -> _ => destruct assets as [| | | |items|]
  end; try discriminate.
  destruct (filterBin items) as [kept|e] eqn:Hkept; [|discriminate].
  intros [= <-]. apply Forall_fmap. apply (filterBin_kept items kept Hkept).
Qed.

(** Whatever the platform answers, [fetchGithubReleases] resolves, with
    the busy flag down, having fetched a prefix of the chain that starts
    with the direct call; it publishes the candidates of a body, or leaves
    the list and the dialog as they were. *)
Lemma fetchGithubReleases_any s w :
  exists exit s' w' cs,
    run h (fetchGithubReleases s) w = (Ok exit, s', w', cs)
    /\ isFetchingGithub s' = false
    /\ fetchedUrls cs `prefix_of` chain
    /\ head (fetchedUrls cs) = Some apiUrl
    /\ match exit with
       | FetchPublished =>
           exists found, candidates found = Ok (githubFirmwares s')
                         /\ githubFirmwares s' <> [] /\ showGithubDialog s' = true
       | _ =>
           githubFirmwares s' = githubFirmwares s
           /\ showGithubDialog s' = showGithubDialog s
       end.
Proof.
  unfold fetchGithubReleases, chain. exec.
  run_part h (fetchDirect
                (with_logs (logs s ++ ["Fetching firmwares from GitHub: " +:+
                                       githubRepo +:+ "..."])
                   (with_isFetchingGithub true s))).
  match type of Hrun with
  | run h (fetchDirect ?s1) w = _ =>
      destruct (fetchDirect_any s1 w) as (direct & s1' & w1 & cs1 & Hdirect & Hs1 & Hcs1)
  end.
  rewrite Hdirect in Hrun. injection Hrun as <- <- <- <-. unfold prepend. exec.
  assert (Hend : forall body s2 w2 cs2,
             onlyLogged (with_logs (logs s ++ ["Fetching firmwares from GitHub: " +:+
                                               githubRepo +:+ "..."])
                           (with_isFetchingGithub true s)) s2 ->
             fetchedUrls cs2 `prefix_of` apiUrl :: map proxy_url corsProxies ->
             head (fetchedUrls cs2) = Some apiUrl ->
             exists exit s' w' cs,
               prepend cs2
                 (run h
                    (finallyStep
                       (catchStep
                          (bindStep (Settled s2 (Ok body))
                             (fun releasesData =>
                                if negb (truthy releasesData)
                                then throw (JsError fetchFailure)
                                else
                                  firmwares <- settle (candidates releasesData) ;;
                                  if (length firmwares =? 0)%nat
                                  then addLog "⚠ No .bin files found in the latest release" ;;
                                       ret FetchEmpty
                                  else
                                    setGithubFirmwares firmwares ;;
                                    setShowGithubDialog true ;;
                                    addLog ("✓ Found " +:+ pretty (length firmwares)
                                            +:+ " firmware(s) in latest release") ;;
                                    ret FetchPublished))
                          (fun error =>
                             addLog ("❌ Error: " +:+ errorMessage error) ;;
                             addLog (newline +:+ "💡 You can still flash firmware by:") ;;
                             addLog "1. Downloading .bin files manually from GitHub" ;;
                             addLog ("2. Visit: https://github.com/" +:+ githubRepo
                                     +:+ "/releases") ;;
                             addLog ("3. Use " +:+ dquote +:+ "Add Firmware" +:+ dquote
                                     +:+ " button to upload them") ;;
                             ret FetchFailed))
                       (setIsFetchingGithub false)) w2)
               = (Ok exit, s', w', cs)
               /\ isFetchingGithub s' = false
               /\ fetchedUrls cs `prefix_of` apiUrl :: map proxy_url corsProxies
               /\ head (fetchedUrls cs) = Some apiUrl
               /\ match exit with
                  | FetchPublished =>
                      exists found, candidates found = Ok (githubFirmwares s')
                                    /\ githubFirmwares s' <> []
                                    /\ showGithubDialog s' = true
                  | _ =>
                      githubFirmwares s' = githubFirmwares s
                      /\ showGithubDialog s' = showGithubDialog s
                  end).
  { intros body s2 w2 cs2 Hs2 Hprefix Hhead. unfold onlyLogged in Hs2.
    cbn [logs with_logs with_isFetchingGithub] in Hs2. exec.
    destruct (truthy body); cbn [negb]; exec; unfold bind; exec;
      [destruct (candidates body) as [[|candidate others]|e] eqn:Hcandidates;
       cbn [length Nat.eqb]; exec|];
      unfold prepend; cbn [outcome session world calls fst snd]; rewrite app_nil_r;
      eexists _, _, _, _; (split; [reflexivity|]);
      cbn [isFetchingGithub with_isFetchingGithub githubFirmwares with_githubFirmwares
           showGithubDialog with_showGithubDialog with_logs];
      (split; [reflexivity|]); (split; [exact Hprefix|]); (split; [exact Hhead|]).
    - rewrite Hs2. split; reflexivity.
    - exists body. rewrite Hcandidates. repeat split. discriminate.
    - rewrite Hs2. split; reflexivity.
    - rewrite Hs2. split; reflexivity. }
  destruct (truthy direct) eqn:Htruthy; cbn [negb]; exec.
  - apply (Hend direct s1' w1 cs1 Hs1).
    + unfold fetchedUrls in *. rewrite Hcs1. apply prefix_cons, prefix_nil.
    + unfold fetchedUrls in *. rewrite Hcs1. reflexivity.
  - run_part h (fetchViaProxies corsProxies direct s1').
    destruct (fetchViaProxies_any corsProxies direct s1' w1)
      as (found & s2 & w2 & cs2 & Hproxies & Hs2 & Hcs2).
    rewrite Hproxies in Hrun. injection Hrun as <- <- <- <-.
    destruct (Hend found s2 w2 (cs1 ++ cs2)) as (exit & s' & w' & cs & Hrun & Hgoal).
    + exact (onlyLogged_trans _ _ _ Hs1 Hs2).
    + unfold fetchedUrls in *. rewrite flat_map_app, Hcs1. apply prefix_cons. exact Hcs2.
    + unfold fetchedUrls in *. rewrite flat_map_app, Hcs1. reflexivity.
    + exists exit, s', w', cs. split; [|exact Hgoal]. rewrite <- Hrun.
      unfold prepend. cbn [outcome session world calls fst snd].
      rewrite app_assoc. reflexivity.
Qed.

(** X23. Whatever the network does,
    [fetchGithubReleases] never rejects and returns with [isFetchingGithub]
    false.  The URLs it fetched are a prefix of the chain (the direct call,
    then the proxies in their order) that starts with the direct call: at
    most three requests, none twice, none out of order. *)
Theorem fetch_always_settles s w :
  (exists exit, outcome (run h (fetchGithubReleases s) w) = Ok exit)
  /\ isFetchingGithub (session (run h (fetchGithubReleases s) w)) = false
  /\ fetchedUrls (calls (run h (fetchGithubReleases s) w)) `prefix_of` chain
  /\ head (fetchedUrls (calls (run h (fetchGithubReleases s) w))) = Some apiUrl.
Proof.
  destruct (fetchGithubReleases_any s w) as (exit & s' & w' & cs & -> & H1 & H2 & H3 & _).
  cbn [outcome session calls fst snd]. eauto.
Qed.

(** X24. When [fetchGithubReleases] publishes,
    the list is not empty, every name in it ends in [.bin] and the dialog
    is open; on every other outcome the list and the dialog are what they
    were. *)
Theorem fetch_publishes_only_bin s w :
  match outcome (run h (fetchGithubReleases s) w) with
  | Ok FetchPublished =>
      githubFirmwares (session (run h (fetchGithubReleases s) w)) <> []
      /\ Forall (fun firmware => endsWith (gf_name firmware) ".bin" = true)
           (githubFirmwares (session (run h (fetchGithubReleases s) w)))
      /\ showGithubDialog (session (run h (fetchGithubReleases s) w)) = true
  | _ =>
      githubFirmwares (session (run h (fetchGithubReleases s) w)) = githubFirmwares s
      /\ showGithubDialog (session (run h (fetchGithubReleases s) w)) = showGithubDialog s
  end.
Proof.
  destruct (fetchGithubReleases_any s w) as (exit & s' & w' & cs & -> & _ & _ & _ & H).
  cbn [outcome session fst snd]. destruct exit; try exact H.
  destruct H as (found & Hfound & Hne & Hshow). split; [exact Hne|]. split; [|exact Hshow].
  exact (candidates_bin found _ Hfound).
Qed.

End Fetching.

(** ** The page: uploads and downloads *)

Ltac pexec :=
  cbn [runPage PageProgram.bindStep PageProgram.catchStep PageProgram.finallyStep
       PageProgram.bind PageProgram.try_catch PageProgram.try_finally PageProgram.ret
       PageProgram.throw PageProgram.settle PageProgram.call PageProgram.update
       PageProgram.when PageProgram.lift PageProgram.liftStep
       setShowAddFirmwareDialog setDownloadingFirmware setDownloadProgress messageOf
       with_core with_showAddFirmwareDialog with_downloadingFirmware with_downloadProgress
       core showAddFirmwareDialog downloadingFirmware downloadProgress
       pageOutcome pageOf pageWorld pageCalls
       update addLog setFirmwareFile setShowGithubDialog
       with_isConnected with_isFlashing with_progress with_logs with_firmwareFile
       with_chipInfo with_flashAddress with_showGithubDialog with_githubFirmwares
       with_isFetchingGithub with_localFirmwares with_transportRef with_espLoaderRef
       with_serialPortRef
       isConnected isFlashing progress logs firmwareFile chipInfo flashAddress
       showGithubDialog githubFirmwares isFetchingGithub localFirmwares transportRef
       espLoaderRef serialPortRef progressHistory
       fst snd negb].

(** The answer of the handler to the call at hand is named. *)
Ltac panswer h :=
  match goal with
  | |- context [h ?c ?w] =>
      let x := fresh "x" in
      let w' := fresh "w" in
      destruct (h c w) as [x w'] eqn:?; cbn [pageReply reply] in x
  end.

Section RunningPage.

Context {W : Type} (h : PageHandler W).

Lemma runPage_context {A B} (E : PageStep A -> PageStep B) (HE : transparentPage E)
  (st : PageStep A) (w : W) :
  runPage h (E st) w =
  prependPage (pageCalls (runPage h st w))
    (runPage h (E (PageSettled (pageOf (runPage h st w)) (pageOutcome (runPage h st w))))
       (pageWorld (runPage h st w))).
Proof.
  revert w. induction st as [p r|p c k IH]; intros w.
  - cbn. destruct (runPage h (E (PageSettled p r)) w) as [[[r' p'] w'] cs]. reflexivity.
  - rewrite HE. cbn [runPage]. destruct (h c w) as [x w1]. rewrite IH.
    destruct (runPage h (k x p) w1) as [[[r' p'] w'] cs]. cbn.
    destruct (runPage h (E (PageSettled p' r')) w') as [[[r2 p2] w2] cs2]. reflexivity.
Qed.

(** A program over the session runs on the page as it runs on the
    session: same outcome, same calls, and the page changes by its session
    only. *)
Lemma runPage_lift {A} (st : Step A) (p : Page) (w : W) :
  runPage h (PageProgram.liftStep p st) w
  = (outcome (run (coreHandler h) st w),
     with_core (session (run (coreHandler h) st w)) p,
     world (run (coreHandler h) st w),
     map Core (calls (run (coreHandler h) st w))).
Proof.
  revert p w. induction st as [s r|s c k IH]; intros p w; [reflexivity|].
  cbn [PageProgram.liftStep runPage run]. change (coreHandler h c w) with (h (Core c) w).
  destruct (h (Core c) w) as [x w1]. rewrite IH. cbn [core with_core].
  destruct (run (coreHandler h) (k x s) w1) as [[[r s'] w'] cs]. reflexivity.
Qed.

Lemma runPage_lifted {A B} (E : PageStep A -> PageStep B) (HE : transparentPage E)
  (st : Step A) (p : Page) (w : W) r s' w' cs :
  run (coreHandler h) st w = (r, s', w', cs) ->
  runPage h (E (PageProgram.liftStep p st)) w
  = prependPage (map Core cs) (runPage h (E (PageSettled (with_core s' p) r)) w').
Proof.
  intros Hrun. rewrite (runPage_context E HE), runPage_lift, Hrun. reflexivity.
Qed.

End RunningPage.

(** The part [X] of the page program at hand is run first. *)
Ltac prun_first X :=
  match goal with
  | |- context [runPage ?h ?prog ?w] =>
      match prog with
      | context E [X] =>
          let T := type of X in
          let E' := constr:(fun hole : T => ltac:(let t := context E [hole] in exact t)) in
          let H := fresh in
          assert (H : transparentPage E') by (intros ? ? ?; reflexivity);
          rewrite (runPage_context h E' H X w); clear H
      end
  end.

(** The program over the session that comes next in the page program at
    hand is run as a whole; its result is named and, before it is put in
    place, [known] says what is known of it. *)
Ltac run_lifted_then h known :=
  lazymatch goal with
  | |- context [PageProgram.lift ?m ?p] =>
      let s := eval cbn [core with_core with_downloadProgress with_downloadingFirmware
                         with_showAddFirmwareDialog] in (core p) in
      change (PageProgram.lift m p) with (PageProgram.liftStep p (m s));
      match goal with
      | |- context [runPage h ?prog ?w] =>
          match prog with
          | context E [PageProgram.liftStep p (m s)] =>
              let T := type of (PageProgram.liftStep p (m s)) in
              let E' := constr:(fun hole : T =>
                                  ltac:(let t := context E [hole] in exact t)) in
              let H := fresh in
              assert (H : transparentPage E') by (intros ? ? ?; reflexivity);
              let Hx := fresh in
              assert (Hx : { x | run (coreHandler h) (m s) w = x })
                by (eexists; reflexivity);
              let r := fresh "r" in
              let s' := fresh "s" in
              let w' := fresh "w" in
              let cs := fresh "cs" in
              let Hrun := fresh "Hrun" in
              destruct Hx as [[[[r s'] w'] cs] Hrun];
              known Hrun;
              lazymatch type of Hrun with
              | _ = (?r0, ?s0, ?w0, ?cs0) =>
                  rewrite (runPage_lifted h E' H (m s) p w r0 s0 w0 cs0 Hrun)
              end;
              clear H; unfold prependPage
          end
      end
  end.

Section SavingAnywhere.

Context {W : Type} (h : Handler W).

Lemma putsOnly_none name data cs :
  Forall (fun c => isPut c = false) cs -> putsOnly name data cs.
Proof.
  unfold putsOnly. intros Hnone. eapply Forall_impl; [exact Hnone|].
  intros c Hc Hput. congruence.
Qed.

Lemma openDB_calls s w : Forall (fun c => isPut c = false) (calls (run h (openDB s) w)).
Proof. unfold openDB. explore h; repeat constructor. Qed.

Lemma resetDatabase_calls s w :
  Forall (fun c => isPut c = false) (calls (run h (resetDatabase s) w)).
Proof. unfold resetDatabase. explore h; repeat constructor. Qed.

Lemma putFirmware_run db name data s w :
  session (run h (putFirmware db name data s) w) = s
  /\ putsOnly name data (calls (run h (putFirmware db name data s) w)).
Proof.
  unfold putFirmware, putsOnly. explore h; (split; [reflexivity|]); repeat constructor;
    try discriminate; eauto.
Qed.

(** [saveFirmwareToDB] leaves the session alone, and what it writes is
    the record of the name and the bytes it was given. *)
Lemma saveFirmwareToDB_run name data s w :
  session (run h (saveFirmwareToDB name data s) w) = s
  /\ putsOnly name data (calls (run h (saveFirmwareToDB name data s) w)).
Proof.
  unfold saveFirmwareToDB.
  run_part h (openDB s).
  pose proof (openDB_session h s w) as Hs. pose proof (openDB_calls s w) as Hcs.
  rewrite Hrun in Hs, Hcs. cbn [session calls fst snd] in Hs, Hcs. subst s0. clear Hrun.
  apply (putsOnly_none name data) in Hcs. unfold prepend.
  destruct r as [db|e]; exec.
  - destruct (putFirmware_run db name data s w0) as [Hs Hput].
    destruct (run h (putFirmware db name data s) w0) as [[[r1 s1] w1] cs1].
    cbn [session calls fst snd] in *. subst s1.
    split; [reflexivity|]. apply Forall_app; auto.
  - run_part h (resetDatabase s).
    pose proof (resetDatabase_session h s w0) as Hs.
    pose proof (resetDatabase_calls s w0) as Hcs0.
    rename Hrun into Hrun0. rewrite Hrun0 in Hs, Hcs0.
    cbn [session calls fst snd] in Hs, Hcs0. subst s0. clear Hrun0.
    apply (putsOnly_none name data) in Hcs0. unfold prepend.
    destruct r as [[]|e1]; exec.
    + run_part h (openDB s).
      pose proof (openDB_session h s w1) as Hs. pose proof (openDB_calls s w1) as Hcs1.
      rewrite Hrun in Hs, Hcs1. cbn [session calls fst snd] in Hs, Hcs1. subst s0.
      apply (putsOnly_none name data) in Hcs1. unfold prepend.
      destruct r as [db|e2]; exec.
      * destruct (putFirmware_run db name data s w2) as [Hs Hput].
        destruct (run h (putFirmware db name data s) w2) as [[[r1 s1] w3] cs3].
        cbn [session calls fst snd] in *. subst s1.
        split; [reflexivity|]. rewrite ?app_nil_r. repeat (apply Forall_app; split); auto.
      * split; [reflexivity|]. rewrite ?app_nil_r. repeat (apply Forall_app; split); auto.
    + split; [reflexivity|]. rewrite ?app_nil_r. repeat (apply Forall_app; split); auto.
Qed.

Lemma saveFirmwareToDB_result name data s w r s' w' cs :
  run h (saveFirmwareToDB name data s) w = (r, s', w', cs) ->
  s' = s /\ putsOnly name data cs.
Proof.
  intros Hrun. destruct (saveFirmwareToDB_run name data s w) as [Hs Hputs].
  rewrite Hrun in Hs, Hputs. auto.
Qed.

Lemma loadLocalFirmwares_run s w :
  outcome (run h (loadLocalFirmwares s) w) = Ok tt
  /\ (exists firmwares,
        session (run h (loadLocalFirmwares s) w) = with_localFirmwares firmwares s)
  /\ Forall (fun c => isPut c = false) (calls (run h (loadLocalFirmwares s) w)).
Proof.
  unfold loadLocalFirmwares, getAllFirmwaresFromDB.
  run_part h (openDB s).
  pose proof (openDB_session h s w) as Hs. pose proof (openDB_calls s w) as Hcs.
  rewrite Hrun in Hs, Hcs. cbn [session calls fst snd] in Hs, Hcs. subst s0. unfold prepend.
  destruct s. destruct r; explore h; (split; [reflexivity|]); (split; [eexists; reflexivity|]);
    rewrite ?app_nil_r; try assumption; apply Forall_app; split; try assumption;
    repeat constructor.
Qed.

Lemma loadLocalFirmwares_result s w r s' w' cs :
  run h (loadLocalFirmwares s) w = (r, s', w', cs) ->
  r = Ok tt
  /\ (exists firmwares, s' = with_localFirmwares firmwares s)
  /\ Forall (fun c => isPut c = false) cs.
Proof.
  intros Hrun. destruct (loadLocalFirmwares_run s w) as (Hok & Hs & Hreads).
  rewrite Hrun in Hok, Hs, Hreads. auto.
Qed.

End SavingAnywhere.

Lemma writesOnly_app P cs1 cs2 :
  writesOnly P cs1 -> writesOnly P cs2 -> writesOnly P (cs1 ++ cs2).
Proof. unfold writesOnly. intros H1 H2. apply Forall_app. auto. Qed.

Lemma writesOnly_other P cs : Forall (fun c => isCore c = false) cs -> writesOnly P cs.
Proof.
  unfold writesOnly. intros Hnone. eapply Forall_impl; [exact Hnone|].
  intros [c| | | |]; [discriminate | auto ..].
Qed.

Lemma writesOnly_reads P cs : Forall (fun c => isPut c = false) cs -> writesOnly P (map Core cs).
Proof.
  unfold writesOnly. intros Hnone. apply Forall_fmap. eapply Forall_impl; [exact Hnone|].
  intros c Hc. cbn. destruct c; auto. discriminate.
Qed.

Lemma writesOnly_puts (P : FirmwareRecord -> Prop) name data cs :
  (forall timestamp, P (mkFirmwareRecord name data timestamp (length data))) ->
  putsOnly name data cs -> writesOnly P (map Core cs).
Proof.
  unfold writesOnly, putsOnly. intros HP Hputs. apply Forall_fmap.
  eapply Forall_impl; [exact Hputs|]. intros c Hc. cbn. destruct c; auto.
  destruct (Hc eq_refl) as (db0 & timestamp & [= -> -> ->]). apply HP.
Qed.

Section Downloading.

Context {W : Type} (h : PageHandler W).

Ltac attempt_failed :=
  eexists; split; [reflexivity|]; split; [auto 10 with logged|];
  do 2 (split; [reflexivity|]); split; [repeat constructor|];
  split; [reflexivity | discriminate].

Lemma downloadViaProxy_run url p w :
  attempted h url p w (runPage h (downloadViaProxy url p) w).
Proof.
  unfold attempted, downloadViaProxy. pexec.
  panswer h. destruct x as [response|e]; pexec; [|attempt_failed].
  destruct (resp_ok response) eqn:Hok; cbn [andb]; pexec; [|attempt_failed].
  destruct (resp_status response =? 200)%N eqn:Hstatus; pexec; [|attempt_failed].
  panswer h. destruct (isHtml x) eqn:Hhtml; pexec; [attempt_failed|].
  panswer h. destruct x0 as [bytes|e]; pexec; [|attempt_failed].
  apply N.eqb_eq in Hstatus.
  destruct (1000 <? length bytes)%nat; pexec;
    (eexists; split; [reflexivity|]; split; [auto 10 with logged|];
     do 2 (split; [reflexivity|]); split; [repeat constructor|];
     split; [reflexivity|]; intros ? [= <-]; exists response;
     cbv zeta; rewrite Heqp0; cbn [fst snd]; rewrite Heqp1; cbn [fst snd];
     rewrite Heqp2; auto).
Qed.

(** How a download goes, on any platform. *)
Lemma downloadGithubFirmware_run url name p w :
  downloadEnded h url name p w (runPage h (downloadGithubFirmware url name p) w).
Proof.
  unfold downloadGithubFirmware. pexec. unfold PageProgram.bind. pexec.
  match goal with
  | |- context [downloadViaProxy url ?p1] =>
      prun_first (downloadViaProxy url p1);
      destruct (downloadViaProxy_run url p1 w)
        as (result & Hresult & Hlogged & Hdialog & Hname & Hcalls & Hhead & Hbody);
      destruct (runPage h (downloadViaProxy url p1) w) as [[[r1 p2] w2] cs2]
  end.
  cbn [pageOutcome pageOf pageWorld pageCalls fst snd core with_core with_downloadProgress
       with_downloadingFirmware with_logs logs showAddFirmwareDialog downloadingFirmware]
    in Hresult, Hlogged, Hdialog, Hname, Hcalls, Hhead, Hbody.
  subst r1. unfold prependPage.
  assert (Hhead' : forall rest,
             head (cs2 ++ rest) = Some (FetchWith (downloadUrl url) downloadInit))
    by (intros rest; destruct cs2; [discriminate|exact Hhead]).
  assert (Hother := writesOnly_other (recordOfDownload h url name w) cs2 Hcalls).
  destruct p2 as [s2 dialog2 name2 progress2]. cbn [core showAddFirmwareDialog] in *.
  unfold onlyLogged in Hlogged. cbn [logs] in Hlogged.
  remember (logs s2) as lines2 eqn:Hlines2. clear Hlines2. subst s2.
  destruct result as [bytes|]; pexec.
  - destruct (length bytes <? 1000)%nat eqn:Hsmall; pexec.
    + unfold downloadEnded. pexec. rewrite Hhead'.
      repeat (split; [first [reflexivity | assumption]|]).
      split; [rewrite app_nil_r; exact Hother|]. left. split; [reflexivity|].
      unfold onlyLogged. reflexivity.
    + apply Nat.ltb_ge in Hsmall.
      assert (Hreal : downloaded h url w bytes) by (split; [exact Hsmall | auto]).
      run_lifted_then h
        ltac:(fun Hrun =>
                destruct (saveFirmwareToDB_result _ _ _ _ _ _ _ _ _ Hrun) as [-> Hputs]).
      apply (writesOnly_puts (recordOfDownload h url name w)) in Hputs;
        [|intros timestamp; repeat split; auto].
      destruct r as [[]|e]; pexec.
      * run_lifted_then h
          ltac:(fun Hrun =>
                  destruct (loadLocalFirmwares_result _ _ _ _ _ _ _ Hrun)
                    as (-> & [firmwares ->] & Hreads)).
        pexec. unfold downloadEnded. pexec. rewrite Hhead'.
        repeat (split; [first [reflexivity | assumption]|]).
        split.
        { rewrite app_nil_r. repeat apply writesOnly_app; auto using writesOnly_reads. }
        right. split; [reflexivity|]. exists bytes, firmwares. eexists. split; [exact Hreal|].
        reflexivity.
      * unfold downloadEnded. pexec. rewrite Hhead'.
        repeat (split; [first [reflexivity | assumption]|]).
        split; [rewrite app_nil_r; apply writesOnly_app; assumption|].
        left. split; [reflexivity|]. unfold onlyLogged. reflexivity.
  - unfold downloadEnded. pexec. rewrite Hhead'.
    repeat (split; [first [reflexivity | assumption]|]).
    split; [rewrite app_nil_r; exact Hother|]. left. split; [reflexivity|].
    unfold onlyLogged. reflexivity.
Qed.

(** X25. On any platform, [downloadGithubFirmware] never rejects:
    it ends as done or as failed.  Either way the download flags are reset
    ([downloadingFirmware] is [null] and [downloadProgress] empty), the
    Add Firmware dialog is as it was, and the first call made was the
    [fetch] of the proxy for the encoded URL, with the method GET, the two
    headers, a timeout of 20000 ms and the mode cors.  When it failed, the
    session changed by its log only. *)
Theorem download_always_settles url name p w :
  let o := runPage h (downloadGithubFirmware url name p) w in
  (pageOutcome o = Ok DownloadDone \/ pageOutcome o = Ok DownloadFailed)
  /\ downloadingFirmware (pageOf o) = None
  /\ downloadProgress (pageOf o) = ""
  /\ showAddFirmwareDialog (pageOf o) = showAddFirmwareDialog p
  /\ head (pageCalls o) = Some (FetchWith (downloadUrl url) downloadInit)
  /\ (pageOutcome o = Ok DownloadFailed -> onlyLogged (core p) (core (pageOf o))).
Proof.
  intros o.
  destruct (downloadGithubFirmware_run url name p w)
    as (Hname & Hprogress & Hdialog & Hhead & _ & Hend).
  fold o in Hname, Hprogress, Hdialog, Hhead, Hend.
  split; [destruct Hend as [[Hfailed _]|[Hdone _]]; auto|].
  do 4 (split; [assumption|]).
  intros Hfailed. destruct Hend as [[_ Hlogged]|[Hdone _]]; [exact Hlogged|].
  rewrite Hdone in Hfailed. discriminate.
Qed.

(** X26. On any platform, whatever
    [downloadGithubFirmware url name] writes to the store is a record under
    [name] whose size is the length of its data, and that data has at least
    1000 bytes and is the body of the response the proxy gave for [url], a
    response that was [ok] with status 200 and whose content type was not
    one of HTML.  When the download is done, a file of that name with such
    bytes is selected and the GitHub dialog is closed. *)
Theorem download_stores_only_real_binaries url name p w :
  let o := runPage h (downloadGithubFirmware url name p) w in
  writesOnly (fun record => fw_name record = name
                            /\ fw_size record = length (fw_data record)
                            /\ (1000 <= length (fw_data record))%nat
                            /\ received h url w (fw_data record))
    (pageCalls o)
  /\ (pageOutcome o = Ok DownloadDone ->
      exists bytes,
        (1000 <= length bytes)%nat
        /\ received h url w bytes
        /\ firmwareFile (core (pageOf o)) = Some (mkFile name bytes)
        /\ showGithubDialog (core (pageOf o)) = false).
Proof.
  intros o.
  destruct (downloadGithubFirmware_run url name p w) as (_ & _ & _ & _ & Hwrites & Hend).
  fold o in Hwrites, Hend. split.
  - unfold writesOnly in *. eapply Forall_impl; [exact Hwrites|].
    intros [[]| | | |]; cbn; auto.
  - intros Hdone. destruct Hend as [[Hfailed _]|[_ (bytes & firmwares & lines & Hreal & Hcore)]].
    + rewrite Hdone in Hfailed. discriminate.
    + destruct Hreal as [Hlength Hreceived]. exists bytes. rewrite Hcore.
      repeat split; auto.
Qed.

(** X27. On any platform, when the proxy gives no body of at least
    1000 bytes for [url] (the request fails, the response is not [ok] with
    status 200, it declares HTML, or the body is shorter),
    [downloadGithubFirmware url name] ends as failed without asking
    anything of IndexedDB or of the device, the selected file stays, and
    the log ends with the failure, the error and the instructions for a
    manual download that name the file. *)
Theorem download_fails_without_body url name p w :
  (forall bytes, received h url w bytes -> (length bytes < 1000)%nat) ->
  let o := runPage h (downloadGithubFirmware url name p) w in
  pageOutcome o = Ok DownloadFailed
  /\ Forall (fun c => isCore c = false) (pageCalls o)
  /\ firmwareFile (core (pageOf o)) = firmwareFile (core p)
  /\ exists lines,
       logs (core (pageOf o))
       = lines ++ ["❌ Download failed for " +:+ name;
                   "❌ Download error: " +:+ downloadFailure] ++ manualInstructions name.
Proof.
  intros Hshort o. subst o. unfold downloadGithubFirmware. pexec.
  unfold PageProgram.bind. pexec.
  match goal with
  | |- context [downloadViaProxy url ?p1] =>
      prun_first (downloadViaProxy url p1);
      destruct (downloadViaProxy_run url p1 w)
        as (result & Hresult & Hlogged & _ & _ & Hcalls & _ & Hbody);
      destruct (runPage h (downloadViaProxy url p1) w) as [[[r1 p2] w2] cs2]
  end.
  cbn [pageOutcome pageOf pageWorld pageCalls fst snd core with_core with_downloadProgress
       with_downloadingFirmware with_logs logs] in Hresult, Hlogged, Hcalls, Hbody.
  subst r1. unfold prependPage.
  destruct p2 as [s2 dialog2 name2 progress2]. cbn [core] in *.
  unfold onlyLogged in Hlogged. cbn [logs] in Hlogged.
  remember (logs s2) as lines2 eqn:Hlines2. clear Hlines2. subst s2.
  assert (Hfails : match result with
                   | Some bytes => (length bytes <? 1000)%nat = true
                   | None => True
                   end).
  { destruct result as [bytes|]; [|exact I]. apply Nat.ltb_lt, Hshort, Hbody. reflexivity. }
  destruct result as [bytes|]; pexec; [rewrite Hfails; pexec|];
    (split; [reflexivity|]); (split; [rewrite app_nil_r; exact Hcalls|]);
    (split; [reflexivity|]); exists lines2; unfold manualInstructions, downloadFailure;
    cbn [errorMessage app]; rewrite <- !app_assoc; reflexivity.
Qed.

End Downloading.

(** ** Uploading a file *)

Section Uploading.

Context {W : Type} (h : PageHandler W).

Lemma handleFileUpload_bin file rest p w :
  endsWith (file_name file) ".bin" = true ->
  let o := runPage h (handleFileUpload (file :: rest) p) w in
  firmwareFile (core (pageOf o)) = Some file
  /\ showAddFirmwareDialog (pageOf o) = false
  /\ head (pageCalls o) = Some (Core (FileArrayBuffer file))
  /\ match (h (Core (FileArrayBuffer file)) w).1 with
     | Ok bytes => writesOnly (recordOfFile (file_name file) bytes) (pageCalls o)
     | Thrown e => pageOutcome o = Thrown e /\ pageCalls o = [Core (FileArrayBuffer file)]
     end.
Proof.
  intros Hbin o. subst o. unfold handleFileUpload. cbn [head]. rewrite Hbin. pexec.
  unfold PageProgram.bind. pexec. panswer h. destruct x as [bytes|e]; pexec.
  - run_lifted_then h
      ltac:(fun Hrun =>
              destruct (saveFirmwareToDB_result _ _ _ _ _ _ _ _ _ Hrun) as [-> Hputs]).
    apply (writesOnly_puts (recordOfFile (file_name file) bytes)) in Hputs;
      [|intros timestamp; exists timestamp; reflexivity].
    destruct r as [[]|[message|]]; pexec.
    + run_lifted_then h
        ltac:(fun Hrun =>
                destruct (loadLocalFirmwares_result _ _ _ _ _ _ _ Hrun)
                  as (-> & [firmwares ->] & Hreads)).
      pexec. repeat (split; [reflexivity|]).
      rewrite app_nil_r. apply (writesOnly_app _ [_]); [repeat constructor|].
      apply writesOnly_app; auto using writesOnly_reads.
    + repeat (split; [reflexivity|]).
      rewrite app_nil_r. apply (writesOnly_app _ [_]); [repeat constructor|]. exact Hputs.
    + panswer h. destruct x as [message|e]; pexec;
        (repeat (split; [reflexivity|]));
        apply (writesOnly_app _ [_]); [repeat constructor| |repeat constructor|];
        (apply writesOnly_app; [exact Hputs|repeat constructor]).
  - repeat (split; [reflexivity|]). split; reflexivity.
Qed.

(** X28. On any platform, [handleFileUpload] does nothing without a
    file, and for a file whose name does not end in [.bin] it adds one
    line to the log and calls nothing.  A [.bin] file is selected and the
    Add Firmware dialog closed before anything is asked of the platform,
    and they stay so whatever happens to the save; the first call reads
    the file.  If that read fails, the failure is handled by nobody and
    nothing else is called; if it gives bytes, whatever is written to the
    store is a record of the file's name with those bytes and their
    length. *)
Theorem upload_selects_bin_files files p w :
  let o := runPage h (handleFileUpload files p) w in
  match head files with
  | None => o = (Ok UploadNothing, p, w, [])
  | Some file =>
      if endsWith (file_name file) ".bin"
      then
        firmwareFile (core (pageOf o)) = Some file
        /\ showAddFirmwareDialog (pageOf o) = false
        /\ head (pageCalls o) = Some (Core (FileArrayBuffer file))
        /\ match (h (Core (FileArrayBuffer file)) w).1 with
           | Ok bytes => writesOnly (recordOfFile (file_name file) bytes) (pageCalls o)
           | Thrown e =>
               pageOutcome o = Thrown e /\ pageCalls o = [Core (FileArrayBuffer file)]
           end
      else
        o = (Ok UploadRefused,
             with_core (with_logs (logs (core p) ++ ["❌ Please select a .bin file"]) (core p))
               p,
             w, [])
  end.
Proof.
  intros o. destruct files as [|file rest]; [reflexivity|]. cbn [head].
  destruct (endsWith (file_name file) ".bin") eqn:Hbin.
  - exact (handleFileUpload_bin file rest p w Hbin).
  - subst o. unfold handleFileUpload. cbn [head]. rewrite Hbin. reflexivity.
Qed.

End Uploading.

(** ** The page on the reference platform *)

Section OnThePlatform.

Context (web : Web).

Lemma saveFirmwareToDB_page (w : World) (s : Session) name data records r s' w' cs :
  storeHolds w records ->
  run (coreHandler (pagePlatform web)) (saveFirmwareToDB name data s) w = (r, s', w', cs) ->
  r = Ok tt /\ s' = s
  /\ storeHolds w' (<[name := mkFirmwareRecord name data (clock w) (length data)]> records).
Proof.
  intros Hstore Hrun. change (coreHandler (pagePlatform web)) with platform in Hrun.
  destruct (saveFirmwareToDB_healthy w s name data records Hstore) as [Hok Hheld].
  destruct (saveFirmwareToDB_run platform name data s w) as [Hs _].
  rewrite Hrun in Hok, Hheld, Hs. cbn [outcome session world fst snd] in Hok, Hheld, Hs.
  auto.
Qed.

Lemma loadLocalFirmwares_page (w : World) (s : Session) records r s' w' cs :
  storeHolds w records ->
  run (coreHandler (pagePlatform web)) (loadLocalFirmwares s) w = (r, s', w', cs) ->
  r = Ok tt /\ s' = with_localFirmwares (map infoOf (inKeyOrder records)) s /\ w' = w.
Proof.
  intros Hstore Hrun. change (coreHandler (pagePlatform web)) with platform in Hrun.
  rewrite (loadLocalFirmwares_healthy w s records Hstore) in Hrun.
  injection Hrun as <- <- <- <-. auto.
Qed.

(** Saving and listing again, on a healthy store. *)
Ltac save_and_list Hstore stored :=
  let Hheld := fresh "Hheld" in
  run_lifted_then (pagePlatform web)
    ltac:(fun Hrun =>
            destruct (saveFirmwareToDB_page _ _ _ _ _ _ _ _ _ Hstore Hrun)
              as (-> & -> & Hheld));
  fold stored in Hheld; pexec;
  run_lifted_then (pagePlatform web)
    ltac:(fun Hrun =>
            destruct (loadLocalFirmwares_page _ _ _ _ _ _ _ Hheld Hrun) as (-> & -> & ->));
  pexec.

(** X29. On the reference platform, with a store that is healthy and a
    file that can be read: uploading a [.bin] file ends as saved, the
    store then holds under the file's name a record with the file's bytes,
    their length and the time of the save, beside what it held under other
    names, the list of local firmwares has one entry for each record of the
    store as it now is, in some order, and the file is selected. *)
Theorem upload_caches_file (w : World) (p : Page) file rest records :
  endsWith (file_name file) ".bin" = true ->
  fileReadable (device w) = true ->
  storeHolds w records ->
  let o := runPage (pagePlatform web) (handleFileUpload (file :: rest) p) w in
  let stored := <[file_name file := mkFirmwareRecord (file_name file) (file_bytes file)
                                       (clock w) (length (file_bytes file))]> records in
  pageOutcome o = Ok UploadSaved
  /\ storeHolds (pageWorld o) stored
  /\ localFirmwares (core (pageOf o)) ≡ₚ map infoOf (map_to_list stored).*2
  /\ firmwareFile (core (pageOf o)) = Some file.
Proof.
  intros Hbin Hreadable Hstore o stored. subst o. unfold handleFileUpload. cbn [head].
  rewrite Hbin. pexec. unfold PageProgram.bind. pexec. cbn [pagePlatform platform].
  rewrite Hreadable. pexec. save_and_list Hstore stored.
  split; [reflexivity|]. split; [assumption|].
  split; [apply fmap_Permutation, inKeyOrder_Permutation | reflexivity].
Qed.

(** What one attempt gives when the proxy answers with a body. *)
Lemma downloadViaProxy_page (w : World) (p : Page) url response bytes :
  fileReply web (downloadUrl url) = Ok response ->
  resp_ok response = true ->
  resp_status response = 200%N ->
  isHtml (headerOf web (resp_url response) "content-type") = false ->
  bodyOf web (resp_url response) = Ok bytes ->
  exists lines,
    runPage (pagePlatform web) (downloadViaProxy url p) w
    = (Ok (Some bytes),
       with_core (with_logs lines (core p))
         (with_downloadProgress "Downloading via CORS Proxy..." p),
       w,
       [FetchWith (downloadUrl url) downloadInit; HeadersGet response "content-type";
        ResponseArrayBuffer response]).
Proof.
  intros Hfetch Hok Hstatus Hhtml Hbody. unfold downloadViaProxy. pexec.
  cbn [pagePlatform]. rewrite Hfetch. pexec. rewrite Hok, Hstatus. cbn [andb N.eqb Pos.eqb].
  pexec. cbn [pagePlatform]. rewrite Hhtml. pexec. cbn [pagePlatform]. rewrite Hbody. pexec.
  destruct (1000 <? length bytes)%nat; pexec; eexists; reflexivity.
Qed.

(** X30. On the reference platform, with a store that is healthy:
    when the proxy answers the request for [url] with a response that is
    [ok] with status 200, whose content type is not one of HTML and whose
    body has at least 1000 bytes, [downloadGithubFirmware url name] ends as
    done, the store then holds under [name] a record with those bytes,
    beside what it held under other names, the list of local firmwares has
    one entry for each record of the store as it now is, in some order, a
    file of that name with those bytes is selected and the GitHub dialog is
    closed. *)
Theorem download_stores_and_selects (w : World) (p : Page) url name response bytes records :
  storeHolds w records ->
  fileReply web (downloadUrl url) = Ok response ->
  resp_ok response = true ->
  resp_status response = 200%N ->
  isHtml (headerOf web (resp_url response) "content-type") = false ->
  bodyOf web (resp_url response) = Ok bytes ->
  (1000 <= length bytes)%nat ->
  let o := runPage (pagePlatform web) (downloadGithubFirmware url name p) w in
  let stored := <[name := mkFirmwareRecord name bytes (clock w) (length bytes)]> records in
  pageOutcome o = Ok DownloadDone
  /\ storeHolds (pageWorld o) stored
  /\ localFirmwares (core (pageOf o)) ≡ₚ map infoOf (map_to_list stored).*2
  /\ firmwareFile (core (pageOf o)) = Some (mkFile name bytes)
  /\ showGithubDialog (core (pageOf o)) = false.
Proof.
  intros Hstore Hfetch Hok Hstatus Hhtml Hbody Hsize o stored. subst o.
  unfold downloadGithubFirmware. pexec. unfold PageProgram.bind. pexec.
  match goal with
  | |- context [downloadViaProxy url ?p1] =>
      prun_first (downloadViaProxy url p1);
      destruct (downloadViaProxy_page w p1 url response bytes Hfetch Hok Hstatus Hhtml Hbody)
        as [lines ->]
  end.
  unfold prependPage. pexec.
  assert (Hbig : (length bytes <? 1000)%nat = false) by (apply Nat.ltb_ge; exact Hsize).
  rewrite Hbig. pexec. save_and_list Hstore stored.
  split; [reflexivity|]. split; [assumption|].
  split; [apply fmap_Permutation, inKeyOrder_Permutation|]. split; reflexivity.
Qed.

End OnThePlatform.

Lemma upload_caches_file_witness :
  let o := runPage (pagePlatform goodWeb) (handleFileUpload [npgLite] initialPage) cachedWorld in
  let stored := <["NPG-LITE.bin" := mkFirmwareRecord "NPG-LITE.bin" firmwareBody
                                     (clock cachedWorld) 1000]> cachedRecords in
  pageOutcome o = Ok UploadSaved
  /\ storeHolds (pageWorld o) stored
  /\ localFirmwares (core (pageOf o)) ≡ₚ map infoOf (map_to_list stored).*2
  /\ firmwareFile (core (pageOf o)) = Some npgLite.
Proof.
  apply (upload_caches_file goodWeb cachedWorld initialPage npgLite [] cachedRecords);
    [vm_compute; reflexivity | reflexivity | exact storeHolds_cachedWorld].
Defined.

Lemma download_stores_and_selects_witness :
  let o := runPage (pagePlatform goodWeb)
             (downloadGithubFirmware releaseUrl "NPG-LITE.bin" initialPage) cachedWorld in
  let stored := <["NPG-LITE.bin" := mkFirmwareRecord "NPG-LITE.bin" firmwareBody
                                     (clock cachedWorld) (length firmwareBody)]>
                  cachedRecords in
  pageOutcome o = Ok DownloadDone
  /\ storeHolds (pageWorld o) stored
  /\ localFirmwares (core (pageOf o)) ≡ₚ map infoOf (map_to_list stored).*2
  /\ firmwareFile (core (pageOf o)) = Some npgLite
  /\ showGithubDialog (core (pageOf o)) = false.
Proof.
  apply (download_stores_and_selects goodWeb cachedWorld initialPage releaseUrl "NPG-LITE.bin"
           (mkResponse true 200 (downloadUrl releaseUrl)) firmwareBody cachedRecords);
    [exact storeHolds_cachedWorld | reflexivity | reflexivity | reflexivity
    | vm_compute; reflexivity | reflexivity | vm_compute; lia].
Defined.

Lemma download_fails_without_body_witness :
  let o := runPage (pagePlatform shortWeb)
             (downloadGithubFirmware releaseUrl "NPG-LITE.bin" initialPage) cachedWorld in
  pageOutcome o = Ok DownloadFailed
  /\ Forall (fun c => isCore c = false) (pageCalls o)
  /\ firmwareFile (core (pageOf o)) = None
  /\ exists lines,
       logs (core (pageOf o))
       = lines ++ ["❌ Download failed for NPG-LITE.bin";
                   "❌ Download error: " +:+ downloadFailure]
               ++ manualInstructions "NPG-LITE.bin".
Proof.
  apply (download_fails_without_body (pagePlatform shortWeb) releaseUrl "NPG-LITE.bin"
           initialPage cachedWorld).
  intros bytes (response & _ & _ & _ & _ & Hbody). cbn in Hbody.
  injection Hbody as <-. vm_compute. lia.
Defined.
